(** * streaming-mcp: the MySQL query tool and its MCP dispatch

    A shallow embedding of [langchain_streaming_mcp/mysql_tool.py] and of the
    tool dispatch of [langchain_streaming_mcp/mcp_server.py].

    - Python [str] is a Rocq [string], the UTF-8 bytes of the text.
      [PyStr] gives the whitespace test and the case mappings on ASCII,
      where they are those of Python and where the denylist, the SQL
      keywords and the separators of the source live. What is stated of a
      text through them says which texts it is about; the validator is
      also written over any [strip] and [lower], with the two properties
      of Python's methods that it relies on.
    - The result dictionary of the executor is a record whose optional
      fields are the keys that may be absent; [dict.get(k, d)] is
      [default d].
    - The database driver (aiomysql) is not part of the program: a [driver]
      record says how each driver call of one invocation behaves, and every
      theorem quantifies over all drivers.
    - Methods of the tool run in a state-and-exception monad over the tool
      instance: its [_connection_pool] field, the pools it holds open and
      the log of driver calls it made. *)

From Stdlib Require Import ZArith Strings.String Strings.Ascii Numbers.DecimalString.
From stdpp Require Import base list sets strings.

Open Scope string_scope.

(** ** Python strings *)

Module PyStr.

(** [s.isascii()]: every character is below 128. On such a text the
    functions of this module are those of Python; outside of it Python
    also maps letters and removes whitespace that take more than one
    byte. *)
Fixpoint isascii (s : string) : bool :=
  match s with
  | EmptyString => true
  | String c s' => (nat_of_ascii c <? 128)%nat && isascii s'
  end.

(** [str.isspace] on the ASCII range: TAB, LF, VT, FF, CR, FS, GS, RS, US
    and the space. These are the characters [strip()] and [split()]
    remove. *)
Definition is_space (c : ascii) : bool :=
  let n := nat_of_ascii c in
  ((9 <=? n) && (n <=? 13) || (28 <=? n) && (n <=? 32))%nat.

Definition is_upper (c : ascii) : bool :=
  let n := nat_of_ascii c in ((65 <=? n) && (n <=? 90))%nat.

Definition is_lower (c : ascii) : bool :=
  let n := nat_of_ascii c in ((97 <=? n) && (n <=? 122))%nat.

(** The case mappings of the ASCII letters; every other character,
    and every byte of a character outside ASCII, is left as it is. *)
Definition to_lower (c : ascii) : ascii :=
  if is_upper c then ascii_of_nat (nat_of_ascii c + 32) else c.

Definition to_upper (c : ascii) : ascii :=
  if is_lower c then ascii_of_nat (nat_of_ascii c - 32) else c.

Fixpoint map_chars (f : ascii -> ascii) (s : string) : string :=
  match s with
  | EmptyString => EmptyString
  | String c s' => String (f c) (map_chars f s')
  end.

(** [s.lower()] and [s.upper()] of an ASCII text *)
Definition lower : string -> string := map_chars to_lower.
Definition upper : string -> string := map_chars to_upper.

(** [s.lstrip()] of an ASCII text *)
Fixpoint lstrip (s : string) : string :=
  match s with
  | EmptyString => EmptyString
  | String c s' => if is_space c then lstrip s' else s
  end.

(** [s.rstrip()] of an ASCII text: a character is kept when it is not a
    space or when something is kept after it. *)
Fixpoint rstrip (s : string) : string :=
  match s with
  | EmptyString => EmptyString
  | String c s' =>
      match rstrip s' with
      | EmptyString => if is_space c then EmptyString else String c EmptyString
      | r => String c r
      end
  end.

(** [s.strip()] of an ASCII text *)
Definition strip (s : string) : string := rstrip (lstrip s).

(** [s.startswith(p)] *)
Fixpoint startswith (p s : string) : bool :=
  match p, s with
  | EmptyString, _ => true
  | String _ _, EmptyString => false
  | String a p', String b s' => Ascii.eqb a b && startswith p' s'
  end.

(** [p in s] *)
Fixpoint contains (p s : string) : bool :=
  startswith p s ||
  match s with
  | EmptyString => false
  | String _ s' => contains p s'
  end.

(** [s.split()] of an ASCII text: the maximal runs of non-space
    characters, in order. [tok] is the run being read, if any. *)
Fixpoint split_go (tok : option string) (s : string) : list string :=
  match s with
  | EmptyString => match tok with Some t => [t] | None => [] end
  | String c s' =>
      if is_space c then
        match tok with
        | Some t => t :: split_go None s'
        | None => split_go None s'
        end
      else
        split_go (Some (default EmptyString tok ++ String c EmptyString)) s'
  end.

Definition split (s : string) : list string := split_go None s.

(** [sep.join(l)] *)
Fixpoint join (sep : string) (l : list string) : string :=
  match l with
  | [] => EmptyString
  | [x] => x
  | x :: l' => x ++ sep ++ join sep l'
  end.

(** Truth value of a string: empty strings are false. *)
Definition truthy (s : string) : bool :=
  match s with EmptyString => false | _ => true end.

(** [str(n)] for an integer *)
Definition of_Z (z : Z) : string := NilZero.string_of_int (Z.to_int z).

(** A pattern is tight when it is not empty and neither starts nor ends
    with a space: trimming a text cannot cut into its occurrences. *)
Definition starts_nonspace (p : string) : bool :=
  match p with
  | EmptyString => false
  | String a _ => negb (is_space a)
  end.

Fixpoint ends_nonspace (p : string) : bool :=
  match p with
  | EmptyString => false
  | String a EmptyString => negb (is_space a)
  | String _ p' => ends_nonspace p'
  end.

Definition tight (p : string) : bool := starts_nonspace p && ends_nonspace p.

(** A byte that [strip()] may remove at an end of a text: an ASCII
    whitespace character, or a byte of a character outside ASCII (the
    whitespace characters outside ASCII take several bytes, each of them
    above 127). *)
Definition is_margin (c : ascii) : bool :=
  is_space c || (128 <=? nat_of_ascii c)%nat.

Fixpoint margin (s : string) : bool :=
  match s with
  | EmptyString => true
  | String c s' => is_margin c && margin s'
  end.

(** A pattern is inner when it is not empty and neither starts nor ends
    with such a byte. *)
Definition starts_inner (p : string) : bool :=
  match p with
  | EmptyString => false
  | String a _ => negb (is_margin a)
  end.

Fixpoint ends_inner (p : string) : bool :=
  match p with
  | EmptyString => false
  | String a EmptyString => negb (is_margin a)
  | String _ p' => ends_inner p'
  end.

Definition inner (p : string) : bool := starts_inner p && ends_inner p.

(** What the validator relies on, of whatever [str.strip] does to a text:
    it removes a margin at each end and nothing else. *)
Definition trims (f : string -> string) : Prop :=
  forall s, exists a b,
    s = a ++ f s ++ b /\ margin a = true /\ margin b = true.

(** What it relies on, of whatever [str.lower] does to a text: an ASCII
    text without capitals that occurs in a text still occurs in its
    lowercased form. *)
Definition keeps_lowercase (f : string -> string) : Prop :=
  forall p s,
    isascii p = true -> lower p = p ->
    contains p s = true -> contains p (f s) = true.

(** The first whitespace-delimited token of a text: the characters from
    the first one that is not a space up to the next space. It is empty
    when the text is blank. *)
Fixpoint span_nonspace (s : string) : string :=
  match s with
  | EmptyString => EmptyString
  | String c s' => if is_space c then EmptyString else String c (span_nonspace s')
  end.

Definition first_token (s : string) : string := span_nonspace (lstrip s).

End PyStr.

(** ** Exceptions *)

(** An exception is known by [type(e).__name__] and [str(e)], the two things
    the source reads from it. *)
Record pyexc := Exc { exc_class : string; exc_msg : string }.

Definition ValueError (msg : string) : pyexc := Exc "ValueError" msg.
Definition IndexError (msg : string) : pyexc := Exc "IndexError" msg.
Definition AttributeError (msg : string) : pyexc := Exc "AttributeError" msg.

(** ** MySQLQueryInput.validate_query *)

Definition dangerous_patterns : list string :=
  [ "drop database"; "drop schema"; "drop table"; "truncate table";
    "delete from"; "format c:"; "rm -rf"; "shutdown"; "system"; "exec(";
    "xp_cmdshell" ].

(** The [for pattern in dangerous_patterns] loop: the first pattern, in list
    order, that occurs in the text. *)
Fixpoint first_dangerous (patterns : list string) (query_lower : string)
  : option string :=
  match patterns with
  | [] => None
  | pattern :: rest =>
      if PyStr.contains pattern query_lower then Some pattern
      else first_dangerous rest query_lower
  end.

(** The validator calls two methods of [str], [strip] and [lower]. It is
    written over any two functions in their place; [validate_query] is
    the instance with the functions of [PyStr], which are those of Python
    on ASCII texts. *)
Section Validator.

Variables strip lower : string -> string.

Definition validate_query_with (v : string) : pyexc + string :=
  if negb (PyStr.truthy v) || negb (PyStr.truthy (strip v)) then
    inl (ValueError "Query cannot be empty")
  else
    let query_lower := strip (lower v) in
    match first_dangerous dangerous_patterns query_lower with
    | Some pattern =>
        inl (ValueError
               ("Query contains potentially dangerous pattern: " ++ pattern))
    | None => inr v
    end.

End Validator.

Definition validate_query (v : string) : pyexc + string :=
  validate_query_with PyStr.strip PyStr.lower v.

(** ** Values of the driver *)

(** A column value as the driver hands it over: [None], an [int] or a
    [str]. *)
Inductive value := VNone | VInt (z : Z) | VStr (s : string).

Definition row := list value.

Module PyVal.

Definition nl : string := String (ascii_of_nat 10) EmptyString.

Definition hex_digit (n : nat) : ascii :=
  match n with
  | 0 => "0" | 1 => "1" | 2 => "2" | 3 => "3" | 4 => "4" | 5 => "5"
  | 6 => "6" | 7 => "7" | 8 => "8" | 9 => "9" | 10 => "a" | 11 => "b"
  | 12 => "c" | 13 => "d" | 14 => "e" | _ => "f"
  end%char.

(** One character of [repr(s)], [quote] being the delimiter chosen. The
    control characters of ASCII are escaped; the bytes of a character
    outside ASCII are kept, as Python keeps the printable ones. *)
Definition repr_char (quote c : ascii) : string :=
  let n := nat_of_ascii c in
  if Ascii.eqb c quote || Ascii.eqb c "\"%char then
    String "\"%char (String c EmptyString)
  else if (n =? 9)%nat then "\t"
  else if (n =? 10)%nat then "\n"
  else if (n =? 13)%nat then "\r"
  else if (n <? 32)%nat || (n =? 127)%nat then
    String "\"%char
      (String "x"%char
         (String (hex_digit (n / 16)) (String (hex_digit (n mod 16)) EmptyString)))
  else String c EmptyString.

Fixpoint concat_chars (f : ascii -> string) (s : string) : string :=
  match s with
  | EmptyString => EmptyString
  | String c s' => f c ++ concat_chars f s'
  end.

(** [repr(s)] of a string: single quotes unless the text has a single
    quote and no double quote. *)
Definition repr_str (s : string) : string :=
  let quote : ascii :=
    if PyStr.contains "'" s && negb (PyStr.contains (String (ascii_of_nat 34) EmptyString) s)
    then ascii_of_nat 34 else "'"%char in
  String quote (concat_chars (repr_char quote) s ++ String quote EmptyString).

(** [str(v)] *)
Definition str (v : value) : string :=
  match v with
  | VNone => "None"
  | VInt z => PyStr.of_Z z
  | VStr s => s
  end.

(** [repr(v)] *)
Definition repr (v : value) : string :=
  match v with
  | VNone => "None"
  | VInt z => PyStr.of_Z z
  | VStr s => repr_str s
  end.

(** [str(row)] of a list of values, which is what [f"{row}"] prints. *)
Definition str_row (r : row) : string :=
  "[" ++ PyStr.join ", " (map repr r) ++ "]".

(** Truth value: [None], [0] and the empty string are false. *)
Definition truthy (v : value) : bool :=
  match v with
  | VNone => false
  | VInt z => negb (z =? 0)%Z
  | VStr s => PyStr.truthy s
  end.

(** [v == s] for a string literal [s] *)
Definition eq_str (v : value) (s : string) : bool :=
  match v with
  | VStr t => String.eqb t s
  | _ => false
  end.

Definition is_not_None (v : value) : bool :=
  match v with VNone => false | _ => true end.

End PyVal.

(** ** The driver *)

(** The second item of a column descriptor, of which the source reads the
    truth value and the [__name__] attribute. *)
Inductive type_code :=
| TypeFalse                      (* a false value *)
| TypeNamed (name : string)      (* an object with a [__name__] *)
| TypeUnnamed (cls : string).    (* a true object of class [cls] without one *)

(** One 7-item entry of [cursor.description]. *)
Record descriptor := Descriptor {
  desc_name : string;
  desc_type : type_code;
  desc_display_size : value;
  desc_internal_size : value;
  desc_precision : value;
  desc_scale : value;
  desc_null_ok : value
}.

(** What a cursor holds once a statement has been executed. *)
Record cursor := Cursor {
  cur_rows : list row;                        (* the complete result set *)
  cur_description : option (list descriptor); (* [None] when there is none *)
  cur_rowcount : Z;
  cur_lastrowid : option value;               (* [None]: no such attribute *)
  cur_fetch_error : option pyexc              (* raised by a fetch, if any *)
}.

(** How the driver answers during one invocation. *)
Record driver := Driver {
  drv_create_pool : option pyexc;        (* [aiomysql.create_pool] raises *)
  drv_acquire : option pyexc;            (* [pool.acquire()] raises *)
  drv_cursor : option pyexc;             (* [connection.cursor()] raises *)
  drv_execute : string -> pyexc + cursor; (* [cursor.execute(sql)] *)
  drv_time : Z                           (* reading of the event-loop clock *)
}.

(** The rows of a Python slice [l[0:stop]]. *)
Definition slice_to {A} (stop : Z) (l : list A) : list A :=
  if (0 <=? stop)%Z then take (Z.to_nat stop) l
  else take (length l - Z.to_nat (- stop)) l.

(** [cursor.fetchmany(size)] on a fresh result set: [rows[0:size or 1]],
    the array size of a cursor being 1. *)
Definition fetchmany_rows (size : Z) (rows : list row) : list row :=
  slice_to (if (size =? 0)%Z then 1%Z else size) rows.

(** ** The tool instance and its monad *)

Definition pool := nat.

Inductive db_call :=
| CreatePool
| ClosePool (p : pool)
| Acquire (p : pool)
| Release (p : pool)
| OpenCursor
| CloseCursor
| Execute (sql : string)
| FetchMany (size : Z)
| FetchAll.

Record tool := Tool {
  _connection_pool : option pool;   (* the field of the same name *)
  live_pools : list pool;           (* pools created and not yet closed *)
  pools_created : nat;              (* how many pools were ever created *)
  calls : list db_call              (* driver calls made, oldest first *)
}.

Definition new_tool : tool :=
  {| _connection_pool := None; live_pools := []; pools_created := 0; calls := [] |}.

Definition M (A : Type) : Type := tool -> (pyexc + A) * tool.

Definition ret {A} (a : A) : M A := fun self => (inr a, self).

Definition raise {A} (e : pyexc) : M A := fun self => (inl e, self).

Definition bind {A B} (m : M A) (k : A -> M B) : M B :=
  fun self =>
    match m self with
    | (inr a, self') => k a self'
    | (inl e, self') => (inl e, self')
    end.

(** [try: m except Exception as e: h e] *)
Definition try_except {A} (m : M A) (h : pyexc -> M A) : M A :=
  fun self =>
    match m self with
    | (inr a, self') => (inr a, self')
    | (inl e, self') => h e self'
    end.

(** [try: m finally: f], where [f] does not raise. *)
Definition finally {A} (m : M A) (f : tool -> tool) : M A :=
  fun self => let '(r, self') := m self in (r, f self').

(** The instance after one more driver call. *)
Definition record_call (c : db_call) (self : tool) : tool :=
  {| _connection_pool := _connection_pool self;
     live_pools := live_pools self;
     pools_created := pools_created self;
     calls := calls self ++ [c] |}.

Definition log (c : db_call) : M unit :=
  fun self => (inr tt, record_call c self).

Declare Scope tool_scope.
Delimit Scope tool_scope with tool.
Notation "x <- m ;; k" := (bind m (fun x => k))
  (at level 100, m at next level, right associativity) : tool_scope.
Notation "m ;;; k" := (bind m (fun _ => k))
  (at level 100, right associativity) : tool_scope.
Open Scope tool_scope.

(** A driver call that either raises or returns nothing. *)
Definition driver_call (c : db_call) (outcome : option pyexc) : M unit :=
  log c ;;;
  match outcome with
  | Some e => raise e
  | None => ret tt
  end.

(** ** The connection pool *)

Section Tool.

Variable drv : driver.

(** [MySQLTool._get_connection_pool] *)
Definition _get_connection_pool : M pool :=
  fun self =>
    match _connection_pool self with
    | Some p => (inr p, self)
    | None =>
        match drv_create_pool drv with
        | Some e => (inl e, record_call CreatePool self)
        | None =>
            let p := pools_created self in
            (inr p,
             {| _connection_pool := Some p;
                live_pools := p :: live_pools self;
                pools_created := S (pools_created self);
                calls := calls self ++ [CreatePool] |})
        end
    end.

(** [MySQLTool._close_connection_pool] *)
Definition _close_connection_pool : M unit :=
  fun self =>
    match _connection_pool self with
    | Some p =>
        (inr tt,
         {| _connection_pool := None;
            live_pools := filter (fun p' => p' ≠ p) (live_pools self);
            pools_created := pools_created self;
            calls := calls self ++ [ClosePool p] |})
    | None => (inr tt, self)
    end.

(** [MySQLTool.close] *)
Definition close : M unit := _close_connection_pool.

(** ** The result record *)

(** A column of the [columns] key: a dictionary for a SELECT, a bare name
    otherwise. *)
Inductive column :=
| ColDict (name type : string)
          (display_size internal_size precision scale null_ok : value)
| ColName (name : string).

(** The dictionary [_execute_query] returns. A field is [None] when the
    key is absent. *)
Record result := Result {
  r_query : option string;
  r_query_type : option string;
  r_success : option bool;
  r_timestamp : option Z;
  r_rows : option (list row);
  r_row_count : option Z;
  r_limited : option bool;
  r_columns : option (list column);
  r_affected_rows : option Z;
  r_last_insert_id : option value;
  r_ddl_executed : option bool;
  r_message : option string;
  r_error : option string;
  r_error_type : option string
}.

(** The four keys every success record starts with. *)
Definition base_result (query query_type : string) (now : Z) : result :=
  {| r_query := Some query; r_query_type := Some query_type;
     r_success := Some true; r_timestamp := Some now;
     r_rows := None; r_row_count := None; r_limited := None;
     r_columns := None; r_affected_rows := None; r_last_insert_id := None;
     r_ddl_executed := None; r_message := None;
     r_error := None; r_error_type := None |}.

(** The record of the [except] branch. *)
Definition failure_result (query : string) (e : pyexc) (now : Z) : result :=
  {| r_query := Some query; r_query_type := None;
     r_success := Some false; r_timestamp := Some now;
     r_rows := None; r_row_count := None; r_limited := None;
     r_columns := None; r_affected_rows := None; r_last_insert_id := None;
     r_ddl_executed := None; r_message := None;
     r_error := Some (exc_msg e); r_error_type := Some (exc_class e) |}.

Definition with_rows (r : result) (rows : list row) (row_count : Z)
           (limited : option bool) : result :=
  {| r_query := r_query r; r_query_type := r_query_type r;
     r_success := r_success r; r_timestamp := r_timestamp r;
     r_rows := Some rows; r_row_count := Some row_count; r_limited := limited;
     r_columns := r_columns r; r_affected_rows := r_affected_rows r;
     r_last_insert_id := r_last_insert_id r;
     r_ddl_executed := r_ddl_executed r; r_message := r_message r;
     r_error := r_error r; r_error_type := r_error_type r |}.

Definition with_columns (r : result) (columns : list column) : result :=
  {| r_query := r_query r; r_query_type := r_query_type r;
     r_success := r_success r; r_timestamp := r_timestamp r;
     r_rows := r_rows r; r_row_count := r_row_count r; r_limited := r_limited r;
     r_columns := Some columns; r_affected_rows := r_affected_rows r;
     r_last_insert_id := r_last_insert_id r;
     r_ddl_executed := r_ddl_executed r; r_message := r_message r;
     r_error := r_error r; r_error_type := r_error_type r |}.

Definition with_affected (r : result) (affected_rows : Z)
           (last_insert_id : value) : result :=
  {| r_query := r_query r; r_query_type := r_query_type r;
     r_success := r_success r; r_timestamp := r_timestamp r;
     r_rows := r_rows r; r_row_count := r_row_count r; r_limited := r_limited r;
     r_columns := r_columns r; r_affected_rows := Some affected_rows;
     r_last_insert_id := Some last_insert_id;
     r_ddl_executed := r_ddl_executed r; r_message := r_message r;
     r_error := r_error r; r_error_type := r_error_type r |}.

Definition with_ddl (r : result) (message : string) : result :=
  {| r_query := r_query r; r_query_type := r_query_type r;
     r_success := r_success r; r_timestamp := r_timestamp r;
     r_rows := r_rows r; r_row_count := r_row_count r; r_limited := r_limited r;
     r_columns := r_columns r; r_affected_rows := r_affected_rows r;
     r_last_insert_id := r_last_insert_id r;
     r_ddl_executed := Some true; r_message := Some message;
     r_error := r_error r; r_error_type := r_error_type r |}.

(** ** Statement types *)

(** [query.strip().upper().split()[0]]; [None] stands for the
    [IndexError] of an empty list. *)
Definition query_type_of (query : string) : option string :=
  head (PyStr.split (PyStr.upper (PyStr.strip query))).

(** The branch of the [if]/[elif] chain a type tag selects. *)
Inductive statement_kind := ReadStmt | MutationStmt | DefinitionStmt | OtherStmt.

Definition kind_of_type (query_type : string) : statement_kind :=
  if String.eqb query_type "SELECT" then ReadStmt
  else if String.eqb query_type "INSERT" || String.eqb query_type "UPDATE"
          || String.eqb query_type "DELETE" then MutationStmt
  else if String.eqb query_type "CREATE" || String.eqb query_type "ALTER"
          || String.eqb query_type "DROP" then DefinitionStmt
  else OtherStmt.

(** ** The cursor *)

(** [await cursor.execute(sql)] *)
Definition cursor_execute (sql : string) : M cursor :=
  log (Execute sql) ;;;
  match drv_execute drv sql with
  | inl e => raise e
  | inr cur => ret cur
  end.

(** [await cursor.fetchmany(size)] *)
Definition cursor_fetchmany (cur : cursor) (size : Z) : M (list row) :=
  log (FetchMany size) ;;;
  match cur_fetch_error cur with
  | Some e => raise e
  | None => ret (fetchmany_rows size (cur_rows cur))
  end.

(** [await cursor.fetchall()] *)
Definition cursor_fetchall (cur : cursor) : M (list row) :=
  log FetchAll ;;;
  match cur_fetch_error cur with
  | Some e => raise e
  | None => ret (cur_rows cur)
  end.

(** [async with pool.acquire() as connection: body] *)
Definition with_connection {A} (p : pool) (body : M A) : M A :=
  driver_call (Acquire p) (drv_acquire drv) ;;;
  finally body (record_call (Release p)).

(** [async with connection.cursor() as cursor: body] *)
Definition with_cursor {A} (body : M A) : M A :=
  driver_call OpenCursor (drv_cursor drv) ;;;
  finally body (record_call CloseCursor).

(** ** MySQLTool._execute_query *)

(** [desc[1].__name__ if desc[1] else "unknown"] *)
Definition type_name (t : type_code) : pyexc + string :=
  match t with
  | TypeFalse => inr "unknown"
  | TypeNamed name => inr name
  | TypeUnnamed cls =>
      inl (AttributeError ("'" ++ cls ++ "' object has no attribute '__name__'"))
  end.

(** The list comprehension that builds the column dictionaries. *)
Fixpoint select_columns (description : list descriptor) : pyexc + list column :=
  match description with
  | [] => inr []
  | desc :: rest =>
      match type_name (desc_type desc) with
      | inl e => inl e
      | inr ty =>
          match select_columns rest with
          | inl e => inl e
          | inr cols =>
              inr (ColDict (desc_name desc) ty (desc_display_size desc)
                     (desc_internal_size desc) (desc_precision desc)
                     (desc_scale desc) (desc_null_ok desc) :: cols)
          end
      end
  end.

Definition lift {A} (x : pyexc + A) : M A :=
  match x with
  | inl e => raise e
  | inr a => ret a
  end.

(** [fetch_metadata and cursor.description]: the descriptors to report,
    if any. *)
Definition wanted_description (fetch_metadata : bool) (cur : cursor)
  : option (list descriptor) :=
  if fetch_metadata then
    match cur_description cur with
    | Some (d :: ds) => Some (d :: ds)
    | _ => None
    end
  else None.

(** The body of the [try] block, first part: [if database: await
    cursor.execute(f"USE {database}")]. *)
Definition switch_database (database : option string) : M unit :=
  match database with
  | Some db =>
      if PyStr.truthy db then cursor_execute ("USE " ++ db) ;;; ret tt
      else ret tt
  | None => ret tt
  end.

(** The body of the [try] block, second part: the statement is executed
    and its outcome shaped by type. *)
Definition execute_statement (query : string) (limit : Z)
           (fetch_metadata : bool) : M result :=
  cur <- cursor_execute query ;;
  query_type <- lift (match query_type_of query with
                      | Some t => inr t
                      | None => inl (IndexError "list index out of range")
                      end) ;;
  let result := base_result query query_type (drv_time drv) in
  match kind_of_type query_type with
  | ReadStmt =>
      rows <- cursor_fetchmany cur limit ;;
      let result :=
        with_rows result rows (Z.of_nat (length rows))
          (Some (match rows with
                 | [] => false
                 | _ => (Z.of_nat (length rows) =? limit)%Z
                 end)) in
      match wanted_description fetch_metadata cur with
      | Some description =>
          columns <- lift (select_columns description) ;;
          ret (with_columns result columns)
      | None => ret result
      end
  | MutationStmt =>
      ret (with_affected result (cur_rowcount cur)
             (default VNone (cur_lastrowid cur)))
  | DefinitionStmt =>
      ret (with_ddl result "DDL statement executed successfully")
  | OtherStmt =>
      rows <- cursor_fetchall cur ;;
      let result := with_rows result rows (Z.of_nat (length rows)) None in
      match wanted_description fetch_metadata cur with
      | Some description =>
          ret (with_columns result (map (fun desc => ColName (desc_name desc)) description))
      | None => ret result
      end
  end.

Definition execute_guarded (query : string) (database : option string)
           (limit : Z) (fetch_metadata : bool) : M result :=
  switch_database database ;;;
  execute_statement query limit fetch_metadata.

Definition _execute_query (query : string) (database : option string)
           (limit : Z) (fetch_metadata : bool) : M result :=
  p <- _get_connection_pool ;;
  with_connection p
    (with_cursor
       (try_except
          (execute_guarded query database limit fetch_metadata)
          (fun e => ret (failure_result query e (drv_time drv))))).

(** The three acquisitions that precede the [try] block succeed: a pool is
    cached or can be created, a connection and a cursor are handed out. *)
Definition acquires (self : tool) : Prop :=
  (is_Some (_connection_pool self) \/ drv_create_pool drv = None) /\
  drv_acquire drv = None /\ drv_cursor drv = None.

(** The descriptors to report all have a type the source can name. *)
Definition metadata_readable (fm : bool) (cur : cursor) : Prop :=
  match wanted_description fm cur with
  | Some description => exists columns, select_columns description = inr columns
  | None => True
  end.

(** The instance as the [try] block finds it, [p] being the pool in use. *)
Definition at_cursor (p : pool) (self : tool) : tool :=
  record_call OpenCursor (record_call (Acquire p) self).

(** No database was asked for, or the switch to it went through. *)
Definition switch_succeeds (database : option string) : Prop :=
  match database with
  | Some db =>
      PyStr.truthy db = true -> exists cur, drv_execute drv ("USE " ++ db) = inr cur
  | None => True
  end.

End Tool.

(** ** MySQLTool._format_result *)

(** The formatter receives the result dictionary, a mutable object; it is
    written as a state-passing computation over that dictionary, so that
    what it does to it is part of the model. *)
Definition Fmt (A : Type) : Type := result -> A * result.

Definition fret {A} (a : A) : Fmt A := fun result => (a, result).

Definition fbind {A B} (m : Fmt A) (k : A -> Fmt B) : Fmt B :=
  fun result => let '(a, result') := m result in k a result'.

(** [result.get(key, dflt)] *)
Definition get {A} (key : result -> option A) (dflt : A) : Fmt A :=
  fun result => (default dflt (key result), result).

(** A computation that leaves the dictionary as it found it. *)
Definition reads {A} (m : Fmt A) : Prop := forall result, snd (m result) = result.

Declare Scope fmt_scope.
Delimit Scope fmt_scope with fmt.
Notation "x <- m ;; k" := (fbind m (fun x => k))
  (at level 100, m at next level, right associativity) : fmt_scope.

(** [col["name"] if isinstance(col, dict) else str(col)] *)
Definition col_name (col : column) : string :=
  match col with
  | ColDict name _ _ _ _ _ _ => name
  | ColName name => name
  end.

Definition _format_result : Fmt string :=
  (success <- get r_success false ;;
   if negb success then
     error <- get r_error "Unknown error" ;;
     query <- get r_query "N/A" ;;
     fret ("❌ MySQL Error: " ++ error ++ PyVal.nl ++ "Query: " ++ query)
   else
     query_type <- get r_query_type "UNKNOWN" ;;
     let formatted :=
       "✅ MySQL " ++ query_type ++ " Query Executed Successfully" ++ PyVal.nl in
     query <- get r_query "N/A" ;;
     let formatted := formatted ++ "Query: " ++ query ++ PyVal.nl in
     if String.eqb query_type "SELECT" then
       row_count <- get r_row_count 0%Z ;;
       limited <- get r_limited false ;;
       let formatted := formatted ++ "Rows returned: " ++ PyStr.of_Z row_count in
       let formatted := if limited then formatted ++ " (limited)" else formatted in
       let formatted := formatted ++ PyVal.nl in
       columns <- get r_columns [] ;;
       let formatted :=
         match columns with
         | [] => formatted
         | _ => formatted ++ "Columns: "
                  ++ PyStr.join ", " (map col_name columns) ++ PyVal.nl
         end in
       rows <- get r_rows [] ;;
       let formatted :=
         match rows with
         | [] => formatted
         | _ =>
             let formatted := formatted ++ PyVal.nl ++ "Data:" ++ PyVal.nl in
             let formatted :=
               formatted ++
               String.concat EmptyString
                 (imap (fun i row =>
                          "  Row " ++ PyStr.of_Z (Z.of_nat i + 1) ++ ": "
                            ++ PyVal.str_row row ++ PyVal.nl)
                       (take 5 rows)) in
             if (5 <? length rows)%nat then
               formatted ++ "  ... and "
                 ++ PyStr.of_Z (Z.of_nat (length rows) - 5) ++ " more rows" ++ PyVal.nl
             else formatted
         end in
       fret formatted
     else if String.eqb query_type "INSERT" || String.eqb query_type "UPDATE"
             || String.eqb query_type "DELETE" then
       affected_rows <- get r_affected_rows 0%Z ;;
       let formatted :=
         formatted ++ "Affected rows: " ++ PyStr.of_Z affected_rows ++ PyVal.nl in
       last_id <- get r_last_insert_id VNone ;;
       let formatted :=
         if PyVal.truthy last_id
         then formatted ++ "Last insert ID: " ++ PyVal.str last_id ++ PyVal.nl
         else formatted in
       fret formatted
     else
       ddl_executed <- get r_ddl_executed false ;;
       if ddl_executed then
         message <- get r_message "DDL executed successfully" ;;
         fret (formatted ++ message ++ PyVal.nl)
       else
         rows <- get r_rows [] ;;
         let formatted :=
           formatted ++ "Rows returned: "
             ++ PyStr.of_Z (Z.of_nat (length rows)) ++ PyVal.nl in
         let formatted :=
           match rows with
           | [] => formatted
           | _ =>
               formatted ++ "Results:" ++ PyVal.nl ++
               String.concat EmptyString
                 (imap (fun i row =>
                          "  " ++ PyStr.of_Z (Z.of_nat i + 1) ++ ". "
                            ++ PyVal.str_row row ++ PyVal.nl)
                       (take 10 rows))
           end in
         fret formatted)%fmt.

(** ** Stream events *)

Inductive event :=
| EvMetadata (query query_type : option string) (columns : list column)
             (success : bool) (error : option string)
| EvRow (index : nat) (r : row)
| EvSummary (row_count : Z) (limited : bool) (affected_rows : option Z)
            (last_insert_id : value) (ddl_executed : bool)
            (message : option string)
| EvError (error error_type : string).

Definition metadata_event (result : result) : event :=
  EvMetadata (r_query result) (r_query_type result)
    (default [] (r_columns result)) (default false (r_success result))
    (r_error result).

Definition summary_event (result : result) : event :=
  EvSummary (default 0%Z (r_row_count result)) (default false (r_limited result))
    (r_affected_rows result) (default VNone (r_last_insert_id result))
    (default false (r_ddl_executed result)) (r_message result).

(** The [row] events of a record: one per row of a successful SELECT. *)
Definition row_events (result : result) : list event :=
  if default false (r_success result)
     && bool_decide (r_query_type result = Some "SELECT")
  then imap EvRow (default [] (r_rows result))
  else [].

(** The ["event"] key of a stream event. *)
Definition event_tag (e : event) : string :=
  match e with
  | EvMetadata _ _ _ _ _ => "metadata"
  | EvRow _ _ => "row"
  | EvSummary _ _ _ _ _ _ => "summary"
  | EvError _ _ => "error"
  end.

Section Entry.

Variable drv : driver.

(** [MySQLTool._arun] *)
Definition _arun (query : string) (database : option string) (limit : Z)
           (fetch_metadata : bool) : M string :=
  try_except
    (result <- _execute_query drv query database limit fetch_metadata ;;
     ret (fst (_format_result result)))
    (fun e =>
       ret ("❌ MySQL Tool Error: " ++ exc_msg e ++ PyVal.nl ++ "Query: " ++ query)).

(** [MySQLTool.astream_events]: the events the generator yields when it
    is drained. [input] is the query and [config] the database. *)
Definition astream_events (input : string) (config : option string)
           (limit : Z) (fetch_metadata : bool) : M (list event) :=
  try_except
    (result <- _execute_query drv input config limit fetch_metadata ;;
     ret (metadata_event result :: row_events result ++ [summary_event result])%list)
    (fun e => ret [EvError (exc_msg e) (exc_class e)]).

End Entry.

(** ** MySQLSchemaTool._arun *)

(** Truth value of an optional string argument: [None] and the empty string
    are false. *)
Definition given (s : option string) : bool :=
  match s with
  | Some s => PyStr.truthy s
  | None => false
  end.

(** [f"{s}"] for an optional string *)
Definition show (s : option string) : string := default "None" s.

(** [[row[0] for row in rows]] *)
Fixpoint first_values (rows : list row) : pyexc + list value :=
  match rows with
  | [] => inr []
  | r :: rest =>
      match r with
      | [] => inl (IndexError "list index out of range")
      | v :: _ =>
          match first_values rest with
          | inl e => inl e
          | inr vs => inr (v :: vs)
          end
      end
  end.

Definition bullet (v : value) : string := "  • " ++ PyVal.str v.

(** The text appended for one row of a DESCRIBE result, after the row has
    been unpacked into its six fields. *)
Definition describe_fields (field type_ null key default_ extra : value) : string :=
  let schema_info := "  • " ++ PyVal.str field ++ ": " ++ PyVal.str type_ in
  let schema_info :=
    if PyVal.truthy key then schema_info ++ " (" ++ PyVal.str key ++ ")"
    else schema_info in
  let schema_info :=
    if PyVal.eq_str null "NO" then schema_info ++ " NOT NULL" else schema_info in
  let schema_info :=
    if PyVal.is_not_None default_
    then schema_info ++ " DEFAULT " ++ PyVal.str default_ else schema_info in
  let schema_info :=
    if PyVal.truthy extra then schema_info ++ " " ++ PyVal.str extra
    else schema_info in
  schema_info ++ PyVal.nl.

(** [field, type_, null, key, default, extra = row] and the lines that
    follow it. *)
Definition describe_row (r : row) : pyexc + string :=
  match r with
  | [field; type_; null; key; default_; extra] =>
      inr (describe_fields field type_ null key default_ extra)
  | _ =>
      if (length r <? 6)%nat then
        inl (ValueError ("not enough values to unpack (expected 6, got "
                           ++ PyStr.of_Z (Z.of_nat (length r)) ++ ")"))
      else inl (ValueError "too many values to unpack (expected 6)")
  end.

(** The [for row in rows] loop of the DESCRIBE branch. *)
Fixpoint describe_rows (schema_info : string) (rows : list row) : pyexc + string :=
  match rows with
  | [] => inr schema_info
  | r :: rest =>
      match describe_row r with
      | inl e => inl e
      | inr line => describe_rows (schema_info ++ line) rest
      end
  end.

(** The statement the DESCRIBE branch builds. *)
Definition describe_query (database : option string) (table : string) : string :=
  "DESCRIBE " ++ (if given database then show database ++ "." else EmptyString)
    ++ table.

Module MySQLSchemaTool.
Section Schema.

Variable drv : driver.

(** The state is the [MySQLTool] the schema tool owns. *)
Definition _arun (database table : option string) (include_data_types : bool)
  : M string :=
  try_except
    (if negb (given database) && negb (given table) then
       result <- _execute_query drv "SHOW DATABASES" None 100 true ;;
       if default false (r_success result) then
         databases <- lift (first_values (default [] (r_rows result))) ;;
         ret ("📚 Available Databases:" ++ PyVal.nl
                ++ PyStr.join PyVal.nl (map bullet databases))
       else
         ret ("❌ Error listing databases: " ++ show (r_error result))
     else if given database && negb (given table) then
       let query := "SHOW TABLES FROM " ++ show database in
       result <- _execute_query drv query None 100 true ;;
       if default false (r_success result) then
         tables <- lift (first_values (default [] (r_rows result))) ;;
         ret ("📋 Tables in database '" ++ show database ++ "':" ++ PyVal.nl
                ++ PyStr.join PyVal.nl (map bullet tables))
       else
         ret ("❌ Error listing tables: " ++ show (r_error result))
     else
       let db_prefix := if given database then show database ++ "." else EmptyString in
       let query := "DESCRIBE " ++ db_prefix ++ show table in
       result <- _execute_query drv query database 100 true ;;
       if default false (r_success result) then
         match default [] (r_rows result) with
         | [] =>
             ret ("📋 Table '" ++ show table ++ "' has no columns or doesn't exist")
         | rows =>
             lift (describe_rows
                     ("🔍 Schema for table '" ++ show table ++ "':" ++ PyVal.nl)
                     rows)
         end
       else
         ret ("❌ Error describing table: " ++ show (r_error result)))
    (fun e => ret ("❌ MySQL Schema Tool Error: " ++ exc_msg e)).

End Schema.
End MySQLSchemaTool.

(** ** MySQLQueryInput *)

(** The arguments of a tool call, a JSON object whose keys may be absent. *)
Record arguments := Arguments {
  arg_query : option string;
  arg_database : option string;
  arg_limit : option Z;
  arg_fetch_metadata : option bool;
  arg_table : option string;
  arg_include_data_types : option bool
}.

Definition no_arguments : arguments :=
  {| arg_query := None; arg_database := None; arg_limit := None;
     arg_fetch_metadata := None; arg_table := None;
     arg_include_data_types := None |}.

Record MySQLQueryInput := QueryInput {
  query : string;
  database : option string;
  limit : Z;
  fetch_metadata : bool
}.

(** Building a [MySQLQueryInput] from arguments: [query] is required and
    goes through [validate_query]; the other fields have defaults. A
    rejection is given as the error the validator raised, which pydantic
    hands on inside a [ValidationError] of its own. *)
Definition parse_query_input (a : arguments) : pyexc + MySQLQueryInput :=
  match arg_query a with
  | None => inl (Exc "ValidationError" "query: field required")
  | Some v =>
      match validate_query v with
      | inl e => inl e
      | inr v =>
          inr {| query := v; database := arg_database a;
                 limit := default 100%Z (arg_limit a);
                 fetch_metadata := default true (arg_fetch_metadata a) |}
      end
  end.

(** ** MySQLMCPServer *)

(** The server owns a query tool and a schema tool, each with a pool of its
    own. *)
Record server := Server {
  mysql_tool : tool;
  schema_tool : tool
}.

Definition new_server : server :=
  {| mysql_tool := new_tool; schema_tool := new_tool |}.

Section Dispatch.

Variable drv : driver.

(** [handle_call_tool]; the texts of the [TextContent] blocks returned. *)
Definition handle_call_tool (name : string) (args : option arguments)
           (srv : server) : list string * server :=
  let args := default no_arguments args in
  if String.eqb name "mysql_query" then
    let query := default EmptyString (arg_query args) in
    let database := arg_database args in
    let limit := default 100%Z (arg_limit args) in
    let fetch_metadata := default true (arg_fetch_metadata args) in
    match _arun drv query database limit fetch_metadata (mysql_tool srv) with
    | (inr result, t) =>
        ([result], {| mysql_tool := t; schema_tool := schema_tool srv |})
    | (inl e, t) =>
        (["Error executing " ++ name ++ ": " ++ exc_msg e],
         {| mysql_tool := t; schema_tool := schema_tool srv |})
    end
  else if String.eqb name "mysql_schema" then
    let database := arg_database args in
    let table := arg_table args in
    let include_data_types := default true (arg_include_data_types args) in
    match MySQLSchemaTool._arun drv database table include_data_types
            (schema_tool srv) with
    | (inr result, t) =>
        ([result], {| mysql_tool := mysql_tool srv; schema_tool := t |})
    | (inl e, t) =>
        (["Error executing " ++ name ++ ": " ++ exc_msg e],
         {| mysql_tool := mysql_tool srv; schema_tool := t |})
    end
  else
    (["Error executing " ++ name ++ ": " ++ "Unknown tool: " ++ name], srv).

End Dispatch.

(** ** Histories of a tool instance *)

(** The operations that touch the pool of an instance, each with the driver
    behaviour it meets. *)
Inductive tool_op :=
| OpAcquire (drv : driver)
| OpClose
| OpQuery (drv : driver) (query : string) (database : option string)
          (limit : Z) (fetch_metadata : bool).

Definition apply_op (self : tool) (op : tool_op) : tool :=
  match op with
  | OpAcquire drv => snd (_get_connection_pool drv self)
  | OpClose => snd (_close_connection_pool self)
  | OpQuery drv query database limit fetch_metadata =>
      snd (_execute_query drv query database limit fetch_metadata self)
  end.

Definition run_ops (ops : list tool_op) (self : tool) : tool :=
  foldl apply_op self ops.

(** The pools an instance holds open are exactly the one it has cached. *)
Definition pool_inv (self : tool) : Prop :=
  live_pools self =
  match _connection_pool self with
  | Some p => [p]
  | None => []
  end.

(** The pool fields of an instance, apart from the log of calls. *)
Definition pools_of (self : tool) : option pool * list pool * nat :=
  (_connection_pool self, live_pools self, pools_created self).

(** ** Sample drivers *)

(** A cursor over a given result set, with no description and no error. *)
Definition cursor_of (rows : list row) : cursor :=
  {| cur_rows := rows; cur_description := None; cur_rowcount := 0;
     cur_lastrowid := Some (VInt 0); cur_fetch_error := None |}.

(** A server that accepts every statement and answers it with [rows]. *)
Definition driver_of (rows : list row) : driver :=
  {| drv_create_pool := None; drv_acquire := None; drv_cursor := None;
     drv_execute := fun _ => inr (cursor_of rows); drv_time := 0 |}.

(** A server that cannot be reached. *)
Definition unreachable : driver :=
  {| drv_create_pool := Some (Exc "OperationalError" "Can't connect to MySQL server");
     drv_acquire := None; drv_cursor := None;
     drv_execute := fun _ => inr (cursor_of []); drv_time := 0 |}.

(** A server that rejects every statement as malformed. *)
Definition rejecting : driver :=
  {| drv_create_pool := None; drv_acquire := None; drv_cursor := None;
     drv_execute := fun _ => inl (Exc "ProgrammingError" "You have an error in your SQL syntax");
     drv_time := 0 |}.

(** The arguments of a [mysql_query] call that gives the query alone. *)
Definition query_arguments (query : string) : arguments :=
  {| arg_query := Some query; arg_database := None; arg_limit := None;
     arg_fetch_metadata := None; arg_table := None;
     arg_include_data_types := None |}.

(** Three rows of a [users] table, and the rows DESCRIBE gives for it. *)
Definition sample_rows : list row :=
  [[VInt 1; VStr "ann"]; [VInt 2; VStr "bob"]; [VInt 3; VNone]].

Definition sample_schema : list row :=
  [[VStr "id"; VStr "int"; VStr "NO"; VStr "PRI"; VNone; VStr "auto_increment"];
   [VStr "name"; VStr "varchar(50)"; VStr "YES"; VStr EmptyString; VNone;
    VStr EmptyString]].

(** ** Calls on the cursor, and the server as a whole *)

(** A call made on the cursor while the guarded block runs. *)
Definition is_statement_call (c : db_call) : bool :=
  match c with
  | Execute _ | FetchMany _ | FetchAll => true
  | _ => false
  end.

(** A call that reads rows off the cursor. *)
Definition is_fetch (c : db_call) : bool :=
  match c with
  | FetchMany _ | FetchAll => true
  | _ => false
  end.

Module MySQLMCPServer.

(** [MySQLMCPServer.close]: the query tool is closed, then the schema tool,
    whose [close] closes the tool it owns. *)
Definition close (srv : server) : server :=
  {| mysql_tool := snd (close (mysql_tool srv));
     schema_tool := snd (close (schema_tool srv)) |}.

End MySQLMCPServer.

(** What happens to a server: tool calls, each with the driver behaviour it
    meets, and shutdowns. *)
Inductive server_op :=
| OpCall (drv : driver) (name : string) (args : option arguments)
| OpShutdown.

Definition apply_server_op (srv : server) (op : server_op) : server :=
  match op with
  | OpCall drv name args => snd (handle_call_tool drv name args srv)
  | OpShutdown => MySQLMCPServer.close srv
  end.

Definition run_server (ops : list server_op) (srv : server) : server :=
  foldl apply_server_op srv ops.


(** The dictionary the executor builds from one descriptor of a SELECT:
    the seven items in order, the type replaced by its name. *)
Definition column_of (desc : descriptor) (col : column) : Prop :=
  exists ty,
    type_name (desc_type desc) = inr ty /\
    col = ColDict (desc_name desc) ty (desc_display_size desc)
            (desc_internal_size desc) (desc_precision desc) (desc_scale desc)
            (desc_null_ok desc).


(** The record with its [rows] key set. *)
Definition set_rows (r : result) (rows : list row) : result :=
  {| r_query := r_query r; r_query_type := r_query_type r;
     r_success := r_success r; r_timestamp := r_timestamp r;
     r_rows := Some rows; r_row_count := r_row_count r; r_limited := r_limited r;
     r_columns := r_columns r; r_affected_rows := r_affected_rows r;
     r_last_insert_id := r_last_insert_id r;
     r_ddl_executed := r_ddl_executed r; r_message := r_message r;
     r_error := r_error r; r_error_type := r_error_type r |}.


(** ** More sample drivers *)

(** An instance right after its first pool was created. *)
Definition pooled : tool :=
  {| _connection_pool := Some 0%nat; live_pools := [0%nat];
     pools_created := 1; calls := [CreatePool] |}.

(** A server on which every statement touches three rows and leaves 42 as
    the last row id. *)
Definition mutating : driver :=
  {| drv_create_pool := None; drv_acquire := None; drv_cursor := None;
     drv_execute := fun _ =>
       inr {| cur_rows := []; cur_description := None; cur_rowcount := 3;
              cur_lastrowid := Some (VInt 42); cur_fetch_error := None |};
     drv_time := 0 |}.

(** The descriptors of [sample_rows], the second with a false type. *)
Definition sample_description : list descriptor :=
  [{| desc_name := "id"; desc_type := TypeNamed "int";
      desc_display_size := VNone; desc_internal_size := VInt 11;
      desc_precision := VInt 11; desc_scale := VInt 0; desc_null_ok := VInt 0 |};
   {| desc_name := "name"; desc_type := TypeFalse;
      desc_display_size := VNone; desc_internal_size := VInt 50;
      desc_precision := VInt 50; desc_scale := VInt 0; desc_null_ok := VInt 1 |}].

Definition described_cursor : cursor :=
  {| cur_rows := sample_rows; cur_description := Some sample_description;
     cur_rowcount := 3; cur_lastrowid := Some (VInt 0);
     cur_fetch_error := None |}.

(** A server that answers every statement with [sample_rows] and their
    description. *)
Definition described : driver :=
  {| drv_create_pool := None; drv_acquire := None; drv_cursor := None;
     drv_execute := fun _ => inr described_cursor; drv_time := 0 |}.

(** A server that knows no database: every [USE] fails. *)
Definition no_database : driver :=
  {| drv_create_pool := None; drv_acquire := None; drv_cursor := None;
     drv_execute := fun sql =>
       if PyStr.startswith "USE " sql
       then inl (Exc "OperationalError" "Unknown database")
       else inr (cursor_of []);
     drv_time := 0 |}.

(** * Properties *)

(** ** The model on sample inputs *)

Example strip_sample : PyStr.strip "  a b  " = "a b".
Proof. reflexivity. Qed.

Example split_sample :
  PyStr.split "  select  * from t " = ["select"; "*"; "from"; "t"].
Proof. reflexivity. Qed.

Example validate_select : validate_query "SELECT 1" = inr "SELECT 1".
Proof. reflexivity. Qed.

Example validate_blank :
  validate_query "   " = inl (ValueError "Query cannot be empty").
Proof. reflexivity. Qed.

Example validate_two_patterns :
  validate_query "call system; DROP TABLE users"
  = inl (ValueError "Query contains potentially dangerous pattern: drop table").
Proof. reflexivity. Qed.

Example query_type_samples :
  query_type_of "select * from t" = Some "SELECT" /\
  query_type_of "  Show   tables" = Some "SHOW" /\
  query_type_of "SELECT* FROM t" = Some "SELECT*" /\
  query_type_of "   " = None.
Proof. now repeat split. Qed.

Example repr_samples :
  PyVal.str_row [VInt 1; VStr "ann"; VNone] = "[1, 'ann', None]" /\
  PyVal.repr_str "it's" = String (ascii_of_nat 34) ("it's" ++ String (ascii_of_nat 34) EmptyString).
Proof. now split. Qed.

Example select_sample :
  fst (_arun (driver_of sample_rows) "SELECT id, name FROM users LIMIT 3" None 2
         true new_tool)
  = inr ("✅ MySQL SELECT Query Executed Successfully" ++ PyVal.nl
           ++ "Query: SELECT id, name FROM users LIMIT 3" ++ PyVal.nl
           ++ "Rows returned: 2 (limited)" ++ PyVal.nl
           ++ PyVal.nl ++ "Data:" ++ PyVal.nl
           ++ "  Row 1: [1, 'ann']" ++ PyVal.nl
           ++ "  Row 2: [2, 'bob']" ++ PyVal.nl).
Proof. reflexivity. Qed.

Example stream_sample :
  fst (astream_events (driver_of sample_rows) "SELECT id, name FROM users LIMIT 3"
         None 2 true new_tool)
  = inr [EvMetadata (Some "SELECT id, name FROM users LIMIT 3") (Some "SELECT")
           [] true None;
         EvRow 0 [VInt 1; VStr "ann"]; EvRow 1 [VInt 2; VStr "bob"];
         EvSummary 2 true None VNone false None].
Proof. reflexivity. Qed.

Example blank_query_sample :
  fst (_arun (driver_of []) "   " None 100 true new_tool)
  = inr ("❌ MySQL Error: list index out of range" ++ PyVal.nl ++ "Query:    ").
Proof. reflexivity. Qed.

Example unreachable_sample :
  fst (handle_call_tool unreachable "mysql_query"
         (Some (query_arguments "SELECT 1")) new_server)
  = ["❌ MySQL Tool Error: Can't connect to MySQL server" ++ PyVal.nl
       ++ "Query: SELECT 1"].
Proof. reflexivity. Qed.

Example unknown_tool_sample :
  fst (handle_call_tool (driver_of []) "mysql_dump" None new_server)
  = ["Error executing mysql_dump: Unknown tool: mysql_dump"].
Proof. reflexivity. Qed.

Example show_databases_sample :
  fst (MySQLSchemaTool._arun (driver_of [[VStr "app_db"]; [VStr "test_db"]])
         None None true new_tool)
  = inr ("📚 Available Databases:" ++ PyVal.nl
           ++ "  • app_db" ++ PyVal.nl ++ "  • test_db").
Proof. reflexivity. Qed.

Example describe_sample :
  fst (MySQLSchemaTool._arun (driver_of sample_schema) (Some "app")
         (Some "users") true new_tool)
  = inr ("🔍 Schema for table 'users':" ++ PyVal.nl
           ++ "  • id: int (PRI) NOT NULL auto_increment" ++ PyVal.nl
           ++ "  • name: varchar(50)" ++ PyVal.nl).
Proof. reflexivity. Qed.

Example describe_short_row_sample :
  fst (MySQLSchemaTool._arun (driver_of [[VStr "id"; VStr "int"]]) None
         (Some "users") true new_tool)
  = inr "❌ MySQL Schema Tool Error: not enough values to unpack (expected 6, got 2)".
Proof. reflexivity. Qed.

(** A SELECT whose descriptor carries a type without a [__name__] comes
    back as a failure record. *)
Example unnamed_type_sample :
  let description :=
    [{| desc_name := "id"; desc_type := TypeUnnamed "int";
        desc_display_size := VNone; desc_internal_size := VInt 11;
        desc_precision := VInt 11; desc_scale := VInt 0;
        desc_null_ok := VInt 0 |}] in
  let drv :=
    {| drv_create_pool := None; drv_acquire := None; drv_cursor := None;
       drv_execute := fun _ =>
         inr {| cur_rows := [[VInt 1]]; cur_description := Some description;
                cur_rowcount := 1; cur_lastrowid := Some (VInt 0);
                cur_fetch_error := None |};
       drv_time := 0 |} in
  fst (_arun drv "SELECT id FROM users" None 100 true new_tool)
  = inr ("❌ MySQL Error: 'int' object has no attribute '__name__'" ++ PyVal.nl
           ++ "Query: SELECT id FROM users")
  /\
  fst (_arun drv "SELECT id FROM users" None 100 false new_tool)
  = inr ("✅ MySQL SELECT Query Executed Successfully" ++ PyVal.nl
           ++ "Query: SELECT id FROM users" ++ PyVal.nl
           ++ "Rows returned: 1" ++ PyVal.nl
           ++ PyVal.nl ++ "Data:" ++ PyVal.nl
           ++ "  Row 1: [1]" ++ PyVal.nl).
Proof. now split. Qed.

(** ** Strings *)

Section StringFacts.

Import PyStr.

Lemma startswith_space p c s :
  starts_nonspace p = true -> is_space c = true ->
  startswith p (String c s) = false.
Proof.
  destruct p as [|a p]; simpl; [discriminate|].
  intros Ha Hc. destruct (Ascii.eqb_spec a c) as [->|]; [|reflexivity].
  rewrite Hc in Ha. discriminate.
Qed.

Lemma contains_lstrip p s :
  starts_nonspace p = true -> contains p (lstrip s) = contains p s.
Proof.
  intros Hp. induction s as [|c s IH]; [reflexivity|].
  cbn [lstrip]. destruct (is_space c) eqn:Hc; [|reflexivity].
  rewrite IH. cbn [contains]. now rewrite startswith_space.
Qed.

Lemma startswith_empty p :
  ends_nonspace p = true -> startswith p EmptyString = false.
Proof. destruct p; [discriminate|reflexivity]. Qed.

Lemma ends_nonspace_cons a p :
  p <> EmptyString -> ends_nonspace (String a p) = ends_nonspace p.
Proof. destruct p; [congruence|reflexivity]. Qed.

Lemma startswith_cons a p c s :
  startswith (String a p) (String c s) = Ascii.eqb a c && startswith p s.
Proof. reflexivity. Qed.

Lemma startswith_rstrip p s :
  ends_nonspace p = true -> startswith p (rstrip s) = startswith p s.
Proof.
  revert p. induction s as [|c s IH]; intros p Hp; [reflexivity|].
  destruct p as [|a p]; [discriminate|].
  cbn [rstrip]. destruct p as [|b p].
  - (* the pattern is the single character [a] *)
    simpl in Hp. destruct (rstrip s) eqn:Hr.
    + destruct (is_space c) eqn:Hc; simpl.
      * destruct (Ascii.eqb_spec a c) as [->|]; [|reflexivity].
        rewrite Hc in Hp. discriminate.
      * now destruct (Ascii.eqb a c).
    + simpl. now destruct (Ascii.eqb a c).
  - (* the pattern goes on after [a] *)
    assert (Hp' : ends_nonspace (String b p) = true) by exact Hp.
    specialize (IH _ Hp').
    rewrite (startswith_cons a (String b p) c s), <- IH.
    destruct (rstrip s) eqn:Hr.
    + rewrite (startswith_empty _ Hp'), andb_false_r.
      destruct (is_space c); [reflexivity|].
      now rewrite startswith_cons, (startswith_empty _ Hp'), andb_false_r.
    + now rewrite startswith_cons.
Qed.

Lemma contains_empty p :
  ends_nonspace p = true -> contains p EmptyString = false.
Proof. intros Hp. simpl. now rewrite startswith_empty. Qed.

Lemma contains_rstrip p s :
  ends_nonspace p = true -> contains p (rstrip s) = contains p s.
Proof.
  intros Hp. induction s as [|c s IH]; [reflexivity|].
  cbn [contains]. rewrite <- IH, <- (startswith_rstrip p (String c s)) by exact Hp.
  cbn [rstrip]. destruct (rstrip s) eqn:Hr.
  - rewrite contains_empty by exact Hp. rewrite orb_false_r.
    destruct (is_space c); cbn [contains];
      now rewrite ?(startswith_empty _ Hp), ?orb_false_r.
  - reflexivity.
Qed.

Lemma contains_strip p s :
  tight p = true -> contains p (strip s) = contains p s.
Proof.
  unfold tight, strip. intros [H1 H2]%andb_true_iff.
  now rewrite contains_rstrip, contains_lstrip.
Qed.

(** Trimming commutes with the case mappings, which keep spaces apart
    from the other characters. *)
Lemma is_space_to_lower c : is_space (to_lower c) = is_space c.
Proof. destruct c as [[] [] [] [] [] [] [] []]; reflexivity. Qed.

Lemma is_space_to_upper c : is_space (to_upper c) = is_space c.
Proof. destruct c as [[] [] [] [] [] [] [] []]; reflexivity. Qed.

Lemma truthy_false s : truthy s = false <-> s = EmptyString.
Proof. destruct s; simpl; split; congruence. Qed.

Lemma strip_empty : strip EmptyString = EmptyString.
Proof. reflexivity. Qed.

End StringFacts.

(** ** The validator *)

Lemma dangerous_patterns_tight :
  Forall (fun p => PyStr.tight p = true) dangerous_patterns.
Proof. repeat constructor. Qed.

Lemma first_dangerous_None patterns text :
  first_dangerous patterns text = None <->
  forall p, p ∈ patterns -> PyStr.contains p text = false.
Proof.
  induction patterns as [|q patterns IH]; simpl.
  - split; [|reflexivity]. intros _ p Hp. inversion Hp.
  - destruct (PyStr.contains q text) eqn:Hq.
    + split; [discriminate|]. intros H.
      rewrite (H q) in Hq by constructor. discriminate.
    + rewrite IH. split.
      * intros H p Hp. inversion Hp; subst; auto.
      * intros H p Hp. apply H. now constructor.
  Qed.

Lemma first_dangerous_Some patterns text p :
  first_dangerous patterns text = Some p ->
  exists i, patterns !! i = Some p /\ PyStr.contains p text = true /\
            forall j q, (j < i)%nat -> patterns !! j = Some q ->
                        PyStr.contains q text = false.
Proof.
  induction patterns as [|q patterns IH]; simpl; [discriminate|].
  destruct (PyStr.contains q text) eqn:Hq.
  - intros [= <-]. exists 0%nat. repeat split; [exact Hq|]. intros j r Hj. lia.
  - intros H. destruct (IH H) as (i & Hi & Hp & Hbefore).
    exists (S i). repeat split; [exact Hi|exact Hp|].
    intros [|j] r Hj Hr; simpl in Hr.
    + now injection Hr as <-.
    + apply (Hbefore j); [lia|exact Hr].
Qed.

Section CaseMapping.

Import PyStr.

Variable f : ascii -> ascii.
Hypothesis f_space : forall c, is_space (f c) = is_space c.

Lemma lstrip_map_chars s : lstrip (map_chars f s) = map_chars f (lstrip s).
Proof.
  induction s as [|c s IH]; [reflexivity|].
  simpl. rewrite f_space. now destruct (is_space c).
Qed.

Lemma rstrip_map_chars s : rstrip (map_chars f s) = map_chars f (rstrip s).
Proof.
  induction s as [|c s IH]; [reflexivity|].
  simpl. rewrite IH, f_space.
  destruct (rstrip s); simpl; [now destruct (is_space c)|reflexivity].
Qed.

Lemma strip_map_chars s : strip (map_chars f s) = map_chars f (strip s).
Proof. unfold strip. now rewrite lstrip_map_chars, rstrip_map_chars. Qed.

Lemma startswith_map_chars p s :
  startswith p s = true -> startswith (map_chars f p) (map_chars f s) = true.
Proof.
  revert s. induction p as [|a p IH]; intros [|b s]; simpl; try easy.
  intros [Hab Hp]%andb_true_iff. apply Ascii.eqb_eq in Hab as ->.
  now rewrite Ascii.eqb_refl, IH.
Qed.

Lemma contains_map_chars p s :
  contains p s = true -> contains (map_chars f p) (map_chars f s) = true.
Proof.
  induction s as [|c s IH]; cbn [contains map_chars].
  - rewrite !orb_false_r. apply (startswith_map_chars p EmptyString).
  - intros [H|H]%orb_true_iff; apply orb_true_iff.
    + left. apply (startswith_map_chars p (String c s) H).
    + right. now apply IH.
Qed.

End CaseMapping.

Lemma strip_lower s : PyStr.strip (PyStr.lower s) = PyStr.lower (PyStr.strip s).
Proof. apply strip_map_chars, is_space_to_lower. Qed.

Lemma strip_upper s : PyStr.strip (PyStr.upper s) = PyStr.upper (PyStr.strip s).
Proof. apply strip_map_chars, is_space_to_upper. Qed.

Lemma dangerous_patterns_lower :
  Forall (fun p => PyStr.lower p = p) dangerous_patterns.
Proof. repeat constructor. Qed.

Lemma dangerous_contains_strip p s :
  p ∈ dangerous_patterns ->
  PyStr.contains p (PyStr.strip s) = PyStr.contains p s.
Proof.
  intros Hp. apply contains_strip.
  exact (proj1 (Forall_forall _ _) dangerous_patterns_tight p Hp).
Qed.

Lemma validate_query_nonblank v :
  PyStr.strip v <> EmptyString ->
  validate_query v =
  match first_dangerous dangerous_patterns (PyStr.strip (PyStr.lower v)) with
  | Some pattern =>
      inl (ValueError ("Query contains potentially dangerous pattern: " ++ pattern))
  | None => inr v
  end.
Proof.
  intros Hv. unfold validate_query, validate_query_with.
  destruct v as [|c v]; [now rewrite strip_empty in Hv|].
  destruct (PyStr.strip (String c v)); [congruence|reflexivity].
Qed.

(** *** The validator over any [strip] and [lower] *)

Section Margins.

Import PyStr.

Lemma startswith_margin p c s :
  starts_inner p = true -> is_margin c = true ->
  startswith p (String c s) = false.
Proof.
  destruct p as [|a p]; simpl; [discriminate|].
  intros Ha Hc. destruct (Ascii.eqb_spec a c) as [->|]; [|reflexivity].
  rewrite Hc in Ha. discriminate.
Qed.

Lemma contains_margin_l p a s :
  starts_inner p = true -> margin a = true ->
  contains p (a ++ s) = contains p s.
Proof.
  intros Hp. induction a as [|c a IH]; [reflexivity|].
  cbn [margin]. intros [Hc Ha]%andb_true_iff.
  change (String c a ++ s) with (String c (a ++ s)).
  cbn [contains]. now rewrite startswith_margin, IH.
Qed.

Lemma startswith_all_margin p b :
  ends_inner p = true -> margin b = true -> startswith p b = false.
Proof.
  revert b. induction p as [|a p IH]; intros b Hp Hb; [discriminate|].
  destruct b as [|c b]; [reflexivity|].
  cbn [margin] in Hb. apply andb_true_iff in Hb as [Hc Hb].
  cbn [startswith]. destruct p as [|a' p'].
  - simpl in Hp. destruct (Ascii.eqb_spec a c) as [->|]; [|reflexivity].
    rewrite Hc in Hp. discriminate.
  - rewrite (IH b Hp Hb). apply andb_false_r.
Qed.

Lemma contains_all_margin p b :
  ends_inner p = true -> margin b = true -> contains p b = false.
Proof.
  intros Hp. induction b as [|c b IH]; intros Hb.
  - simpl. now rewrite startswith_all_margin.
  - cbn [contains]. rewrite (startswith_all_margin p (String c b) Hp Hb).
    cbn [margin] in Hb. apply andb_true_iff in Hb as [_ Hb]. now apply IH.
Qed.

Lemma startswith_margin_r p m b :
  ends_inner p = true -> margin b = true ->
  startswith p (m ++ b) = startswith p m.
Proof.
  revert p. induction m as [|c m IH]; intros p Hp Hb.
  - change (EmptyString ++ b) with b. rewrite startswith_all_margin by assumption.
    destruct p; [discriminate|reflexivity].
  - destruct p as [|a p]; [discriminate|].
    change (String c m ++ b) with (String c (m ++ b)). cbn [startswith].
    destruct p as [|a' p']; [reflexivity|].
    now rewrite (IH (String a' p') Hp Hb).
Qed.

Lemma contains_margin_r p m b :
  ends_inner p = true -> margin b = true ->
  contains p (m ++ b) = contains p m.
Proof.
  intros Hp Hb. induction m as [|c m IH].
  - change (EmptyString ++ b) with b. rewrite contains_all_margin by assumption.
    simpl. destruct p; [discriminate|reflexivity].
  - pose proof (startswith_margin_r p (String c m) b Hp Hb) as Hs.
    change (String c m ++ b) with (String c (m ++ b)) in *.
    cbn [contains]. now rewrite IH, Hs.
Qed.

Lemma append_empty (a b : string) :
  a ++ b = EmptyString -> a = EmptyString /\ b = EmptyString.
Proof. destruct a; [now split|discriminate]. Qed.

(** The functions of [PyStr] are a [strip] and a [lower] of that kind. *)
Lemma lstrip_margin s : exists a, s = a ++ lstrip s /\ margin a = true.
Proof.
  induction s as [|c s (a & Hs & Ha)]; [now exists EmptyString|].
  cbn [lstrip]. destruct (is_space c) eqn:Hc.
  - exists (String c a). split.
    + change (String c a ++ lstrip s) with (String c (a ++ lstrip s)).
      now rewrite <- Hs.
    + cbn [margin]. unfold is_margin. now rewrite Hc, Ha.
  - now exists EmptyString.
Qed.

Lemma rstrip_margin s : exists b, s = rstrip s ++ b /\ margin b = true.
Proof.
  induction s as [|c s (b & Hs & Hb)]; [now exists EmptyString|].
  cbn [rstrip]. destruct (rstrip s) as [|x r] eqn:Hr.
  - change (EmptyString ++ b) with b in Hs. subst b.
    destruct (is_space c) eqn:Hc.
    + exists (String c s). split; [reflexivity|].
      cbn [margin]. unfold is_margin. now rewrite Hc, Hb.
    + now exists s.
  - exists b. split; [|exact Hb].
    change (String c (String x r) ++ b) with (String c (String x r ++ b)).
    now rewrite <- Hs.
Qed.

Lemma strip_trims : trims strip.
Proof.
  intros s. unfold strip.
  destruct (lstrip_margin s) as (a & Hs & Ha).
  destruct (rstrip_margin (lstrip s)) as (b & Hl & Hb).
  exists a, b. now rewrite <- Hl, <- Hs.
Qed.

End Margins.

Lemma lower_keeps_lowercase : PyStr.keeps_lowercase PyStr.lower.
Proof.
  intros p s _ Hp Hc. rewrite <- Hp. now apply contains_map_chars.
Qed.

Lemma dangerous_patterns_inner :
  Forall (fun p => PyStr.inner p = true) dangerous_patterns.
Proof. repeat constructor. Qed.

Lemma dangerous_patterns_ascii :
  Forall (fun p => PyStr.isascii p = true) dangerous_patterns.
Proof. repeat constructor. Qed.

Section ValidatorFacts.

Variables strip lower : string -> string.
Hypothesis strip_trims' : PyStr.trims strip.

Lemma contains_trimmed p s :
  p ∈ dangerous_patterns ->
  PyStr.contains p (strip s) = PyStr.contains p s.
Proof.
  intros Hp.
  pose proof (proj1 (Forall_forall _ _) dangerous_patterns_inner p Hp) as Hi.
  simpl in Hi. apply andb_true_iff in Hi as [Hstart Hend].
  destruct (strip_trims' s) as (a & b & Hs & Ha & Hb).
  transitivity (PyStr.contains p (a ++ strip s ++ b)); [|now rewrite <- Hs].
  now rewrite contains_margin_l, contains_margin_r.
Qed.

Lemma blank_contains p v :
  p ∈ dangerous_patterns -> strip v = EmptyString ->
  PyStr.contains p v = false.
Proof.
  intros Hp Hv. rewrite <- (contains_trimmed p v Hp), Hv.
  pose proof (proj1 (Forall_forall _ _) dangerous_patterns_inner p Hp) as Hi.
  simpl in Hi. apply andb_true_iff in Hi as [_ Hend].
  now apply contains_all_margin.
Qed.

Lemma trims_empty : strip EmptyString = EmptyString.
Proof.
  destruct (strip_trims' EmptyString) as (a & b & Hs & _).
  symmetry in Hs. apply append_empty in Hs as [_ Hs].
  now apply append_empty in Hs as [Hs _].
Qed.

Lemma validate_query_with_blank v :
  strip v = EmptyString ->
  validate_query_with strip lower v = inl (ValueError "Query cannot be empty").
Proof.
  intros Hv. unfold validate_query_with. rewrite Hv. simpl.
  now rewrite orb_true_r.
Qed.

Lemma validate_query_with_nonblank v :
  strip v <> EmptyString ->
  validate_query_with strip lower v =
  match first_dangerous dangerous_patterns (strip (lower v)) with
  | Some pattern =>
      inl (ValueError ("Query contains potentially dangerous pattern: " ++ pattern))
  | None => inr v
  end.
Proof.
  intros Hv. unfold validate_query_with.
  destruct v as [|c v]; [now rewrite trims_empty in Hv|].
  destruct (strip (String c v)); [congruence|reflexivity].
Qed.

End ValidatorFacts.

(** C1. Whatever [strip] and [lower] do to a text, as long as [strip]
    only removes whitespace and bytes outside ASCII at the two ends and
    [lower] keeps the occurrences of lowercase ASCII texts (Python's
    methods do, on every text): the validator accepts a text exactly when
    it is not empty once trimmed and its lowercased form contains no
    pattern of the denylist, and it says that the query is empty exactly
    when the trimmed text is empty. A text that contains a pattern of the
    denylist, as it is or, not being blank, once lowercased, is rejected
    with a [ValueError] whose message names an offending pattern: the
    first one, in the order of the denylist, that the lowercased text
    contains, hence that very pattern when the text contains no other. *)
Theorem validate_query_spec (strip lower : string -> string) (v : string) :
  PyStr.trims strip -> PyStr.keeps_lowercase lower ->
  (validate_query_with strip lower v = inr v <->
   strip v <> EmptyString /\
   forall p, p ∈ dangerous_patterns -> PyStr.contains p (lower v) = false)
  /\
  (validate_query_with strip lower v = inl (ValueError "Query cannot be empty")
   <-> strip v = EmptyString)
  /\
  (forall p, p ∈ dangerous_patterns ->
     PyStr.contains p v = true \/
     (strip v <> EmptyString /\ PyStr.contains p (lower v) = true) ->
     exists i p',
       dangerous_patterns !! i = Some p' /\
       PyStr.contains p' (lower v) = true /\
       (forall j q, (j < i)%nat -> dangerous_patterns !! j = Some q ->
                    PyStr.contains q (lower v) = false) /\
       validate_query_with strip lower v =
       inl (ValueError ("Query contains potentially dangerous pattern: " ++ p')))
  /\
  (forall p, p ∈ dangerous_patterns ->
     strip v <> EmptyString ->
     PyStr.contains p (lower v) = true ->
     (forall q, q ∈ dangerous_patterns ->
                PyStr.contains q (lower v) = true -> q = p) ->
     validate_query_with strip lower v =
     inl (ValueError ("Query contains potentially dangerous pattern: " ++ p))).
Proof.
  intros Htrims Hlower.
  assert (Hstrip : forall q, q ∈ dangerous_patterns ->
            PyStr.contains q (strip (lower v)) = PyStr.contains q (lower v))
    by (intros q Hq; now apply contains_trimmed).
  assert (Hidx : forall j q, dangerous_patterns !! j = Some q ->
            q ∈ dangerous_patterns)
    by (intros j q Hq; apply list_elem_of_lookup; eauto).
  assert (Hreject : forall p, p ∈ dangerous_patterns ->
     strip v <> EmptyString ->
     PyStr.contains p (lower v) = true ->
     exists i p',
       dangerous_patterns !! i = Some p' /\
       PyStr.contains p' (lower v) = true /\
       (forall j q, (j < i)%nat -> dangerous_patterns !! j = Some q ->
                    PyStr.contains q (lower v) = false) /\
       validate_query_with strip lower v =
       inl (ValueError ("Query contains potentially dangerous pattern: " ++ p'))).
  { intros p Hp Hv Hin.
    rewrite (validate_query_with_nonblank strip lower Htrims v Hv).
    destruct (first_dangerous _ _) as [p'|] eqn:Hfirst.
    - destruct (first_dangerous_Some _ _ _ Hfirst) as (i & Hi & Hc & Hbefore).
      exists i, p'. split; [exact Hi|].
      rewrite <- Hstrip by eauto. split; [exact Hc|]. split; [|reflexivity].
      intros j q Hj Hq. rewrite <- Hstrip by eauto. now apply (Hbefore j).
    - rewrite first_dangerous_None in Hfirst.
      rewrite <- Hstrip, Hfirst in Hin by exact Hp. discriminate. }
  split; [|split; [|split]].
  - split.
    + intros Hok.
      assert (Hv : strip v <> EmptyString).
      { intros He. rewrite validate_query_with_blank in Hok by exact He.
        discriminate. }
      split; [exact Hv|].
      rewrite (validate_query_with_nonblank strip lower Htrims v Hv) in Hok.
      intros p Hp. rewrite <- Hstrip by exact Hp. revert p Hp.
      apply first_dangerous_None.
      now destruct (first_dangerous _ _).
    + intros [Hv Hnone].
      rewrite (validate_query_with_nonblank strip lower Htrims v Hv).
      replace (first_dangerous _ _) with (@None string); [reflexivity|].
      symmetry. apply first_dangerous_None. intros p Hp.
      rewrite Hstrip by exact Hp. now apply Hnone.
  - split; [|apply validate_query_with_blank].
    intros Hempty.
    destruct (String.eqb_spec (strip v) EmptyString) as [He|Hv]; [exact He|].
    rewrite (validate_query_with_nonblank strip lower Htrims v Hv) in Hempty.
    destruct (first_dangerous _ _); discriminate.
  - intros p Hp [Hin|[Hv Hin]].
    + assert (Hv : strip v <> EmptyString).
      { intros He. rewrite (blank_contains strip Htrims p v Hp He) in Hin.
        discriminate. }
      apply Hreject with p; [exact Hp|exact Hv|].
      apply Hlower; [|..|exact Hin].
      * exact (proj1 (Forall_forall _ _) dangerous_patterns_ascii p Hp).
      * exact (proj1 (Forall_forall _ _) dangerous_patterns_lower p Hp).
    + now apply Hreject with p.
  - intros p Hp Hv Hin Honly.
    destruct (Hreject p Hp Hv Hin) as (i & p' & Hi & Hc & _ & Hrun).
    now rewrite <- (Honly p' (Hidx i p' Hi) Hc).
Qed.

(** ** Statement types *)

Section Tokens.

Import PyStr.

Lemma append_cons x (a b : string) : String x a ++ b = String x (a ++ b).
Proof. reflexivity. Qed.

Lemma append_empty_r (a : string) : a ++ EmptyString = a.
Proof.
  induction a as [|x a IH]; [reflexivity|]. now rewrite append_cons, IH.
Qed.

Lemma append_assoc (a b c : string) : (a ++ b) ++ c = a ++ (b ++ c).
Proof.
  induction a as [|x a IH]; [reflexivity|]. rewrite !append_cons. now f_equal.
Qed.

Lemma head_split_go_Some t s :
  head (split_go (Some t) s) = Some (t ++ span_nonspace s).
Proof.
  revert t. induction s as [|c s IH]; intros t; simpl.
  - now rewrite append_empty_r.
  - destruct (is_space c); simpl.
    + now rewrite append_empty_r.
    + rewrite IH. f_equal. now rewrite append_assoc.
Qed.

Lemma head_split s :
  head (split s) =
  if truthy (first_token s) then Some (first_token s) else None.
Proof.
  unfold split, first_token. induction s as [|c s IH]; [reflexivity|].
  simpl. destruct (is_space c) eqn:Hc; [exact IH|].
  rewrite head_split_go_Some. simpl. now rewrite Hc.
Qed.

Lemma span_nonspace_rstrip s : span_nonspace (rstrip s) = span_nonspace s.
Proof.
  induction s as [|c s IH]; [reflexivity|].
  cbn [rstrip span_nonspace]. rewrite <- IH.
  destruct (rstrip s) eqn:Hr; destruct (is_space c) eqn:Hc;
    cbn [span_nonspace]; now rewrite ?Hc.
Qed.

Lemma lstrip_head s :
  lstrip s = EmptyString \/
  exists c s', lstrip s = String c s' /\ is_space c = false.
Proof.
  induction s as [|c s IH]; [now left|].
  simpl. destruct (is_space c) eqn:Hc; [exact IH|]. right. eauto.
Qed.

Lemma lstrip_rstrip_lstrip s : lstrip (rstrip (lstrip s)) = rstrip (lstrip s).
Proof.
  destruct (lstrip_head s) as [->|(c & s' & -> & Hc)]; [reflexivity|].
  cbn [rstrip]. destruct (rstrip s'); rewrite ?Hc; cbn [lstrip]; now rewrite Hc.
Qed.

Lemma first_token_strip s : first_token (strip s) = first_token s.
Proof.
  unfold first_token, strip.
  now rewrite lstrip_rstrip_lstrip, span_nonspace_rstrip.
Qed.

Lemma span_nonspace_upper s : span_nonspace (upper s) = upper (span_nonspace s).
Proof.
  unfold upper. induction s as [|c s IH]; [reflexivity|].
  cbn [map_chars span_nonspace]. rewrite is_space_to_upper.
  destruct (is_space c); [reflexivity|]. cbn [map_chars]. now rewrite IH.
Qed.

Lemma first_token_upper s : first_token (upper s) = upper (first_token s).
Proof.
  unfold first_token, upper.
  rewrite (lstrip_map_chars _ is_space_to_upper). apply span_nonspace_upper.
Qed.

Lemma truthy_upper s : truthy (upper s) = truthy s.
Proof. now destruct s. Qed.

End Tokens.

Lemma query_type_of_first_token q :
  query_type_of q =
  if PyStr.truthy (PyStr.first_token q)
  then Some (PyStr.upper (PyStr.first_token q)) else None.
Proof.
  unfold query_type_of.
  now rewrite head_split, first_token_upper, first_token_strip, truthy_upper.
Qed.


(** ** The executor *)

Section ExecutorFacts.

Variable drv : driver.

Lemma get_connection_pool_cases self :
  (exists p, _connection_pool self = Some p /\
             _get_connection_pool drv self = (inr p, self)) \/
  (exists e, _connection_pool self = None /\ drv_create_pool drv = Some e /\
             _get_connection_pool drv self = (inl e, record_call CreatePool self)) \/
  (_connection_pool self = None /\ drv_create_pool drv = None /\
   _get_connection_pool drv self =
   (inr (pools_created self),
    {| _connection_pool := Some (pools_created self);
       live_pools := pools_created self :: live_pools self;
       pools_created := S (pools_created self);
       calls := calls self ++ [CreatePool] |})).
Proof.
  unfold _get_connection_pool.
  destruct (_connection_pool self) as [p|]; [left; eauto|right].
  destruct (drv_create_pool drv) as [e|]; [left; eauto|right; auto].
Qed.

(** The executor, one acquisition at a time. *)
Lemma execute_query_unfold q db l fm self :
  _execute_query drv q db l fm self =
  match _get_connection_pool drv self with
  | (inl e, s1) => (inl e, s1)
  | (inr p, s1) =>
      match drv_acquire drv with
      | Some e => (inl e, record_call (Acquire p) s1)
      | None =>
          match drv_cursor drv with
          | Some e => (inl e, record_call (Release p) (at_cursor p s1))
          | None =>
              let '(res, s2) := execute_guarded drv q db l fm (at_cursor p s1) in
              (inr match res with
                   | inr r => r
                   | inl e => failure_result q e (drv_time drv)
                   end,
               record_call (Release p) (record_call CloseCursor s2))
          end
      end
  end.
Proof.
  unfold _execute_query, bind, with_connection, with_cursor, driver_call,
    finally, try_except, bind, log, ret, raise, at_cursor.
  destruct (_get_connection_pool drv self) as [[e|p] s1]; [reflexivity|].
  destruct (drv_acquire drv); [reflexivity|].
  destruct (drv_cursor drv); [reflexivity|].
  destruct (execute_guarded drv q db l fm _) as [[e|r] s2]; reflexivity.
Qed.

Lemma acquires_pool self :
  acquires drv self ->
  exists p s1, _get_connection_pool drv self = (inr p, s1).
Proof.
  intros [Hpool _].
  destruct (get_connection_pool_cases self)
    as [(p & _ & ->)|[(e & Hnone & He & _)|(_ & _ & ->)]]; eauto.
  destruct Hpool as [[p Hp]|Hc]; congruence.
Qed.

(** Past the acquisitions a record always comes back. *)
Lemma execute_query_returns q db l fm self :
  acquires drv self ->
  exists p s1 s2,
    _get_connection_pool drv self = (inr p, s1) /\
    _execute_query drv q db l fm self =
    (inr match fst (execute_guarded drv q db l fm (at_cursor p s1)) with
         | inr r => r
         | inl e => failure_result q e (drv_time drv)
         end, s2).
Proof.
  intros Hacq. destruct (acquires_pool self Hacq) as (p & s1 & Hp).
  destruct Hacq as (_ & Ha & Hc).
  rewrite execute_query_unfold, Hp, Ha, Hc.
  destruct (execute_guarded drv q db l fm _) as [res s2] eqn:Hg.
  exists p, s1. eexists. split; [reflexivity|]. now rewrite Hg.
Qed.

(** The three places where the guarded block meets the database. *)
Lemma switch_database_fails db e s :
  PyStr.truthy db = true -> drv_execute drv ("USE " ++ db) = inl e ->
  fst (switch_database drv (Some db) s) = inl e.
Proof.
  intros Hdb He. unfold switch_database, cursor_execute, bind, log, raise.
  rewrite Hdb. simpl. now rewrite He.
Qed.

Lemma switch_database_succeeds db s :
  switch_succeeds drv db ->
  exists s', switch_database drv db s = (inr tt, s') /\
             _connection_pool s' = _connection_pool s.
Proof.
  unfold switch_succeeds, switch_database, cursor_execute, bind, log, ret.
  destruct db as [db|]; [|eauto].
  destruct (PyStr.truthy db); [|eauto].
  intros [cur Hcur]; [reflexivity|]. rewrite Hcur. eauto.
Qed.

Lemma execute_guarded_switch_fails q db l fm e s :
  PyStr.truthy db = true -> drv_execute drv ("USE " ++ db) = inl e ->
  fst (execute_guarded drv q (Some db) l fm s) = inl e.
Proof.
  intros Hdb He. unfold execute_guarded, bind.
  pose proof (switch_database_fails db e s Hdb He) as H.
  destruct (switch_database drv (Some db) s) as [[e'|[]] s']; simpl in *;
    congruence.
Qed.

Lemma execute_guarded_switched q db l fm s :
  switch_succeeds drv db ->
  exists s', execute_guarded drv q db l fm s
             = execute_statement drv q l fm s'.
Proof.
  intros Hsw. destruct (switch_database_succeeds db s Hsw) as (s' & Hs' & _).
  exists s'. unfold execute_guarded, bind. now rewrite Hs'.
Qed.

Lemma execute_statement_fails q l fm e s :
  drv_execute drv q = inl e ->
  fst (execute_statement drv q l fm s) = inl e.
Proof.
  intros He. unfold execute_statement, cursor_execute, bind, log, raise.
  simpl. now rewrite He.
Qed.

Lemma execute_statement_fetch_fails q l fm cur t e s :
  drv_execute drv q = inr cur -> query_type_of q = Some t ->
  kind_of_type t = ReadStmt \/ kind_of_type t = OtherStmt ->
  cur_fetch_error cur = Some e ->
  fst (execute_statement drv q l fm s) = inl e.
Proof.
  intros Hcur Ht Hk He.
  unfold execute_statement, cursor_execute, cursor_fetchmany, cursor_fetchall,
    bind, log, raise, ret, lift.
  simpl. rewrite Hcur, Ht. simpl.
  destruct Hk as [-> | ->]; simpl; now rewrite He.
Qed.

End ExecutorFacts.

(** C5. The executor raises exactly when an acquisition fails, which happens
    before the guarded block: creating the pool when none is cached, taking
    a connection from it, opening a cursor. Once these went through it
    always returns a record, and an exception raised in the guarded block
    (while switching database, executing the statement or fetching its
    rows) comes back as the failure record: [success] false, [error] the
    text of the exception, [error_type] the name of its class. *)
Theorem executor_failures_are_records drv q db l fm self :
  (forall e,
     fst (_execute_query drv q db l fm self) = inl e <->
     (_connection_pool self = None /\ drv_create_pool drv = Some e) \/
     ((is_Some (_connection_pool self) \/ drv_create_pool drv = None) /\
      (drv_acquire drv = Some e \/
       (drv_acquire drv = None /\ drv_cursor drv = Some e))))
  /\
  (acquires drv self ->
   (exists r, fst (_execute_query drv q db l fm self) = inr r) /\
   (forall p s1 e,
      _get_connection_pool drv self = (inr p, s1) ->
      fst (execute_guarded drv q db l fm (at_cursor p s1)) = inl e ->
      fst (_execute_query drv q db l fm self)
      = inr (failure_result q e (drv_time drv))) /\
   (forall e,
      (exists d, db = Some d /\ PyStr.truthy d = true /\
                 drv_execute drv ("USE " ++ d) = inl e) \/
      (switch_succeeds drv db /\ drv_execute drv q = inl e) \/
      (switch_succeeds drv db /\
       exists cur t,
         drv_execute drv q = inr cur /\ query_type_of q = Some t /\
         (kind_of_type t = ReadStmt \/ kind_of_type t = OtherStmt) /\
         cur_fetch_error cur = Some e) ->
      exists r,
        fst (_execute_query drv q db l fm self) = inr r /\
        r_success r = Some false /\ r_error r = Some (exc_msg e) /\
        r_error_type r = Some (exc_class e) /\ r_query r = Some q)).
Proof.
  split.
  - intros e. rewrite execute_query_unfold.
    destruct (get_connection_pool_cases drv self)
      as [(p & Hp & ->)|[(e' & Hnone & He' & ->)|(Hnone & Hc & ->)]].
    + destruct (drv_acquire drv) as [ea|]; simpl.
      * split; [intros [= ->]; right; eauto|].
        intros [[? _]|[_ [[= ->]|[? _]]]]; congruence.
      * destruct (drv_cursor drv) as [ec|]; simpl.
        -- split; [intros [= ->]; right; eauto|].
           intros [[? _]|[_ [?|[_ [= ->]]]]]; congruence.
        -- destruct (execute_guarded _ _ _ _ _ _) as [res s2]; simpl.
           split; [discriminate|].
           intros [[? _]|[_ [?|[_ ?]]]]; congruence.
    + simpl. split; [intros [= ->]; left; auto|].
      intros [[_ ?]|[[[p Hp]|?] _]]; congruence.
    + destruct (drv_acquire drv) as [ea|]; simpl.
      * split; [intros [= ->]; right; eauto|].
        intros [[_ ?]|[_ [[= ->]|[? _]]]]; congruence.
      * destruct (drv_cursor drv) as [ec|]; simpl.
        -- split; [intros [= ->]; right; eauto|].
           intros [[_ ?]|[_ [?|[_ [= ->]]]]]; congruence.
        -- destruct (execute_guarded _ _ _ _ _ _) as [res s2]; simpl.
           split; [discriminate|].
           intros [[_ ?]|[_ [?|[_ ?]]]]; congruence.
  - intros Hacq.
    destruct (execute_query_returns drv q db l fm self Hacq)
      as (p & s1 & s2 & Hp & Hrun).
    assert (Hguard : forall e,
              fst (execute_guarded drv q db l fm (at_cursor p s1)) = inl e ->
              fst (_execute_query drv q db l fm self)
              = inr (failure_result q e (drv_time drv))).
    { intros e He. now rewrite Hrun, He. }
    split; [rewrite Hrun; eauto|]. split.
    + intros p' s1' e Hp'. rewrite Hp in Hp'. injection Hp' as <- <-.
      apply Hguard.
    + intros e Hfail. exists (failure_result q e (drv_time drv)).
      split; [|now repeat split]. apply Hguard.
      destruct Hfail as [(d & -> & Hd & He)|[[Hsw He]|(Hsw & cur & t & Hcur & Ht & Hk & He)]].
      * now apply execute_guarded_switch_fails.
      * destruct (execute_guarded_switched drv q db l fm (at_cursor p s1) Hsw)
          as (s' & ->).
        now apply execute_statement_fails.
      * destruct (execute_guarded_switched drv q db l fm (at_cursor p s1) Hsw)
          as (s' & ->).
        now apply (execute_statement_fetch_fails drv q l fm cur t).
Qed.

Section SuccessRecords.

Variable drv : driver.

(** What a record returned by the guarded block says, by statement type. *)
Lemma execute_statement_inv q l fm s r s' :
  execute_statement drv q l fm s = (inr r, s') ->
  exists cur t,
    drv_execute drv q = inr cur /\ query_type_of q = Some t /\
    r_query r = Some q /\ r_query_type r = Some t /\ r_success r = Some true /\
    r_error r = None /\
    match kind_of_type t with
    | ReadStmt =>
        let rows := fetchmany_rows l (cur_rows cur) in
        cur_fetch_error cur = None /\
        r_rows r = Some rows /\
        r_row_count r = Some (Z.of_nat (length rows)) /\
        r_limited r = Some (match rows with
                            | [] => false
                            | _ => (Z.of_nat (length rows) =? l)%Z
                            end)
    | OtherStmt =>
        cur_fetch_error cur = None /\
        r_rows r = Some (cur_rows cur) /\
        r_row_count r = Some (Z.of_nat (length (cur_rows cur))) /\
        r_limited r = None
    | MutationStmt =>
        r_rows r = None /\ r_affected_rows r = Some (cur_rowcount cur)
    | DefinitionStmt =>
        r_rows r = None /\ r_ddl_executed r = Some true
    end.
Proof.
  unfold execute_statement, cursor_execute, cursor_fetchmany, cursor_fetchall,
    bind, log, raise, ret, lift.
  simpl. destruct (drv_execute drv q) as [e|cur]; [discriminate|].
  destruct (query_type_of q) as [t|]; [|discriminate]. simpl.
  intros H. exists cur, t. do 2 (split; [reflexivity|]). revert H.
  destruct (kind_of_type t); simpl.
  - destruct (cur_fetch_error cur); simpl; [discriminate|].
    destruct (wanted_description fm cur) as [d|]; simpl.
    + unfold raise, ret.
      destruct (select_columns d); simpl; [discriminate|].
      intros [= <- <-]. now repeat split.
    + intros [= <- <-]. now repeat split.
  - intros [= <- <-]. now repeat split.
  - intros [= <- <-]. now repeat split.
  - destruct (cur_fetch_error cur); simpl; [discriminate|].
    destruct (wanted_description fm cur) as [d|]; simpl;
      intros [= <- <-]; now repeat split.
Qed.

Lemma execute_guarded_inv q db l fm s r s' :
  execute_guarded drv q db l fm s = (inr r, s') ->
  exists s1, execute_statement drv q l fm s1 = (inr r, s').
Proof.
  unfold execute_guarded, bind.
  destruct (switch_database drv db s) as [[e|[]] s1]; [discriminate|eauto].
Qed.

(** A success record is the record of the guarded block. *)
Lemma execute_query_success_inv q db l fm self r :
  fst (_execute_query drv q db l fm self) = inr r ->
  r_success r = Some true ->
  exists s1 s', execute_statement drv q l fm s1 = (inr r, s').
Proof.
  rewrite execute_query_unfold.
  destruct (_get_connection_pool drv self) as [[e|p] s1]; [discriminate|].
  destruct (drv_acquire drv); [discriminate|].
  destruct (drv_cursor drv); [discriminate|].
  destruct (execute_guarded drv q db l fm _) as [[e|r'] s2] eqn:Hg; simpl.
  - intros [= <-]. discriminate.
  - intros [= <-] _. destruct (execute_guarded_inv _ _ _ _ _ _ _ Hg). eauto.
Qed.

(** A SELECT goes through when nothing it touches raises. *)
Lemma execute_statement_select q l fm cur s :
  drv_execute drv q = inr cur -> query_type_of q = Some "SELECT" ->
  cur_fetch_error cur = None -> metadata_readable fm cur ->
  exists r s', execute_statement drv q l fm s = (inr r, s').
Proof.
  intros Hcur Ht Hf Hm.
  unfold execute_statement, cursor_execute, cursor_fetchmany, bind, log,
    raise, ret, lift.
  simpl. rewrite Hcur, Ht. simpl. rewrite Hf.
  unfold metadata_readable in Hm.
  destruct (wanted_description fm cur) as [d|]; [|eauto].
  destruct Hm as [cols ->]. simpl. eauto.
Qed.

End SuccessRecords.

Lemma fetchmany_rows_positive (l : Z) (full : list row) :
  (0 < l)%Z -> fetchmany_rows l full = take (Z.to_nat l) full.
Proof.
  intros Hl. unfold fetchmany_rows, slice_to.
  destruct (Z.eqb_spec l 0) as [->|_]; [lia|].
  destruct (Z.leb_spec 0 l); [reflexivity|lia].
Qed.

(** C6. A SELECT executed with a positive row limit [l]: the record holds
    the first [l] rows of the statement's result, and [row_count] is their
    number. If the result has more than [l] rows, exactly [l] of them are
    returned and [limited] is true; if it has fewer, all are returned and
    [limited] is false. Such a record is produced whenever the acquisitions,
    the switch of database, the statement, the fetch and the reading of the
    column types all go through. *)
Theorem select_row_limit drv q db l fm self cur :
  (0 < l)%Z ->
  drv_execute drv q = inr cur ->
  (forall r,
     fst (_execute_query drv q db l fm self) = inr r ->
     r_success r = Some true -> r_query_type r = Some "SELECT" ->
     exists rows,
       r_rows r = Some rows /\
       rows = take (Z.to_nat l) (cur_rows cur) /\
       r_row_count r = Some (Z.of_nat (length rows)) /\
       ((l < Z.of_nat (length (cur_rows cur)))%Z ->
        Z.of_nat (length rows) = l /\ r_limited r = Some true) /\
       ((Z.of_nat (length (cur_rows cur)) < l)%Z ->
        rows = cur_rows cur /\ r_limited r = Some false))
  /\
  (acquires drv self -> switch_succeeds drv db ->
   query_type_of q = Some "SELECT" -> cur_fetch_error cur = None ->
   metadata_readable fm cur ->
   exists r,
     fst (_execute_query drv q db l fm self) = inr r /\
     r_success r = Some true /\ r_query_type r = Some "SELECT").
Proof.
  intros Hl Hcur. split.
  - intros r Hrun Hok Hsel.
    destruct (execute_query_success_inv drv q db l fm self r Hrun Hok)
      as (s1 & s' & Hst).
    destruct (execute_statement_inv drv q l fm s1 r s' Hst)
      as (cur' & t & Hcur' & Ht & _ & Hqt & _ & _ & Hkind).
    rewrite Hcur in Hcur'. injection Hcur' as <-.
    rewrite Hsel in Hqt. injection Hqt as <-.
    change (kind_of_type "SELECT") with ReadStmt in Hkind. cbv zeta in Hkind.
    destruct Hkind as (_ & Hrows & Hcount & Hlimited).
    rewrite fetchmany_rows_positive in * by exact Hl.
    exists (take (Z.to_nat l) (cur_rows cur)).
    repeat split; try assumption.
    + rewrite length_take. lia.
    + rewrite Hlimited.
      destruct (take (Z.to_nat l) (cur_rows cur)) eqn:Htake.
      * apply (f_equal length) in Htake. rewrite length_take in Htake.
        simpl in Htake. lia.
      * rewrite <- Htake, length_take. f_equal. apply Z.eqb_eq. lia.
    + apply take_ge. lia.
    + rewrite Hlimited.
      destruct (take (Z.to_nat l) (cur_rows cur)) eqn:Htake; [reflexivity|].
      rewrite <- Htake, length_take. f_equal. apply Z.eqb_neq. lia.
  - intros Hacq Hsw Ht Hf Hm.
    destruct (execute_query_returns drv q db l fm self Hacq)
      as (p & s1 & s2 & Hp & Hrun).
    destruct (execute_guarded_switched drv q db l fm (at_cursor p s1) Hsw)
      as (s' & Hg).
    destruct (execute_statement_select drv q l fm cur s' Hcur Ht Hf Hm)
      as (r & s'' & Hst).
    exists r. rewrite Hrun, Hg, Hst. simpl. split; [reflexivity|].
    destruct (execute_statement_inv drv q l fm s' r s'' Hst)
      as (_ & t & _ & Ht' & _ & Hqt & Hok & _).
    split; congruence.
Qed.




(** ** The connection pool *)

Lemma record_call_pools c self : pools_of (record_call c self) = pools_of self.
Proof. reflexivity. Qed.

(** Case analysis on an innermost scrutinee of the goal. *)
Ltac step_tool :=
  match goal with
  | |- context [match ?x with _ => _ end] =>
      lazymatch x with
      | context [match _ with _ => _ end] => fail
      | _ => destruct x; simpl
      end
  end.

Lemma execute_guarded_pools drv q db l fm self :
  pools_of (snd (execute_guarded drv q db l fm self)) = pools_of self.
Proof.
  unfold execute_guarded, switch_database, execute_statement, cursor_execute,
    cursor_fetchmany, cursor_fetchall, lift, bind, log, raise, ret.
  simpl. repeat step_tool; reflexivity.
Qed.

Lemma execute_query_pools drv q db l fm self :
  pools_of (snd (_execute_query drv q db l fm self))
  = pools_of (snd (_get_connection_pool drv self)).
Proof.
  rewrite execute_query_unfold.
  destruct (_get_connection_pool drv self) as [[e|p] s1]; [reflexivity|].
  destruct (drv_acquire drv); [reflexivity|].
  destruct (drv_cursor drv); [reflexivity|].
  pose proof (execute_guarded_pools drv q db l fm (at_cursor p s1)) as H.
  destruct (execute_guarded drv q db l fm _) as [res s2]. simpl in *.
  now rewrite !record_call_pools, H.
Qed.

Lemma pool_inv_pools s1 s2 : pools_of s1 = pools_of s2 -> pool_inv s1 -> pool_inv s2.
Proof. unfold pools_of, pool_inv. intros [= <- <- _]. auto. Qed.

Lemma get_connection_pool_inv drv self :
  pool_inv self -> pool_inv (snd (_get_connection_pool drv self)).
Proof.
  unfold pool_inv, _get_connection_pool. intros H.
  destruct (_connection_pool self) eqn:Hc; simpl; [now rewrite Hc|].
  destruct (drv_create_pool drv); simpl; rewrite ?Hc, H; reflexivity.
Qed.

Lemma close_connection_pool_inv self :
  pool_inv self -> pool_inv (snd (_close_connection_pool self)).
Proof.
  unfold pool_inv, _close_connection_pool. intros H.
  destruct (_connection_pool self) as [p|] eqn:Hc; simpl; [|now rewrite Hc].
  rewrite H. rewrite filter_cons_False by (intros Hne; now apply Hne).
  reflexivity.
Qed.

Lemma apply_op_inv self op : pool_inv self -> pool_inv (apply_op self op).
Proof.
  intros H. destruct op as [drv| |drv q db l fm]; simpl.
  - now apply get_connection_pool_inv.
  - now apply close_connection_pool_inv.
  - apply (pool_inv_pools (snd (_get_connection_pool drv self))).
    + symmetry. apply execute_query_pools.
    + now apply get_connection_pool_inv.
Qed.

Lemma run_ops_inv ops self : pool_inv self -> pool_inv (run_ops ops self).
Proof.
  unfold run_ops. revert self.
  induction ops as [|op ops IH]; intros self H; simpl; [exact H|].
  apply IH. now apply apply_op_inv.
Qed.

(** C8. Acquiring the pool returns the cached pool and changes nothing when
    there is one; when there is none it creates one pool, caches it and
    returns it, or raises and caches nothing if the creation fails. Closing
    clears the cache and releases the pool; with no pool it does nothing,
    so closing twice is closing once. Hence, in every history of acquires,
    closes and queries of a fresh instance, the pools held open are the
    cached one alone: at most one at any time. *)
Theorem pool_lifecycle :
  (forall drv self p,
     _connection_pool self = Some p ->
     _get_connection_pool drv self = (inr p, self))
  /\
  (forall drv self,
     _connection_pool self = None -> drv_create_pool drv = None ->
     exists p self',
       _get_connection_pool drv self = (inr p, self') /\
       _connection_pool self' = Some p /\
       live_pools self' = p :: live_pools self /\
       pools_created self' = S (pools_created self))
  /\
  (forall drv self e,
     _connection_pool self = None -> drv_create_pool drv = Some e ->
     exists self',
       _get_connection_pool drv self = (inl e, self') /\
       pools_of self' = pools_of self)
  /\
  (forall self,
     _connection_pool (snd (_close_connection_pool self)) = None /\
     fst (_close_connection_pool self) = inr tt /\
     (pool_inv self -> live_pools (snd (_close_connection_pool self)) = []))
  /\
  (forall self,
     _connection_pool self = None ->
     _close_connection_pool self = (inr tt, self))
  /\
  (forall self,
     snd (_close_connection_pool (snd (_close_connection_pool self)))
     = snd (_close_connection_pool self))
  /\
  (forall ops,
     pool_inv (run_ops ops new_tool) /\
     (length (live_pools (run_ops ops new_tool)) <= 1)%nat).
Proof.
  repeat split.
  - intros drv self p Hp. unfold _get_connection_pool. now rewrite Hp.
  - intros drv self Hnone Hc. unfold _get_connection_pool.
    rewrite Hnone, Hc. eauto 10.
  - intros drv self e Hnone Hc. unfold _get_connection_pool.
    rewrite Hnone, Hc. eauto.
  - unfold _close_connection_pool. now destruct (_connection_pool self) eqn:H.
  - unfold _close_connection_pool. now destruct (_connection_pool self).
  - intros Hinv. apply close_connection_pool_inv in Hinv.
    unfold pool_inv in Hinv. rewrite Hinv.
    unfold _close_connection_pool.
    destruct (_connection_pool self) eqn:H; simpl; [reflexivity|now rewrite H].
  - intros self Hnone. unfold _close_connection_pool. now rewrite Hnone.
  - intros self. unfold _close_connection_pool.
    destruct (_connection_pool self) eqn:H; simpl; [reflexivity|now rewrite H].
  - apply run_ops_inv. reflexivity.
  - pose proof (run_ops_inv ops new_tool eq_refl) as H.
    unfold pool_inv in H. rewrite H.
    destruct (_connection_pool _); simpl; lia.
Qed.

(** ** The event stream *)

Lemma astream_events_unfold drv input config l fm self :
  astream_events drv input config l fm self =
  match _execute_query drv input config l fm self with
  | (inr r, self') =>
      (inr (metadata_event r :: row_events r ++ [summary_event r])%list, self')
  | (inl e, self') => (inr [EvError (exc_msg e) (exc_class e)], self')
  end.
Proof.
  unfold astream_events, try_except, bind, ret.
  now destruct (_execute_query drv input config l fm self) as [[e|r] self'].
Qed.

Lemma event_tag_imap_row (rows : list row) :
  map event_tag (imap EvRow rows) = replicate (length rows) "row".
Proof.
  apply list_eq. intros i.
  rewrite list_lookup_fmap, list_lookup_imap.
  destruct (rows !! i) as [x|] eqn:Hi; simpl.
  - symmetry. apply lookup_replicate. split; [reflexivity|].
    now apply lookup_lt_Some in Hi.
  - symmetry. apply lookup_ge_None. rewrite length_replicate.
    now apply lookup_ge_None in Hi.
Qed.

Lemma row_events_tags r :
  map event_tag (row_events r) = replicate (length (row_events r)) "row".
Proof.
  unfold row_events. destruct (_ && _); [|reflexivity].
  now rewrite event_tag_imap_row, length_imap.
Qed.

Lemma row_events_select r rows :
  r_success r = Some true -> r_query_type r = Some "SELECT" ->
  r_rows r = Some rows -> row_events r = imap EvRow rows.
Proof.
  unfold row_events. intros -> -> ->.
  now rewrite bool_decide_eq_true_2.
Qed.

Lemma row_events_other r :
  ~ (r_success r = Some true /\ r_query_type r = Some "SELECT") ->
  row_events r = [].
Proof.
  unfold row_events. intros H.
  destruct (r_success r) as [[]|]; simpl; try reflexivity.
  case_bool_decide; [|reflexivity]. exfalso. now apply H.
Qed.

(** C4. When the executor returns a record, the stream is one [metadata]
    event, then the [row] events of the record, then one [summary] event.
    A successful SELECT that returned [N] rows has [N] row events, the
    [i]-th carrying index [i] and the [i]-th row; any other record,
    failure records included, has none. When the executor raises, and
    only then, the stream is a single [error] event. *)
Theorem event_stream_shape drv input config l fm self :
  (forall r,
     fst (_execute_query drv input config l fm self) = inr r ->
     exists events,
       fst (astream_events drv input config l fm self) = inr events /\
       events = (metadata_event r :: row_events r ++ [summary_event r])%list /\
       map event_tag events =
       ("metadata" :: replicate (length (row_events r)) "row" ++ ["summary"])%list /\
       (r_success r = Some true -> r_query_type r = Some "SELECT" ->
        exists rows,
          r_rows r = Some rows /\
          length (row_events r) = length rows /\
          forall i, row_events r !! i = EvRow i <$> rows !! i) /\
       (~ (r_success r = Some true /\ r_query_type r = Some "SELECT") ->
        row_events r = []))
  /\
  (forall e,
     fst (_execute_query drv input config l fm self) = inl e ->
     fst (astream_events drv input config l fm self)
     = inr [EvError (exc_msg e) (exc_class e)])
  /\
  ((exists events,
      fst (astream_events drv input config l fm self) = inr events /\
      In "error" (map event_tag events)) <->
   (exists e, fst (_execute_query drv input config l fm self) = inl e))
  /\
  snd (astream_events drv input config l fm self)
  = snd (_execute_query drv input config l fm self).
Proof.
  rewrite astream_events_unfold.
  destruct (_execute_query drv input config l fm self) as [[e|r] self'] eqn:Hrun;
    simpl.
  - split; [discriminate|]. split; [now intros e' [= <-]|].
    split; [|reflexivity]. split; [eauto|].
    intros _. eexists. split; [reflexivity|]. simpl. auto.
  - split.
    + intros r' [= <-]. eexists. split; [reflexivity|]. split; [reflexivity|].
      split; [|split].
      * simpl. now rewrite map_app, row_events_tags.
      * intros Hok Hsel.
        assert (Hfst : fst (_execute_query drv input config l fm self) = inr r)
          by now rewrite Hrun.
        destruct (execute_query_success_inv drv _ _ _ _ _ _ Hfst Hok)
          as (s1 & s' & Hst).
        destruct (execute_statement_inv drv _ _ _ _ _ _ Hst)
          as (cur & t & _ & _ & _ & Hqt & _ & _ & Hkind).
        rewrite Hsel in Hqt. injection Hqt as <-.
        change (kind_of_type "SELECT") with ReadStmt in Hkind.
        destruct Hkind as (_ & Hrows & _).
        eexists. split; [exact Hrows|].
        rewrite (row_events_select r _ Hok Hsel Hrows), length_imap.
        split; [reflexivity|]. intros i. apply list_lookup_imap.
      * apply row_events_other.
    + split; [discriminate|]. split; [|reflexivity]. split.
      * intros (events & [= <-] & Hin). exfalso. simpl in Hin.
        destruct Hin as [Hin|Hin]; [discriminate|].
        rewrite map_app, row_events_tags in Hin.
        apply in_app_or in Hin as [Hin|[Hin|[]]]; [|discriminate].
        apply list_elem_of_In, elem_of_replicate in Hin as [Hin _].
        discriminate.
      * intros [e He]. discriminate.
Qed.

(** ** The schema inspector *)

(** The text one row of six fields adds. *)
Lemma describe_fields_text field type_ null key default_ extra :
  describe_fields field type_ null key default_ extra
  = "  • " ++ PyVal.str field ++ ": " ++ PyVal.str type_
    ++ (if PyVal.truthy key then " (" ++ PyVal.str key ++ ")"
        else EmptyString)
    ++ (if PyVal.eq_str null "NO" then " NOT NULL" else EmptyString)
    ++ (if PyVal.is_not_None default_
        then " DEFAULT " ++ PyVal.str default_ else EmptyString)
    ++ (if PyVal.truthy extra then " " ++ PyVal.str extra
        else EmptyString)
    ++ PyVal.nl.
Proof.
  unfold describe_fields.
  destruct (PyVal.truthy key), (PyVal.eq_str null "NO"),
    (PyVal.is_not_None default_), (PyVal.truthy extra);
    rewrite ?append_assoc; reflexivity.
Qed.

Lemma describe_rows_lines (rows : list row) (schema_info : string) :
  Forall (fun r => length r = 6%nat) rows ->
  exists lines,
    Forall2 (fun r line =>
               exists field type_ null key default_ extra,
                 r = [field; type_; null; key; default_; extra] /\
                 line = describe_fields field type_ null key default_ extra)
            rows lines /\
    describe_rows schema_info rows = inr (schema_info ++ foldr append EmptyString lines).
Proof.
  intros Hsix. revert schema_info.
  induction Hsix as [|r rows Hr _ IH]; intros schema_info.
  - exists []. split; [constructor|]. simpl. now rewrite append_empty_r.
  - destruct r as [|f [|t [|n [|k [|d [|e [|x r]]]]]]]; try discriminate.
    destruct (IH (schema_info ++ describe_fields f t n k d e)) as (lines & Hl & Hd).
    exists (describe_fields f t n k d e :: lines). split.
    + constructor; [|exact Hl]. now exists f, t, n, k, d, e.
    + cbn [describe_rows describe_row]. rewrite Hd. cbn [foldr].
      now rewrite append_assoc.
Qed.

Lemma query_type_of_describe database table :
  query_type_of (describe_query database table) = Some "DESCRIBE".
Proof. now rewrite query_type_of_first_token. Qed.

Lemma execute_query_other drv q db l fm self cur t :
  acquires drv self -> switch_succeeds drv db ->
  drv_execute drv q = inr cur -> query_type_of q = Some t ->
  kind_of_type t = OtherStmt -> cur_fetch_error cur = None ->
  exists r s2,
    _execute_query drv q db l fm self = (inr r, s2) /\
    r_success r = Some true /\ r_rows r = Some (cur_rows cur).
Proof.
  intros Hacq Hsw Hcur Ht Hk Hf.
  destruct (execute_query_returns drv q db l fm self Hacq)
    as (p & s1 & s2 & Hp & Hrun).
  destruct (execute_guarded_switched drv q db l fm (at_cursor p s1) Hsw)
    as (s' & Hg).
  assert (Hst : exists r s'', execute_statement drv q l fm s' = (inr r, s'')).
  { unfold execute_statement, cursor_execute, cursor_fetchall, bind, log,
      raise, ret, lift.
    simpl. rewrite Hcur, Ht. simpl. rewrite Hk. simpl. rewrite Hf. simpl.
    destruct (wanted_description fm cur); eauto. }
  destruct Hst as (r & s'' & Hst).
  exists r, s2. rewrite Hrun, Hg, Hst. split; [reflexivity|].
  destruct (execute_statement_inv drv q l fm s' r s'' Hst)
    as (cur' & t' & Hcur' & Ht' & _ & _ & Hok & _ & Hkind).
  rewrite Hcur in Hcur'. injection Hcur' as <-.
  rewrite Ht in Ht'. injection Ht' as <-.
  rewrite Hk in Hkind. now destruct Hkind as (_ & Hrows & _).
Qed.

(** C9. A table being given, the inspector runs [DESCRIBE] on it. When
    that execution succeeds and returns no row, the answer is that the
    table has no columns or doesn't exist, whatever the reason for the
    empty result. When it returns rows of six fields each, the answer is
    the header followed by one line per row, in order. The line of a row
    is the bullet with its first field and, after a colon, its second
    field; then the fourth field in parentheses when it is true, NOT NULL
    when the third field is the string NO, DEFAULT and the fifth field
    when that is not [None], the sixth field when it is true; then the
    end of line. *)
Theorem describe_table drv database table include_data_types self cur :
  PyStr.truthy table = true ->
  acquires drv self -> switch_succeeds drv database ->
  drv_execute drv (describe_query database table) = inr cur ->
  cur_fetch_error cur = None ->
  (cur_rows cur = [] ->
   fst (MySQLSchemaTool._arun drv database (Some table) include_data_types self)
   = inr ("📋 Table '" ++ table ++ "' has no columns or doesn't exist"))
  /\
  (cur_rows cur <> [] ->
   Forall (fun r => length r = 6%nat) (cur_rows cur) ->
   exists lines,
     Forall2
       (fun r line =>
          exists field type_ null key default_ extra,
            r = [field; type_; null; key; default_; extra] /\
            line =
            "  • " ++ PyVal.str field ++ ": " ++ PyVal.str type_
            ++ (if PyVal.truthy key then " (" ++ PyVal.str key ++ ")"
                else EmptyString)
            ++ (if PyVal.eq_str null "NO" then " NOT NULL" else EmptyString)
            ++ (if PyVal.is_not_None default_
                then " DEFAULT " ++ PyVal.str default_ else EmptyString)
            ++ (if PyVal.truthy extra then " " ++ PyVal.str extra
                else EmptyString)
            ++ PyVal.nl)
       (cur_rows cur) lines /\
     fst (MySQLSchemaTool._arun drv database (Some table) include_data_types self)
     = inr ("🔍 Schema for table '" ++ table ++ "':" ++ PyVal.nl
              ++ foldr append EmptyString lines)).
Proof.
  intros Htable Hacq Hsw Hcur Hf.
  destruct (execute_query_other drv (describe_query database table) database
              100 true self cur "DESCRIBE" Hacq Hsw Hcur
              (query_type_of_describe database table) eq_refl Hf)
    as (r & s2 & Hrun & Hok & Hrows).
  assert (Harun :
    MySQLSchemaTool._arun drv database (Some table) include_data_types self =
    match cur_rows cur with
    | [] => (inr ("📋 Table '" ++ table ++ "' has no columns or doesn't exist"), s2)
    | rows =>
        match describe_rows
                ("🔍 Schema for table '" ++ table ++ "':" ++ PyVal.nl) rows with
        | inr text => (inr text, s2)
        | inl e => (inr ("❌ MySQL Schema Tool Error: " ++ exc_msg e), s2)
        end
    end).
  { unfold MySQLSchemaTool._arun, try_except, bind.
    cbn [given]. rewrite Htable, !andb_false_r. unfold show.
    change (default "None" (Some table)) with table.
    unfold describe_query, show in Hrun. rewrite Hrun, Hok, Hrows.
    change (default false (Some true)) with true. cbv iota.
    change (default [] (Some (cur_rows cur))) with (cur_rows cur).
    destruct (cur_rows cur) as [|r0 rows]; [reflexivity|].
    unfold lift. now destruct (describe_rows _ _). }
  rewrite Harun. split.
  - intros ->. reflexivity.
  - intros Hne Hsix.
    destruct (describe_rows_lines (cur_rows cur)
                ("🔍 Schema for table '" ++ table ++ "':" ++ PyVal.nl) Hsix)
      as (lines & Hl & Hd).
    exists lines. split.
    + eapply Forall2_impl; [exact Hl|].
      intros row line (f & t & n & k & d & e & -> & ->).
      exists f, t, n, k, d, e. split; [reflexivity|].
      apply describe_fields_text.
    + clear Hl. revert Hne Hd.
      destruct (cur_rows cur); [congruence|]. intros _ ->. simpl.
      now rewrite !append_assoc.
Qed.

(** ** The formatter *)

Lemma reads_fret {A} (a : A) : reads (fret a).
Proof. intros r. reflexivity. Qed.

Lemma reads_get {A} (key : result -> option A) (dflt : A) : reads (get key dflt).
Proof. intros r. reflexivity. Qed.

Lemma reads_fbind {A B} (m : Fmt A) (k : A -> Fmt B) :
  reads m -> (forall a, reads (k a)) -> reads (fbind m k).
Proof.
  intros Hm Hk r. unfold fbind. specialize (Hm r).
  destruct (m r) as [a r']. simpl in Hm. subst r'. apply Hk.
Qed.

Ltac reads_step :=
  first
    [ apply reads_fret
    | apply reads_get
    | apply reads_fbind; [|intros ?]
    | match goal with
      | |- reads (if ?b then _ else _) => destruct b
      | |- reads (match ?x with _ => _ end) => destruct x
      end
    | progress cbv zeta ].

Lemma format_result_reads : reads _format_result.
Proof. unfold _format_result. repeat reads_step. Qed.

Lemma arun_state drv q db l fm self :
  snd (_arun drv q db l fm self) = snd (_execute_query drv q db l fm self).
Proof.
  unfold _arun, try_except, bind, ret.
  now destruct (_execute_query drv q db l fm self) as [[e|r] s].
Qed.

(** C10. Formatting a record leaves the record as it was, and formatting
    it again gives the same text. Nor does it touch the tool: where
    [_arun] formats the record of the executor, the instance is as the
    executor left it. *)
Theorem format_result_pure (r : result) :
  snd (_format_result r) = r /\
  fst (_format_result (snd (_format_result r))) = fst (_format_result r) /\
  forall drv q db l fm self,
    fst (_execute_query drv q db l fm self) = inr r ->
    _arun drv q db l fm self
    = (inr (fst (_format_result r)), snd (_execute_query drv q db l fm self)).
Proof.
  pose proof (format_result_reads r) as H. split; [exact H|].
  split; [now rewrite H|].
  intros drv q db l fm self. unfold _arun, try_except, bind, ret.
  destruct (_execute_query drv q db l fm self) as [[e|r'] s]; simpl;
    [discriminate|now intros [= ->]].
Qed.

(** ** The dispatch *)

Lemma switch_database_mono drv db s c :
  c ∈ calls s -> c ∈ calls (snd (switch_database drv db s)).
Proof.
  unfold switch_database, cursor_execute, bind, log, raise, ret.
  intros H. repeat step_tool; simpl; set_solver.
Qed.

Lemma execute_statement_logs drv q l fm s :
  Execute q ∈ calls (snd (execute_statement drv q l fm s)) /\
  forall c, c ∈ calls s -> c ∈ calls (snd (execute_statement drv q l fm s)).
Proof.
  unfold execute_statement, cursor_execute, cursor_fetchmany, cursor_fetchall,
    lift, bind, log, raise, ret.
  simpl. repeat step_tool; simpl; set_solver.
Qed.

Lemma execute_query_calls drv q db l fm self :
  acquires drv self -> switch_succeeds drv db ->
  exists p,
    fst (_get_connection_pool drv self) = inr p /\
    Acquire p ∈ calls (snd (_execute_query drv q db l fm self)) /\
    OpenCursor ∈ calls (snd (_execute_query drv q db l fm self)) /\
    Execute q ∈ calls (snd (_execute_query drv q db l fm self)).
Proof.
  intros Hacq Hsw. destruct (acquires_pool drv self Hacq) as (p & s1 & Hp).
  exists p. rewrite execute_query_unfold, Hp.
  destruct Hacq as (_ & -> & ->). split; [reflexivity|].
  unfold execute_guarded, bind.
  pose proof (switch_database_mono drv db (at_cursor p s1)) as Hmono.
  destruct (switch_database_succeeds drv db (at_cursor p s1) Hsw) as (s' & Hs' & _).
  rewrite Hs' in *. simpl in Hmono.
  destruct (execute_statement_logs drv q l fm s') as [Hq Hkeep].
  destruct (execute_statement drv q l fm s') as [res s2]. simpl in *.
  assert (Acquire p ∈ calls s2 /\ OpenCursor ∈ calls s2) as [Ha Ho].
  { split; apply Hkeep, Hmono; unfold at_cursor; simpl; set_solver. }
  set_solver.
Qed.

Lemma handle_query_state drv args srv :
  mysql_tool (snd (handle_call_tool drv "mysql_query" (Some args) srv))
  = snd (_arun drv (default EmptyString (arg_query args)) (arg_database args)
           (default 100%Z (arg_limit args))
           (default true (arg_fetch_metadata args)) (mysql_tool srv)).
Proof.
  unfold handle_call_tool. simpl.
  now destruct (_arun drv _ _ _ _ _) as [[e|text] t].
Qed.

(** C3. Whatever the query text, blank and denylisted texts included, the
    executor and [_arun] hand it to the driver: once the acquisitions and
    the switch of database went through, a connection has been taken from
    the pool and the text has been executed on a cursor. The dispatch
    handler is [_arun] on the raw arguments, so the same holds of a
    [mysql_query] call. The validator only runs when a [MySQLQueryInput] is
    built: that fails exactly as the validator does. *)
Theorem dispatch_skips_validation drv args srv :
  let q := default EmptyString (arg_query args) in
  let db := arg_database args in
  let l := default 100%Z (arg_limit args) in
  let fm := default true (arg_fetch_metadata args) in
  (acquires drv (mysql_tool srv) -> switch_succeeds drv db ->
   exists p,
     fst (_get_connection_pool drv (mysql_tool srv)) = inr p /\
     (Acquire p ∈ calls (snd (_execute_query drv q db l fm (mysql_tool srv))) /\
      Execute q ∈ calls (snd (_execute_query drv q db l fm (mysql_tool srv)))) /\
     (Acquire p ∈ calls (snd (_arun drv q db l fm (mysql_tool srv))) /\
      Execute q ∈ calls (snd (_arun drv q db l fm (mysql_tool srv)))) /\
     (Acquire p ∈ calls (mysql_tool
                            (snd (handle_call_tool drv "mysql_query" (Some args) srv))) /\
      Execute q ∈ calls (mysql_tool
                            (snd (handle_call_tool drv "mysql_query" (Some args) srv)))))
  /\
  mysql_tool (snd (handle_call_tool drv "mysql_query" (Some args) srv))
  = snd (_arun drv q db l fm (mysql_tool srv))
  /\
  (forall v, arg_query args = Some v ->
     (forall e, validate_query v = inl e -> parse_query_input args = inl e) /\
     (forall input, parse_query_input args = inr input ->
                    validate_query v = inr v /\ query input = v)).
Proof.
  intros q db l fm. split; [|split].
  - intros Hacq Hsw.
    destruct (execute_query_calls drv q db l fm (mysql_tool srv) Hacq Hsw)
      as (p & Hp & Ha & _ & Hq).
    exists p. split; [exact Hp|]. split; [now split|].
    rewrite handle_query_state. fold q db l fm. rewrite arun_state.
    now repeat split.
  - apply handle_query_state.
  - intros v Hv. unfold parse_query_input. rewrite Hv. split.
    + now intros e ->.
    + intros input. destruct (validate_query v) as [e|v'] eqn:Hval; [discriminate|].
      assert (v' = v) as ->.
      { unfold validate_query, validate_query_with in Hval. revert Hval.
        repeat step_tool; congruence. }
      now intros [= <-].
Qed.

(** C2, on the code: a [mysql_query] call with [DROP TABLE users], which
    the validator rejects, creates the pool of a fresh server, takes a
    connection and executes the statement. *)
Lemma drop_table_reaches_database :
  validate_query "DROP TABLE users"
  = inl (ValueError "Query contains potentially dangerous pattern: drop table") /\
  let '(texts, srv) :=
    handle_call_tool (driver_of []) "mysql_query"
      (Some (query_arguments "DROP TABLE users")) new_server in
  _connection_pool (mysql_tool srv) = Some 0%nat /\
  live_pools (mysql_tool srv) = [0%nat] /\
  calls (mysql_tool srv)
  = [CreatePool; Acquire 0; OpenCursor; Execute "DROP TABLE users";
     CloseCursor; Release 0] /\
  texts = ["✅ MySQL DROP Query Executed Successfully" ++ PyVal.nl
             ++ "Query: DROP TABLE users" ++ PyVal.nl
             ++ "DDL statement executed successfully" ++ PyVal.nl].
Proof. split; [reflexivity|]. vm_compute. now repeat split. Qed.

(** * The theorems at work *)

(** A fresh instance in front of an accepting server gets its pool,
    connection and cursor. *)
Lemma acquires_fresh rows : acquires (driver_of rows) new_tool.
Proof. split; [now right|now split]. Defined.

(** With the [strip] and [lower] of [PyStr]: a harmless text is accepted;
    a text with two patterns is rejected on one of them. *)
Lemma validate_query_spec_witness :
  validate_query "SELECT 1" = inr "SELECT 1" /\
  exists i p',
    dangerous_patterns !! i = Some p' /\
    validate_query "call system; DROP TABLE users"
    = inl (ValueError ("Query contains potentially dangerous pattern: " ++ p')).
Proof.
  destruct (validate_query_spec PyStr.strip PyStr.lower "SELECT 1"
              strip_trims lower_keeps_lowercase) as [[_ Hacc] _].
  destruct (validate_query_spec PyStr.strip PyStr.lower
              "call system; DROP TABLE users"
              strip_trims lower_keeps_lowercase) as (_ & _ & Hrej & _).
  split.
  - apply Hacc. split; [discriminate|]. intros p Hp.
    repeat (apply elem_of_cons in Hp as [->|Hp]; [reflexivity|]).
    now apply elem_of_nil in Hp.
  - destruct (Hrej "system") as (i & p' & Hi & _ & _ & Hv).
    + repeat (first [apply list_elem_of_here|apply list_elem_of_further]).
    + now left.
    + now exists i, p'.
Defined.

(** A denylisted text and an absent query both reach the cursor through
    the dispatch handler. *)
Lemma dispatch_skips_validation_witness :
  Execute "drop table users"
  ∈ calls (mysql_tool
             (snd (handle_call_tool (driver_of []) "mysql_query"
                     (Some (query_arguments "drop table users")) new_server))) /\
  Execute EmptyString
  ∈ calls (mysql_tool
             (snd (handle_call_tool (driver_of []) "mysql_query"
                     (Some no_arguments) new_server))).
Proof.
  split.
  - pose proof (dispatch_skips_validation (driver_of [])
                  (query_arguments "drop table users") new_server) as H.
    cbv zeta in H. destruct H as [H _].
    destruct H as (p & _ & _ & _ & _ & Hq); [apply acquires_fresh|exact I|].
    exact Hq.
  - pose proof (dispatch_skips_validation (driver_of []) no_arguments new_server)
      as H.
    cbv zeta in H. destruct H as [H _].
    destruct H as (p & _ & _ & _ & _ & Hq); [apply acquires_fresh|exact I|].
    exact Hq.
Defined.

(** Two rows returned: four events; server out of reach: one error
    event. *)
Lemma event_stream_shape_witness :
  exists events,
    fst (astream_events (driver_of sample_rows)
           "SELECT id, name FROM users LIMIT 3" None 2 true new_tool)
    = inr events /\
    map event_tag events = ["metadata"; "row"; "row"; "summary"] /\
    fst (astream_events unreachable "SELECT 1" None 100 true new_tool)
    = inr [EvError "Can't connect to MySQL server" "OperationalError"].
Proof.
  destruct (event_stream_shape (driver_of sample_rows)
              "SELECT id, name FROM users LIMIT 3" None 2 true new_tool)
    as [H _].
  destruct (H _ eq_refl) as (events & He & _ & Htags & _).
  exists events. split; [exact He|]. split; [exact Htags|].
  destruct (event_stream_shape unreachable "SELECT 1" None 100 true new_tool)
    as (_ & H' & _).
  exact (H' _ eq_refl).
Defined.

(** A malformed statement comes back as a failure record; a server out of
    reach makes the executor raise. *)
Lemma executor_failures_are_records_witness :
  (exists r,
     fst (_execute_query rejecting "SELEC 1" None 100 true new_tool) = inr r /\
     r_success r = Some false /\
     r_error r = Some "You have an error in your SQL syntax" /\
     r_error_type r = Some "ProgrammingError") /\
  fst (_execute_query unreachable "SELECT 1" None 100 true new_tool)
  = inl (Exc "OperationalError" "Can't connect to MySQL server").
Proof.
  split.
  - destruct (executor_failures_are_records rejecting "SELEC 1" None 100 true
                new_tool) as [_ H].
    destruct H as (_ & _ & H); [split; [now right|now split]|].
    destruct (H (Exc "ProgrammingError" "You have an error in your SQL syntax"))
      as (r & Hr & Hs & He & Ht & _).
    + right. left. split; [exact I|reflexivity].
    + now exists r.
  - destruct (executor_failures_are_records unreachable "SELECT 1" None 100 true
                new_tool) as [H _].
    apply H. left. now split.
Defined.

(** Three rows in the result, a limit of two: two rows, limited. *)
Lemma select_row_limit_witness :
  exists r,
    fst (_execute_query (driver_of sample_rows)
           "SELECT id, name FROM users LIMIT 3" None 2 true new_tool) = inr r /\
    r_row_count r = Some 2%Z /\ r_limited r = Some true /\
    r_rows r = Some [[VInt 1; VStr "ann"]; [VInt 2; VStr "bob"]].
Proof.
  destruct (select_row_limit (driver_of sample_rows)
              "SELECT id, name FROM users LIMIT 3" None 2 true new_tool
              (cursor_of sample_rows)) as [Hrec Hrun]; [lia|reflexivity|].
  destruct Hrun as (r & Hr & Hok & Hsel);
    [apply acquires_fresh|exact I|reflexivity|reflexivity|exact I|].
  destruct (Hrec r Hr Hok Hsel) as (rows & Hrows & -> & Hcount & Hmore & _).
  destruct Hmore as [_ Hlim]; [simpl; lia|].
  exists r. now repeat split.
Defined.


(** A history with repeated acquires and closes and a failed creation. *)
Lemma pool_lifecycle_witness :
  (length
     (live_pools
        (run_ops [OpAcquire (driver_of []); OpAcquire (driver_of []);
                  OpQuery (driver_of []) "SELECT 1" None 100 true; OpClose;
                  OpClose; OpAcquire unreachable; OpAcquire (driver_of [])]
           new_tool)) <= 1)%nat /\
  _close_connection_pool new_tool = (inr tt, new_tool).
Proof.
  destruct pool_lifecycle as (_ & _ & _ & _ & Hnoop & _ & Hone).
  split; [apply Hone|now apply Hnoop].
Defined.

(** An empty DESCRIBE result, and one of two columns: a primary key that
    is not nullable and auto-incremented, and a nullable column with no
    key, no default and no extra attribute. *)
Lemma describe_table_witness :
  fst (MySQLSchemaTool._arun (driver_of []) None (Some "ghost") true new_tool)
  = inr "📋 Table 'ghost' has no columns or doesn't exist" /\
  fst (MySQLSchemaTool._arun (driver_of sample_schema) (Some "app")
         (Some "users") true new_tool)
  = inr ("🔍 Schema for table 'users':" ++ PyVal.nl
           ++ "  • id: int (PRI) NOT NULL auto_increment" ++ PyVal.nl
           ++ "  • name: varchar(50)" ++ PyVal.nl).
Proof.
  split.
  - destruct (describe_table (driver_of []) None "ghost" true new_tool
                (cursor_of [])) as [Hnone _];
      [reflexivity|apply acquires_fresh|exact I|reflexivity|reflexivity|].
    now apply Hnone.
  - destruct (describe_table (driver_of sample_schema) (Some "app") "users" true
                new_tool (cursor_of sample_schema)) as [_ Hsome];
      [reflexivity|apply acquires_fresh|intros _; now eexists|reflexivity
      |reflexivity|].
    destruct Hsome as (lines & Hl & Htext);
      [discriminate|now repeat constructor|].
    rewrite Htext. clear Htext.
    apply Forall2_cons_inv_l in Hl
      as (l1 & lines1 & (f1 & t1 & n1 & k1 & d1 & e1 & Hr1 & ->) & Hl & ->).
    apply Forall2_cons_inv_l in Hl
      as (l2 & lines2 & (f2 & t2 & n2 & k2 & d2 & e2 & Hr2 & ->) & Hl & ->).
    apply Forall2_nil_inv_l in Hl as ->.
    injection Hr1 as <- <- <- <- <- <-. injection Hr2 as <- <- <- <- <- <-.
    reflexivity.
Defined.

(** [_arun] returns the text of the record and the instance of the
    executor. *)
Lemma format_result_pure_witness :
  _arun (driver_of sample_rows) "SELECT id, name FROM users LIMIT 3" None 2 true
    new_tool
  = (inr (fst (_format_result
                 (with_rows
                    (base_result "SELECT id, name FROM users LIMIT 3" "SELECT" 0)
                    [[VInt 1; VStr "ann"]; [VInt 2; VStr "bob"]] 2 (Some true)))),
     snd (_execute_query (driver_of sample_rows)
            "SELECT id, name FROM users LIMIT 3" None 2 true new_tool)).
Proof.
  destruct (format_result_pure
              (with_rows
                 (base_result "SELECT id, name FROM users LIMIT 3" "SELECT" 0)
                 [[VInt 1; VStr "ann"]; [VInt 2; VStr "bob"]] 2 (Some true)))
    as (_ & _ & H).
  now apply H.
Defined.

(** * Further properties *)

(** ** Scoped acquisition *)

Lemma calls_record_call c self : calls (record_call c self) = (calls self ++ [c])%list.
Proof. reflexivity. Qed.

(** The guarded block only adds calls on the cursor to the log. *)
Lemma execute_guarded_trace drv q db l fm s :
  exists body,
    calls (snd (execute_guarded drv q db l fm s)) = (calls s ++ body)%list /\
    Forall (fun c => is_statement_call c = true) body.
Proof.
  unfold execute_guarded, switch_database, execute_statement, cursor_execute,
    cursor_fetchmany, cursor_fetchall, lift, bind, log, raise, ret.
  simpl. repeat step_tool; rewrite ?calls_record_call, <- ?app_assoc;
    (eexists; split; [reflexivity|repeat constructor]).
Qed.

(** X1. Once a connection has been taken from the pool it is given back
    on every path: after the cursor is closed when the guarded block ran,
    whether it produced a success or a failure record, and at once when
    opening the cursor raised. In between, only calls on the cursor are
    made. When taking the connection itself raises, nothing is released. *)
Theorem connection_always_released drv q db l fm self p s1 :
  _get_connection_pool drv self = (inr p, s1) ->
  (drv_acquire drv = None -> drv_cursor drv = None ->
   exists body,
     calls (snd (_execute_query drv q db l fm self))
     = (calls s1 ++ [Acquire p; OpenCursor] ++ body ++ [CloseCursor; Release p])%list /\
     Forall (fun c => is_statement_call c = true) body)
  /\
  (forall e, drv_acquire drv = None -> drv_cursor drv = Some e ->
     _execute_query drv q db l fm self
     = (inl e, record_call (Release p)
                 (record_call OpenCursor (record_call (Acquire p) s1))))
  /\
  (forall e, drv_acquire drv = Some e ->
     _execute_query drv q db l fm self = (inl e, record_call (Acquire p) s1)).
Proof.
  intros Hp. rewrite execute_query_unfold, Hp. split; [|split].
  - intros -> ->.
    destruct (execute_guarded_trace drv q db l fm (at_cursor p s1))
      as (body & Hbody & Hstmt).
    destruct (execute_guarded drv q db l fm (at_cursor p s1)) as [res s2].
    simpl in *. exists body. split; [|exact Hstmt].
    rewrite Hbody. unfold at_cursor. simpl. now rewrite <- !app_assoc.
  - now intros e -> ->.
  - now intros e ->.
Qed.

(** ** Statements that return no rows *)

(** The calls of the switch of database, if one was asked for. *)
Lemma switch_database_run drv db s :
  switch_succeeds drv db ->
  switch_database drv db s
  = (inr tt,
     if given db then record_call (Execute ("USE " ++ show db)) s else s).
Proof.
  unfold switch_succeeds, switch_database, cursor_execute, bind, log, ret, given, show.
  destruct db as [d|]; [|reflexivity]. simpl.
  destruct (PyStr.truthy d); [|reflexivity].
  intros [cur Hcur]; [reflexivity|]. now rewrite Hcur.
Qed.

Lemma execute_statement_mutation drv q l fm cur t s :
  drv_execute drv q = inr cur -> query_type_of q = Some t ->
  kind_of_type t = MutationStmt ->
  execute_statement drv q l fm s
  = (inr (with_affected (base_result q t (drv_time drv)) (cur_rowcount cur)
            (default VNone (cur_lastrowid cur))),
     record_call (Execute q) s).
Proof.
  intros Hcur Ht Hk.
  unfold execute_statement, cursor_execute, bind, log, raise, ret, lift.
  simpl. rewrite Hcur, Ht. simpl. now rewrite Hk.
Qed.

Lemma execute_statement_definition drv q l fm cur t s :
  drv_execute drv q = inr cur -> query_type_of q = Some t ->
  kind_of_type t = DefinitionStmt ->
  execute_statement drv q l fm s
  = (inr (with_ddl (base_result q t (drv_time drv))
            "DDL statement executed successfully"),
     record_call (Execute q) s).
Proof.
  intros Hcur Ht Hk.
  unfold execute_statement, cursor_execute, bind, log, raise, ret, lift.
  simpl. rewrite Hcur, Ht. simpl. now rewrite Hk.
Qed.

(** The executor when the acquisitions and the switch go through, in terms
    of what the statement part of the guarded block does. *)
Lemma execute_query_run drv q db l fm self p s1 :
  _get_connection_pool drv self = (inr p, s1) ->
  drv_acquire drv = None -> drv_cursor drv = None -> switch_succeeds drv db ->
  _execute_query drv q db l fm self =
  let start :=
    if given db
    then record_call (Execute ("USE " ++ show db)) (at_cursor p s1)
    else at_cursor p s1 in
  let '(res, s2) := execute_statement drv q l fm start in
  (inr match res with
       | inr r => r
       | inl e => failure_result q e (drv_time drv)
       end,
   record_call (Release p) (record_call CloseCursor s2)).
Proof.
  intros Hp Ha Hc Hsw. rewrite execute_query_unfold, Hp, Ha, Hc.
  unfold execute_guarded, bind. rewrite (switch_database_run drv db _ Hsw).
  reflexivity.
Qed.

(** X2. An INSERT, UPDATE or DELETE, and likewise a CREATE, ALTER or DROP,
    that the server accepts is never followed by a fetch: the driver sees
    the acquisitions, the switch of database if one was asked for, the
    statement, and the releases. The record of a mutation carries the row
    count of the cursor and its last row id ([None] when the cursor has
    none); the record of a definition carries the fixed acknowledgement.
    Neither has rows or columns, whatever the limit and the metadata
    flag. *)
Theorem rowless_statements drv q db l fm self p s1 cur t :
  _get_connection_pool drv self = (inr p, s1) ->
  drv_acquire drv = None -> drv_cursor drv = None -> switch_succeeds drv db ->
  drv_execute drv q = inr cur -> query_type_of q = Some t ->
  kind_of_type t = MutationStmt \/ kind_of_type t = DefinitionStmt ->
  exists r,
    fst (_execute_query drv q db l fm self) = inr r /\
    calls (snd (_execute_query drv q db l fm self))
    = (calls s1 ++ [Acquire p; OpenCursor]
         ++ (if given db then [Execute ("USE " ++ show db)] else [])
         ++ [Execute q; CloseCursor; Release p])%list /\
    r_success r = Some true /\ r_query_type r = Some t /\
    r_rows r = None /\ r_row_count r = None /\ r_columns r = None /\
    (kind_of_type t = MutationStmt ->
     r_affected_rows r = Some (cur_rowcount cur) /\
     r_last_insert_id r = Some (default VNone (cur_lastrowid cur)) /\
     r_ddl_executed r = None) /\
    (kind_of_type t = DefinitionStmt ->
     r_ddl_executed r = Some true /\
     r_message r = Some "DDL statement executed successfully" /\
     r_affected_rows r = None).
Proof.
  intros Hp Ha Hc Hsw Hcur Ht Hk.
  rewrite (execute_query_run drv q db l fm self p s1 Hp Ha Hc Hsw). cbv zeta.
  destruct Hk as [Hk|Hk].
  - rewrite (execute_statement_mutation drv q l fm cur t _ Hcur Ht Hk).
    eexists. split; [reflexivity|]. split.
    + destruct (given db); unfold at_cursor; simpl; now rewrite <- !app_assoc.
    + simpl. repeat split; congruence.
  - rewrite (execute_statement_definition drv q l fm cur t _ Hcur Ht Hk).
    eexists. split; [reflexivity|]. split.
    + destruct (given db); unfold at_cursor; simpl; now rewrite <- !app_assoc.
    + simpl. repeat split; congruence.
Qed.

(** ** Statements the executor cannot classify *)

Lemma query_type_of_blank q :
  PyStr.strip q = EmptyString -> query_type_of q = None.
Proof. unfold query_type_of. now intros ->. Qed.

(** X3. A blank statement is sent to the server before the executor looks
    at its first token. When the server accepts it, the record that comes
    back is nonetheless a failure record, of type [IndexError], and no
    rows are fetched. *)
Theorem blank_statement_is_executed drv q db l fm self p s1 cur :
  _get_connection_pool drv self = (inr p, s1) ->
  drv_acquire drv = None -> drv_cursor drv = None -> switch_succeeds drv db ->
  PyStr.strip q = EmptyString -> drv_execute drv q = inr cur ->
  fst (_execute_query drv q db l fm self)
  = inr (failure_result q (IndexError "list index out of range") (drv_time drv)) /\
  calls (snd (_execute_query drv q db l fm self))
  = (calls s1 ++ [Acquire p; OpenCursor]
       ++ (if given db then [Execute ("USE " ++ show db)] else [])
       ++ [Execute q; CloseCursor; Release p])%list.
Proof.
  intros Hp Ha Hc Hsw Hblank Hcur.
  rewrite (execute_query_run drv q db l fm self p s1 Hp Ha Hc Hsw). cbv zeta.
  assert (Hst : forall s, execute_statement drv q l fm s
            = (inl (IndexError "list index out of range"), record_call (Execute q) s)).
  { intros s. unfold execute_statement, cursor_execute, bind, log, raise, ret, lift.
    simpl. now rewrite Hcur, (query_type_of_blank q Hblank). }
  rewrite Hst. split; [reflexivity|].
  destruct (given db); unfold at_cursor; simpl; now rewrite <- !app_assoc.
Qed.

(** ** Rows and columns of a record *)

Lemma execute_statement_read drv q l fm cur s :
  drv_execute drv q = inr cur -> query_type_of q = Some "SELECT" ->
  cur_fetch_error cur = None ->
  execute_statement drv q l fm s =
  let rows := fetchmany_rows l (cur_rows cur) in
  let result :=
    with_rows (base_result q "SELECT" (drv_time drv)) rows
      (Z.of_nat (length rows))
      (Some match rows with
            | [] => false
            | _ => (Z.of_nat (length rows) =? l)%Z
            end) in
  (match wanted_description fm cur with
   | Some description =>
       match select_columns description with
       | inr columns => inr (with_columns result columns)
       | inl e => inl e
       end
   | None => inr result
   end,
   record_call (FetchMany l) (record_call (Execute q) s)).
Proof.
  intros Hcur Ht Hf.
  unfold execute_statement, cursor_execute, cursor_fetchmany, bind, log, raise,
    ret, lift.
  simpl. rewrite Hcur, Ht. simpl. rewrite Hf. simpl.
  destruct (wanted_description fm cur) as [d|]; [|reflexivity].
  now destruct (select_columns d).
Qed.

Lemma execute_statement_other drv q l fm cur t s :
  drv_execute drv q = inr cur -> query_type_of q = Some t ->
  kind_of_type t = OtherStmt -> cur_fetch_error cur = None ->
  execute_statement drv q l fm s =
  let result :=
    with_rows (base_result q t (drv_time drv)) (cur_rows cur)
      (Z.of_nat (length (cur_rows cur))) None in
  (inr match wanted_description fm cur with
       | Some description =>
           with_columns result
             (map (fun desc => ColName (desc_name desc)) description)
       | None => result
       end,
   record_call FetchAll (record_call (Execute q) s)).
Proof.
  intros Hcur Ht Hk Hf.
  unfold execute_statement, cursor_execute, cursor_fetchall, bind, log, raise,
    ret, lift.
  simpl. rewrite Hcur, Ht. simpl. rewrite Hk. simpl. rewrite Hf. simpl.
  now destruct (wanted_description fm cur).
Qed.

Lemma select_columns_inr description columns :
  select_columns description = inr columns ->
  Forall2 column_of description columns.
Proof.
  revert columns. induction description as [|desc rest IH]; simpl.
  - intros columns [= <-]. constructor.
  - intros columns. destruct (type_name (desc_type desc)) as [e|ty] eqn:Hty;
      [discriminate|].
    destruct (select_columns rest) as [e|cols]; [discriminate|].
    intros [= <-]. constructor; [|now apply IH]. now exists ty.
Qed.

Lemma select_columns_inl description e :
  select_columns description = inl e ->
  exists desc cls,
    desc ∈ description /\ desc_type desc = TypeUnnamed cls /\
    e = AttributeError ("'" ++ cls ++ "' object has no attribute '__name__'").
Proof.
  induction description as [|desc rest IH]; simpl; [discriminate|].
  destruct (desc_type desc) as [|name|cls] eqn:Hty; simpl.
  - destruct (select_columns rest) as [e'|cols]; [|discriminate].
    intros [= <-]. destruct (IH eq_refl) as (d & c & Hd & Hc & He).
    exists d, c. split; [now right|auto].
  - destruct (select_columns rest) as [e'|cols]; [|discriminate].
    intros [= <-]. destruct (IH eq_refl) as (d & c & Hd & Hc & He).
    exists d, c. split; [now right|auto].
  - intros [= <-]. exists desc, cls. split; [now left|auto].
Qed.

(** X4. A SELECT whose result has exactly as many rows as the limit
    returns all of them and still says [limited]: the flag compares the
    number of rows fetched with the limit, it does not know whether rows
    were left behind. *)
Theorem limited_at_the_boundary drv q db l fm self cur :
  acquires drv self -> switch_succeeds drv db ->
  drv_execute drv q = inr cur -> query_type_of q = Some "SELECT" ->
  cur_fetch_error cur = None -> metadata_readable fm cur ->
  (0 < l)%Z -> Z.of_nat (length (cur_rows cur)) = l ->
  exists r,
    fst (_execute_query drv q db l fm self) = inr r /\
    r_success r = Some true /\
    r_rows r = Some (cur_rows cur) /\ r_row_count r = Some l /\
    r_limited r = Some true.
Proof.
  intros Hacq Hsw Hcur Ht Hf Hm Hl Hlen.
  destruct (acquires_pool drv self Hacq) as (p & s1 & Hp).
  destruct Hacq as (_ & Ha & Hc).
  rewrite (execute_query_run drv q db l fm self p s1 Hp Ha Hc Hsw). cbv zeta.
  rewrite (execute_statement_read drv q l fm cur _ Hcur Ht Hf). cbv zeta.
  rewrite fetchmany_rows_positive by exact Hl.
  rewrite take_ge by lia.
  assert (Hflag : match cur_rows cur with
                  | [] => false
                  | _ => (Z.of_nat (length (cur_rows cur)) =? l)%Z
                  end = true).
  { destruct (cur_rows cur); [simpl in Hlen; lia|]. now apply Z.eqb_eq. }
  rewrite Hflag, Hlen. unfold metadata_readable in Hm.
  destruct (wanted_description fm cur) as [d|].
  - destruct Hm as [cols ->]. eexists. split; [reflexivity|]. now repeat split.
  - eexists. split; [reflexivity|]. now repeat split.
Qed.

(** X5. A statement of the other kind (SHOW, DESCRIBE, ...) is fetched
    whole with [fetchall]: the limit plays no part, every row of the
    result is in the record, and the record has no [limited] key. With
    metadata asked for and a description at hand, its columns are the bare
    names of the descriptors, in order. *)
Theorem other_statements_ignore_limit drv q db l fm self p s1 cur t :
  _get_connection_pool drv self = (inr p, s1) ->
  drv_acquire drv = None -> drv_cursor drv = None -> switch_succeeds drv db ->
  drv_execute drv q = inr cur -> query_type_of q = Some t ->
  kind_of_type t = OtherStmt -> cur_fetch_error cur = None ->
  exists r,
    fst (_execute_query drv q db l fm self) = inr r /\
    calls (snd (_execute_query drv q db l fm self))
    = (calls s1 ++ [Acquire p; OpenCursor]
         ++ (if given db then [Execute ("USE " ++ show db)] else [])
         ++ [Execute q; FetchAll; CloseCursor; Release p])%list /\
    r_success r = Some true /\
    r_rows r = Some (cur_rows cur) /\
    r_row_count r = Some (Z.of_nat (length (cur_rows cur))) /\
    r_limited r = None /\
    r_columns r = (map (fun desc => ColName (desc_name desc))
                     <$> wanted_description fm cur).
Proof.
  intros Hp Ha Hc Hsw Hcur Ht Hk Hf.
  rewrite (execute_query_run drv q db l fm self p s1 Hp Ha Hc Hsw). cbv zeta.
  rewrite (execute_statement_other drv q l fm cur t _ Hcur Ht Hk Hf). cbv zeta.
  eexists. split; [reflexivity|]. split.
  - destruct (given db); unfold at_cursor; simpl; now rewrite <- !app_assoc.
  - destruct (wanted_description fm cur); now repeat split.
Qed.

(** X6. The columns of a SELECT. Without the metadata flag, or without a
    description on the cursor, the record has no [columns] key. Otherwise
    it has one dictionary per descriptor, in order, provided every type
    can be named; a descriptor whose type has no [__name__] turns the
    whole SELECT into a failure record of type [AttributeError], after its
    rows have been fetched. *)
Theorem select_columns_of_record drv q db l fm self p s1 cur :
  _get_connection_pool drv self = (inr p, s1) ->
  drv_acquire drv = None -> drv_cursor drv = None -> switch_succeeds drv db ->
  drv_execute drv q = inr cur -> query_type_of q = Some "SELECT" ->
  cur_fetch_error cur = None ->
  FetchMany l ∈ calls (snd (_execute_query drv q db l fm self)) /\
  match wanted_description fm cur with
  | None =>
      exists r,
        fst (_execute_query drv q db l fm self) = inr r /\
        r_success r = Some true /\ r_columns r = None
  | Some description =>
      (exists r columns,
         fst (_execute_query drv q db l fm self) = inr r /\
         r_success r = Some true /\ r_columns r = Some columns /\
         Forall2 column_of description columns) \/
      (exists desc cls,
         desc ∈ description /\ desc_type desc = TypeUnnamed cls /\
         fst (_execute_query drv q db l fm self)
         = inr (failure_result q
                  (AttributeError
                     ("'" ++ cls ++ "' object has no attribute '__name__'"))
                  (drv_time drv)))
  end.
Proof.
  intros Hp Ha Hc Hsw Hcur Ht Hf.
  rewrite (execute_query_run drv q db l fm self p s1 Hp Ha Hc Hsw). cbv zeta.
  rewrite (execute_statement_read drv q l fm cur _ Hcur Ht Hf). cbv zeta.
  split; [simpl; set_solver|].
  destruct (wanted_description fm cur) as [d|].
  - destruct (select_columns d) as [e|cols] eqn:Hcols.
    + right. destruct (select_columns_inl d e Hcols) as (desc & cls & Hd & Hty & ->).
      now exists desc, cls.
    + left. eexists _, cols. split; [reflexivity|]. split; [reflexivity|].
      split; [reflexivity|]. now apply select_columns_inr.
  - eexists. now repeat split.
Qed.

(** ** The text of a query *)

Lemma arun_unfold drv q db l fm self :
  _arun drv q db l fm self =
  match _execute_query drv q db l fm self with
  | (inr r, self') => (inr (fst (_format_result r)), self')
  | (inl e, self') =>
      (inr ("❌ MySQL Tool Error: " ++ exc_msg e ++ PyVal.nl ++ "Query: " ++ q),
       self')
  end.
Proof.
  unfold _arun, try_except, bind, ret.
  now destruct (_execute_query drv q db l fm self) as [[e|r] self'].
Qed.

(** A record of the executor is a success record of the guarded block or
    the failure record of an exception. *)
Lemma execute_query_record drv q db l fm self r :
  fst (_execute_query drv q db l fm self) = inr r ->
  (r_success r = Some true /\ r_query r = Some q) \/
  (exists e, r = failure_result q e (drv_time drv)).
Proof.
  rewrite execute_query_unfold.
  destruct (_get_connection_pool drv self) as [[e|p] s1]; [discriminate|].
  destruct (drv_acquire drv); [discriminate|].
  destruct (drv_cursor drv); [discriminate|].
  destruct (execute_guarded drv q db l fm _) as [[e|r'] s2] eqn:Hg; simpl;
    intros [= <-]; [right; eauto|left].
  destruct (execute_guarded_inv drv _ _ _ _ _ _ _ Hg) as (s' & Hst).
  destruct (execute_statement_inv drv _ _ _ _ _ _ Hst)
    as (_ & _ & _ & _ & Hq & _ & Hok & _).
  now split.
Qed.

Lemma format_failure_result q e now :
  fst (_format_result (failure_result q e now))
  = "❌ MySQL Error: " ++ exc_msg e ++ PyVal.nl ++ "Query: " ++ q.
Proof. reflexivity. Qed.

(** X7. [_arun] never raises: it always answers with a text. When the
    executor raised, the text is the tool error line with the message of
    the exception and the query; when the executor returned a failure
    record, it is the error line with the message recorded and the query;
    otherwise it is the formatter's text of the record. *)
Theorem arun_always_answers drv q db l fm self :
  exists text,
    fst (_arun drv q db l fm self) = inr text /\
    (forall e,
       fst (_execute_query drv q db l fm self) = inl e ->
       text = "❌ MySQL Tool Error: " ++ exc_msg e ++ PyVal.nl ++ "Query: " ++ q) /\
    (forall r,
       fst (_execute_query drv q db l fm self) = inr r ->
       text = fst (_format_result r) /\
       (r_success r <> Some true ->
        exists msg,
          r_error r = Some msg /\
          text = "❌ MySQL Error: " ++ msg ++ PyVal.nl ++ "Query: " ++ q)).
Proof.
  rewrite arun_unfold.
  destruct (_execute_query drv q db l fm self) as [[e|r] self'] eqn:Hrun; simpl.
  - eexists. split; [reflexivity|]. split; [now intros e' [= <-]|discriminate].
  - eexists. split; [reflexivity|]. split; [discriminate|].
    intros r' [= <-]. split; [reflexivity|]. intros Hfail.
    destruct (execute_query_record drv q db l fm self r) as [[Hok _]|[e ->]];
      [now rewrite Hrun|contradiction|].
    exists (exc_msg e). split; [reflexivity|apply format_failure_result].
Qed.

Lemma kind_of_type_eqb t :
  kind_of_type t <> ReadStmt /\ kind_of_type t <> MutationStmt ->
  String.eqb t "SELECT" = false /\
  String.eqb t "INSERT" || String.eqb t "UPDATE" || String.eqb t "DELETE" = false.
Proof.
  unfold kind_of_type. intros [H1 H2].
  destruct (String.eqb t "SELECT"); [congruence|]. split; [reflexivity|].
  now destruct (_ || _).
Qed.

Lemma kind_of_type_mutation_eqb t :
  kind_of_type t = MutationStmt ->
  String.eqb t "SELECT" = false /\
  String.eqb t "INSERT" || String.eqb t "UPDATE" || String.eqb t "DELETE" = true.
Proof.
  unfold kind_of_type.
  destruct (String.eqb t "SELECT"); [discriminate|]. split; [reflexivity|].
  destruct (String.eqb t "INSERT" || String.eqb t "UPDATE" || String.eqb t "DELETE");
    [reflexivity|].
  now destruct (_ || _).
Qed.

(** X8. The text of a statement that returns no rows. A definition the
    server accepts is answered with the header, the query and the fixed
    acknowledgement; a mutation with the header, the query, the number of
    affected rows and, only when the cursor reports a last row id that is
    neither [None] nor zero, that id. *)
Theorem arun_rowless_text drv q db l fm self cur t :
  acquires drv self -> switch_succeeds drv db ->
  drv_execute drv q = inr cur -> query_type_of q = Some t ->
  (kind_of_type t = DefinitionStmt ->
   fst (_arun drv q db l fm self)
   = inr ("✅ MySQL " ++ t ++ " Query Executed Successfully" ++ PyVal.nl
            ++ "Query: " ++ q ++ PyVal.nl
            ++ "DDL statement executed successfully" ++ PyVal.nl))
  /\
  (kind_of_type t = MutationStmt ->
   fst (_arun drv q db l fm self)
   = inr ("✅ MySQL " ++ t ++ " Query Executed Successfully" ++ PyVal.nl
            ++ "Query: " ++ q ++ PyVal.nl
            ++ "Affected rows: " ++ PyStr.of_Z (cur_rowcount cur) ++ PyVal.nl
            ++ (if PyVal.truthy (default VNone (cur_lastrowid cur))
                then "Last insert ID: "
                       ++ PyVal.str (default VNone (cur_lastrowid cur)) ++ PyVal.nl
                else EmptyString))).
Proof.
  intros Hacq Hsw Hcur Ht.
  destruct (acquires_pool drv self Hacq) as (p & s1 & Hp).
  destruct Hacq as (_ & Ha & Hc).
  rewrite arun_unfold, (execute_query_run drv q db l fm self p s1 Hp Ha Hc Hsw).
  cbv zeta. split; intros Hk.
  - rewrite (execute_statement_definition drv q l fm cur t _ Hcur Ht Hk).
    destruct (kind_of_type_eqb t) as [H1 H2]; [rewrite Hk; split; discriminate|].
    cbn [fst]. f_equal.
    unfold _format_result, fbind, get, fret. simpl. rewrite H1. simpl.
    rewrite H2. simpl. now rewrite !append_assoc.
  - rewrite (execute_statement_mutation drv q l fm cur t _ Hcur Ht Hk).
    destruct (kind_of_type_mutation_eqb t Hk) as [H1 H2].
    cbn [fst]. f_equal.
    unfold _format_result, fbind, get, fret. simpl. rewrite H1. simpl.
    rewrite H2. simpl.
    destruct (PyVal.truthy _); simpl; rewrite ?append_assoc, ?append_empty_r;
      reflexivity.
Qed.

(** ** Rows the formatter shows *)

Lemma take_take_le {A} (n m : nat) (l1 l2 : list A) :
  (n <= m)%nat -> take m l1 = take m l2 -> take n l1 = take n l2.
Proof.
  intros Hnm H. rewrite <- (Nat.min_l n m Hnm), <- !take_take. now rewrite H.
Qed.

Lemma format_result_rows r rows :
  fst (_format_result (set_rows r rows)) =
  if negb (default false (r_success r)) then
    "❌ MySQL Error: " ++ default "Unknown error" (r_error r) ++ PyVal.nl
      ++ "Query: " ++ default "N/A" (r_query r)
  else
    let query_type := default "UNKNOWN" (r_query_type r) in
    let head :=
      ("✅ MySQL " ++ query_type ++ " Query Executed Successfully" ++ PyVal.nl)
        ++ "Query: " ++ default "N/A" (r_query r) ++ PyVal.nl in
    if String.eqb query_type "SELECT" then
      let formatted :=
        head ++ "Rows returned: " ++ PyStr.of_Z (default 0%Z (r_row_count r)) in
      let formatted :=
        if default false (r_limited r) then formatted ++ " (limited)"
        else formatted in
      let formatted := formatted ++ PyVal.nl in
      let formatted :=
        match default [] (r_columns r) with
        | [] => formatted
        | _ => formatted ++ "Columns: "
                 ++ PyStr.join ", " (map col_name (default [] (r_columns r)))
                 ++ PyVal.nl
        end in
      if (length rows =? 0)%nat then formatted
      else
        let formatted :=
          (formatted ++ PyVal.nl ++ "Data:" ++ PyVal.nl) ++
          String.concat EmptyString
            (imap (fun i row =>
                     "  Row " ++ PyStr.of_Z (Z.of_nat i + 1) ++ ": "
                       ++ PyVal.str_row row ++ PyVal.nl)
                  (take 5 rows)) in
        if (5 <? length rows)%nat then
          formatted ++ "  ... and "
            ++ PyStr.of_Z (Z.of_nat (length rows) - 5) ++ " more rows" ++ PyVal.nl
        else formatted
    else if String.eqb query_type "INSERT" || String.eqb query_type "UPDATE"
            || String.eqb query_type "DELETE" then
      let formatted :=
        head ++ "Affected rows: "
          ++ PyStr.of_Z (default 0%Z (r_affected_rows r)) ++ PyVal.nl in
      if PyVal.truthy (default VNone (r_last_insert_id r))
      then formatted ++ "Last insert ID: "
             ++ PyVal.str (default VNone (r_last_insert_id r)) ++ PyVal.nl
      else formatted
    else if default false (r_ddl_executed r) then
      head ++ default "DDL executed successfully" (r_message r) ++ PyVal.nl
    else
      let formatted :=
        head ++ "Rows returned: " ++ PyStr.of_Z (Z.of_nat (length rows))
          ++ PyVal.nl in
      if (length rows =? 0)%nat then formatted
      else
        formatted ++ "Results:" ++ PyVal.nl ++
        String.concat EmptyString
          (imap (fun i row =>
                   "  " ++ PyStr.of_Z (Z.of_nat i + 1) ++ ". "
                     ++ PyVal.str_row row ++ PyVal.nl)
                (take 10 rows)).
Proof.
  unfold _format_result, fbind, get, fret. simpl.
  destruct (default false (r_success r)); [|reflexivity]. simpl.
  destruct (String.eqb (default "UNKNOWN" (r_query_type r)) "SELECT"); simpl.
  - destruct (default [] (r_columns r)); destruct rows; reflexivity.
  - destruct (_ || _); simpl; [now destruct (PyVal.truthy _)|].
    destruct (default false (r_ddl_executed r)); simpl; [reflexivity|].
    destruct rows; reflexivity.
Qed.

(** X9. The formatter looks at the rows of a record through their number
    and their first ten only, and through their first five only when the
    record is a SELECT: two records that differ in later rows alone get
    the same text. *)
Theorem format_shows_first_rows (r : result) (rows1 rows2 : list row) :
  length rows1 = length rows2 ->
  (take 10 rows1 = take 10 rows2 ->
   fst (_format_result (set_rows r rows1)) = fst (_format_result (set_rows r rows2)))
  /\
  (r_query_type r = Some "SELECT" -> take 5 rows1 = take 5 rows2 ->
   fst (_format_result (set_rows r rows1)) = fst (_format_result (set_rows r rows2))).
Proof.
  intros Hlen. rewrite !format_result_rows, Hlen. split.
  - intros H10. assert (H5 : take 5 rows1 = take 5 rows2)
      by (apply (take_take_le 5 10); [lia|exact H10]).
    now rewrite H5, H10.
  - intros -> H5. now rewrite H5.
Qed.

(** ** What the events carry *)

Lemma other_is_not_select t : kind_of_type t = OtherStmt -> t <> "SELECT".
Proof. intros Hk ->. discriminate. Qed.

(** X10. The rows of a statement of the other kind (SHOW, DESCRIBE, ...)
    are fetched but never streamed: the stream is the metadata event and
    the summary event alone, and the summary still counts the rows. *)
Theorem stream_of_other_statement drv q db l fm self cur t :
  acquires drv self -> switch_succeeds drv db ->
  drv_execute drv q = inr cur -> query_type_of q = Some t ->
  kind_of_type t = OtherStmt -> cur_fetch_error cur = None ->
  fst (astream_events drv q db l fm self)
  = inr [EvMetadata (Some q) (Some t)
           (default [] (map (fun desc => ColName (desc_name desc))
                          <$> wanted_description fm cur))
           true None;
         EvSummary (Z.of_nat (length (cur_rows cur))) false None VNone false None].
Proof.
  intros Hacq Hsw Hcur Ht Hk Hf.
  destruct (acquires_pool drv self Hacq) as (p & s1 & Hp).
  destruct Hacq as (_ & Ha & Hc).
  rewrite astream_events_unfold,
    (execute_query_run drv q db l fm self p s1 Hp Ha Hc Hsw).
  cbv zeta.
  rewrite (execute_statement_other drv q l fm cur t _ Hcur Ht Hk Hf). cbv zeta.
  cbn [fst]. f_equal.
  assert (Hrows : forall r, r_success r = Some true -> r_query_type r = Some t ->
            row_events r = []).
  { intros r Hok Hqt. apply row_events_other. intros [_ Hsel].
    apply (other_is_not_select t Hk). congruence. }
  destruct (wanted_description fm cur); now rewrite Hrows.
Qed.

(** X11. The stream of a failure record: a metadata event with the query,
    no statement type, no columns, [success] false and the error text,
    then a summary event with every field at its default. No event
    carries the error type of the record. *)
Theorem stream_of_failure drv q db l fm self r :
  fst (_execute_query drv q db l fm self) = inr r ->
  r_success r <> Some true ->
  exists msg,
    r_error r = Some msg /\
    fst (astream_events drv q db l fm self)
    = inr [EvMetadata (Some q) None [] false (Some msg);
           EvSummary 0 false None VNone false None].
Proof.
  intros Hrun Hfail.
  destruct (execute_query_record drv q db l fm self r Hrun) as [[Hok _]|[e ->]];
    [contradiction|].
  exists (exc_msg e). split; [reflexivity|].
  rewrite astream_events_unfold.
  destruct (_execute_query drv q db l fm self) as [[e'|r'] s]; [discriminate|].
  simpl in Hrun. injection Hrun as ->. reflexivity.
Qed.

(** X12. The stream of a successful SELECT in full: the metadata event
    names the query, the type and the columns of the record; one row
    event follows per row fetched; the summary counts exactly those rows
    and repeats the [limited] flag of the record. *)
Theorem stream_of_select drv q db l fm self cur :
  acquires drv self -> switch_succeeds drv db ->
  drv_execute drv q = inr cur -> query_type_of q = Some "SELECT" ->
  cur_fetch_error cur = None -> metadata_readable fm cur ->
  exists columns events,
    fst (astream_events drv q db l fm self)
    = inr (EvMetadata (Some q) (Some "SELECT") columns true None
             :: events
             ++ [EvSummary (Z.of_nat (length events))
                   (match events with
                    | [] => false
                    | _ => (Z.of_nat (length events) =? l)%Z
                    end) None VNone false None])%list /\
    events = imap EvRow (fetchmany_rows l (cur_rows cur)) /\
    map col_name columns
    = default [] (map desc_name <$> wanted_description fm cur).
Proof.
  intros Hacq Hsw Hcur Ht Hf Hm.
  destruct (acquires_pool drv self Hacq) as (p & s1 & Hp).
  destruct Hacq as (_ & Ha & Hc).
  rewrite astream_events_unfold,
    (execute_query_run drv q db l fm self p s1 Hp Ha Hc Hsw).
  cbv zeta.
  rewrite (execute_statement_read drv q l fm cur _ Hcur Ht Hf). cbv zeta.
  set (rows := fetchmany_rows l (cur_rows cur)).
  assert (Hflag : match imap EvRow rows with
                  | [] => false
                  | _ => (Z.of_nat (length (imap EvRow rows)) =? l)%Z
                  end
                  = match rows with
                    | [] => false
                    | _ => (Z.of_nat (length rows) =? l)%Z
                    end).
  { rewrite length_imap. now destruct rows. }
  unfold metadata_readable in Hm.
  destruct (wanted_description fm cur) as [d|].
  - destruct Hm as [cols Hcols]. rewrite Hcols. cbn [fst].
    exists cols, (imap EvRow rows). rewrite Hflag, length_imap.
    split; [reflexivity|]. split; [reflexivity|].
    apply select_columns_inr in Hcols. clear -Hcols.
    induction Hcols as [|desc col d cols (ty & _ & ->) _ IH]; [reflexivity|].
    simpl in *. now rewrite IH.
  - cbn [fst]. exists [], (imap EvRow rows). rewrite Hflag, length_imap.
    now repeat split.
Qed.

(** ** The three modes of the schema inspector *)

(** The line of the outer [except] of the inspector. *)
Lemma schema_arun_databases drv database table idt self :
  given database = false -> given table = false ->
  MySQLSchemaTool._arun drv database table idt self =
  let '(res, s) := _execute_query drv "SHOW DATABASES" None 100 true self in
  (inr match res with
       | inl e => "❌ MySQL Schema Tool Error: " ++ exc_msg e
       | inr r =>
           if default false (r_success r) then
             match first_values (default [] (r_rows r)) with
             | inr databases =>
                 "📚 Available Databases:" ++ PyVal.nl
                   ++ PyStr.join PyVal.nl (map bullet databases)
             | inl e => "❌ MySQL Schema Tool Error: " ++ exc_msg e
             end
           else "❌ Error listing databases: " ++ show (r_error r)
       end, s).
Proof.
  intros Hd Ht. unfold MySQLSchemaTool._arun, try_except, bind, lift, ret, raise.
  rewrite Hd, Ht. simpl.
  destruct (_execute_query drv "SHOW DATABASES" None 100 true self) as [[e|r] s];
    [reflexivity|].
  destruct (default false (r_success r)); [|reflexivity].
  now destruct (first_values _).
Qed.

Lemma schema_arun_tables drv d table idt self :
  PyStr.truthy d = true -> given table = false ->
  MySQLSchemaTool._arun drv (Some d) table idt self =
  let '(res, s) :=
    _execute_query drv ("SHOW TABLES FROM " ++ d) None 100 true self in
  (inr match res with
       | inl e => "❌ MySQL Schema Tool Error: " ++ exc_msg e
       | inr r =>
           if default false (r_success r) then
             match first_values (default [] (r_rows r)) with
             | inr tables =>
                 "📋 Tables in database '" ++ d ++ "':" ++ PyVal.nl
                   ++ PyStr.join PyVal.nl (map bullet tables)
             | inl e => "❌ MySQL Schema Tool Error: " ++ exc_msg e
             end
           else "❌ Error listing tables: " ++ show (r_error r)
       end, s).
Proof.
  intros Hd Ht. unfold MySQLSchemaTool._arun, try_except, bind, lift, ret, raise.
  cbn [given]. rewrite Hd, Ht. simpl.
  destruct (_execute_query drv ("SHOW TABLES FROM " ++ d) None 100 true self)
    as [[e|r] s]; [reflexivity|].
  destruct (default false (r_success r)); [|reflexivity].
  now destruct (first_values _).
Qed.

Lemma schema_arun_describe drv database tbl idt self :
  PyStr.truthy tbl = true ->
  MySQLSchemaTool._arun drv database (Some tbl) idt self =
  let '(res, s) :=
    _execute_query drv (describe_query database tbl) database 100 true self in
  (inr match res with
       | inl e => "❌ MySQL Schema Tool Error: " ++ exc_msg e
       | inr r =>
           if default false (r_success r) then
             match default [] (r_rows r) with
             | [] => "📋 Table '" ++ tbl ++ "' has no columns or doesn't exist"
             | rows =>
                 match describe_rows
                         ("🔍 Schema for table '" ++ tbl ++ "':" ++ PyVal.nl)
                         rows with
                 | inr text => text
                 | inl e => "❌ MySQL Schema Tool Error: " ++ exc_msg e
                 end
             end
           else "❌ Error describing table: " ++ show (r_error r)
       end, s).
Proof.
  intros Ht. unfold MySQLSchemaTool._arun, try_except, bind, lift, ret, raise.
  cbn [given]. rewrite Ht, !andb_false_r. unfold describe_query, show.
  change (default "None" (Some tbl)) with tbl.
  destruct (_execute_query drv _ database 100 true self) as [[e|r] s];
    [reflexivity|].
  destruct (default false (r_success r)); [|reflexivity].
  destruct (default [] (r_rows r)); [reflexivity|].
  now destruct (describe_rows _ _).
Qed.

(** X13. The inspector never raises, and each call runs the executor
    exactly once, with a limit of 100 and metadata on. Which statement it
    runs depends on which arguments are true values, an empty string
    counting as absent: [SHOW DATABASES] with neither, [SHOW TABLES FROM]
    the database with the database alone, [DESCRIBE] as soon as a table is
    given, the database then being both spliced into the statement and
    passed to the executor. [include_data_types] changes nothing. *)
Theorem schema_modes drv database table idt self :
  (exists text, fst (MySQLSchemaTool._arun drv database table idt self) = inr text)
  /\
  MySQLSchemaTool._arun drv database table idt self
  = MySQLSchemaTool._arun drv database table (negb idt) self
  /\
  (given database = false -> given table = false ->
   snd (MySQLSchemaTool._arun drv database table idt self)
   = snd (_execute_query drv "SHOW DATABASES" None 100 true self))
  /\
  (forall d, database = Some d -> PyStr.truthy d = true -> given table = false ->
   snd (MySQLSchemaTool._arun drv database table idt self)
   = snd (_execute_query drv ("SHOW TABLES FROM " ++ d) None 100 true self))
  /\
  (forall tbl, table = Some tbl -> PyStr.truthy tbl = true ->
   snd (MySQLSchemaTool._arun drv database table idt self)
   = snd (_execute_query drv
            ("DESCRIBE " ++ (if given database then show database ++ "." else EmptyString)
               ++ tbl)
            database 100 true self)).
Proof.
  split; [|split; [reflexivity|split; [|split]]].
  - unfold MySQLSchemaTool._arun, try_except.
    match goal with |- context [match ?m self with _ => _ end] =>
      destruct (m self) as [[e|text] s] end; simpl; eauto.
  - intros Hd Ht. rewrite (schema_arun_databases _ _ _ _ _ Hd Ht).
    now destruct (_execute_query _ _ _ _ _ _).
  - intros d -> Hd Ht. rewrite (schema_arun_tables _ _ _ _ _ Hd Ht).
    now destruct (_execute_query _ _ _ _ _ _).
  - intros tbl -> Ht. rewrite (schema_arun_describe _ _ _ _ _ Ht).
    fold (describe_query database tbl).
    now destruct (_execute_query _ _ _ _ _ _).
Qed.

(** ** The answers of the schema inspector *)

Lemma first_values_inr (rows : list row) :
  Forall (fun r => r <> []) rows ->
  first_values rows = inr (map (fun r => default VNone (head r)) rows).
Proof.
  induction 1 as [|r rows Hr _ IH]; [reflexivity|].
  simpl. destruct r as [|v r]; [congruence|]. now rewrite IH.
Qed.

Lemma first_values_inl (rows : list row) :
  Exists (fun r => r = []) rows ->
  first_values rows = inl (IndexError "list index out of range").
Proof.
  induction 1 as [r rows ->|r rows _ IH]; [reflexivity|].
  simpl. destruct r as [|v r]; [reflexivity|]. now rewrite IH.
Qed.

Lemma query_type_of_show rest :
  query_type_of ("SHOW " ++ rest) = Some "SHOW".
Proof. now rewrite query_type_of_first_token. Qed.

(** X14. The two listing modes. When the statement goes through, the
    answer is the header followed by one bullet per row, made of the first
    value of the row, in order; with no rows it is the header alone. A row
    without any value turns the whole answer into the error line of an
    [IndexError]. *)
Theorem schema_listings drv database table idt self cur :
  acquires drv self -> given table = false -> cur_fetch_error cur = None ->
  (given database = false -> drv_execute drv "SHOW DATABASES" = inr cur ->
   (Forall (fun r => r <> []) (cur_rows cur) ->
    fst (MySQLSchemaTool._arun drv database table idt self)
    = inr ("📚 Available Databases:" ++ PyVal.nl
             ++ PyStr.join PyVal.nl
                  (map (fun r => "  • " ++ PyVal.str (default VNone (head r)))
                     (cur_rows cur)))) /\
   (Exists (fun r => r = []) (cur_rows cur) ->
    fst (MySQLSchemaTool._arun drv database table idt self)
    = inr "❌ MySQL Schema Tool Error: list index out of range"))
  /\
  (forall d, database = Some d -> PyStr.truthy d = true ->
   drv_execute drv ("SHOW TABLES FROM " ++ d) = inr cur ->
   (Forall (fun r => r <> []) (cur_rows cur) ->
    fst (MySQLSchemaTool._arun drv database table idt self)
    = inr ("📋 Tables in database '" ++ d ++ "':" ++ PyVal.nl
             ++ PyStr.join PyVal.nl
                  (map (fun r => "  • " ++ PyVal.str (default VNone (head r)))
                     (cur_rows cur)))) /\
   (Exists (fun r => r = []) (cur_rows cur) ->
    fst (MySQLSchemaTool._arun drv database table idt self)
    = inr "❌ MySQL Schema Tool Error: list index out of range")).
Proof.
  intros Hacq Ht Hf. split.
  - intros Hd Hcur. rewrite (schema_arun_databases _ _ _ _ _ Hd Ht).
    destruct (execute_query_other drv "SHOW DATABASES" None 100 true self cur
                "SHOW" Hacq I Hcur eq_refl eq_refl Hf)
      as (r & s2 & -> & -> & ->).
    cbn [default from_option id fst]. split.
    + intros Hne. rewrite (first_values_inr _ Hne). cbn [fst].
      now rewrite map_map.
    + intros Hex. now rewrite (first_values_inl _ Hex).
  - intros d -> Hd Hcur. rewrite (schema_arun_tables _ _ _ _ _ Hd Ht).
    destruct (execute_query_other drv ("SHOW TABLES FROM " ++ d) None 100 true
                self cur "SHOW" Hacq I Hcur
                (query_type_of_show ("TABLES FROM " ++ d)) eq_refl Hf)
      as (r & s2 & -> & -> & ->).
    cbn [default from_option id fst]. split.
    + intros Hne. rewrite (first_values_inr _ Hne). cbn [fst].
      now rewrite map_map.
    + intros Hex. now rewrite (first_values_inl _ Hex).
Qed.

Lemma failure_record_shown drv q db l fm self r :
  fst (_execute_query drv q db l fm self) = inr r ->
  r_success r <> Some true ->
  exists msg, r_error r = Some msg /\ default false (r_success r) = false /\
              show (r_error r) = msg.
Proof.
  intros Hrun Hfail.
  destruct (execute_query_record drv q db l fm self r Hrun) as [[Hok _]|[e ->]];
    [contradiction|].
  now exists (exc_msg e).
Qed.

(** X15. What the inspector says when the executor does not succeed. An
    exception of the executor (the pool cannot be created, no connection,
    no cursor) becomes the line of the schema tool error with its message;
    a failure record becomes the error line that names the operation
    (listing databases, listing tables, describing table) with the message
    recorded. *)
Theorem schema_error_lines drv database table idt self :
  (given database = false -> given table = false ->
   (forall e,
      fst (_execute_query drv "SHOW DATABASES" None 100 true self) = inl e ->
      fst (MySQLSchemaTool._arun drv database table idt self)
      = inr ("❌ MySQL Schema Tool Error: " ++ exc_msg e)) /\
   (forall r,
      fst (_execute_query drv "SHOW DATABASES" None 100 true self) = inr r ->
      r_success r <> Some true ->
      exists msg,
        r_error r = Some msg /\
        fst (MySQLSchemaTool._arun drv database table idt self)
        = inr ("❌ Error listing databases: " ++ msg)))
  /\
  (forall d, database = Some d -> PyStr.truthy d = true -> given table = false ->
   (forall e,
      fst (_execute_query drv ("SHOW TABLES FROM " ++ d) None 100 true self)
      = inl e ->
      fst (MySQLSchemaTool._arun drv database table idt self)
      = inr ("❌ MySQL Schema Tool Error: " ++ exc_msg e)) /\
   (forall r,
      fst (_execute_query drv ("SHOW TABLES FROM " ++ d) None 100 true self)
      = inr r ->
      r_success r <> Some true ->
      exists msg,
        r_error r = Some msg /\
        fst (MySQLSchemaTool._arun drv database table idt self)
        = inr ("❌ Error listing tables: " ++ msg)))
  /\
  (forall tbl, table = Some tbl -> PyStr.truthy tbl = true ->
   (forall e,
      fst (_execute_query drv (describe_query database tbl) database 100 true
             self) = inl e ->
      fst (MySQLSchemaTool._arun drv database table idt self)
      = inr ("❌ MySQL Schema Tool Error: " ++ exc_msg e)) /\
   (forall r,
      fst (_execute_query drv (describe_query database tbl) database 100 true
             self) = inr r ->
      r_success r <> Some true ->
      exists msg,
        r_error r = Some msg /\
        fst (MySQLSchemaTool._arun drv database table idt self)
        = inr ("❌ Error describing table: " ++ msg))).
Proof.
  split; [|split].
  - intros Hd Ht. rewrite (schema_arun_databases _ _ _ _ _ Hd Ht). split.
    + intros e He.
      destruct (_execute_query _ _ _ _ _ _) as [[e'|r] s]; simpl in *; congruence.
    + intros r Hrun Hfail.
      destruct (failure_record_shown _ _ _ _ _ _ _ Hrun Hfail)
        as (msg & Hmsg & Hok & Hshow).
      exists msg. split; [exact Hmsg|].
      destruct (_execute_query _ _ _ _ _ _) as [[e'|r'] s]; [discriminate|].
      simpl in Hrun. injection Hrun as ->. cbn [fst]. now rewrite Hok, Hshow.
  - intros d -> Hd Ht. rewrite (schema_arun_tables _ _ _ _ _ Hd Ht). split.
    + intros e He.
      destruct (_execute_query _ _ _ _ _ _) as [[e'|r] s]; simpl in *; congruence.
    + intros r Hrun Hfail.
      destruct (failure_record_shown _ _ _ _ _ _ _ Hrun Hfail)
        as (msg & Hmsg & Hok & Hshow).
      exists msg. split; [exact Hmsg|].
      destruct (_execute_query _ _ _ _ _ _) as [[e'|r'] s]; [discriminate|].
      simpl in Hrun. injection Hrun as ->. cbn [fst]. now rewrite Hok, Hshow.
  - intros tbl -> Ht. rewrite (schema_arun_describe _ _ _ _ _ Ht). split.
    + intros e He.
      destruct (_execute_query _ _ _ _ _ _) as [[e'|r] s]; simpl in *; congruence.
    + intros r Hrun Hfail.
      destruct (failure_record_shown _ _ _ _ _ _ _ Hrun Hfail)
        as (msg & Hmsg & Hok & Hshow).
      exists msg. split; [exact Hmsg|].
      destruct (_execute_query _ _ _ _ _ _) as [[e'|r'] s]; [discriminate|].
      simpl in Hrun. injection Hrun as ->. cbn [fst]. now rewrite Hok, Hshow.
Qed.

Lemma describe_row_six (r : row) :
  length r = 6%nat -> exists line, describe_row r = inr line.
Proof.
  destruct r as [|f [|t [|n [|k [|d [|e [|x r]]]]]]]; try discriminate.
  intros _. eexists. reflexivity.
Qed.

Lemma describe_row_malformed (r : row) :
  length r <> 6%nat ->
  describe_row r
  = inl (ValueError
           (if (length r <? 6)%nat
            then "not enough values to unpack (expected 6, got "
                   ++ PyStr.of_Z (Z.of_nat (length r)) ++ ")"
            else "too many values to unpack (expected 6)")).
Proof.
  destruct r as [|f [|t [|n [|k [|d [|e [|x r]]]]]]]; intros Hlen;
    try reflexivity.
  now contradiction Hlen.
Qed.

Lemma describe_rows_malformed (good : list row) (bad : row) (rest : list row)
      (schema_info : string) :
  Forall (fun r => length r = 6%nat) good ->
  length bad <> 6%nat ->
  describe_rows schema_info (good ++ bad :: rest) = describe_row bad.
Proof.
  intros Hgood Hbad. revert schema_info.
  induction Hgood as [|r good Hr _ IH]; intros schema_info.
  - cbn [app describe_rows]. rewrite (describe_row_malformed bad Hbad).
    reflexivity.
  - cbn [app describe_rows].
    destruct (describe_row_six r Hr) as (line & ->). apply IH.
Qed.

(** X16. One malformed row spoils a whole DESCRIBE. When the rows before
    it have six fields each and it has fewer or more, the answer is the
    error line of the [ValueError] of its unpacking and nothing else:
    that there are not enough values, with the number found, or that
    there are too many. The header and the lines built for the rows
    before it are dropped, and the rows after it are not looked at. *)
Theorem describe_malformed_row drv database tbl idt self cur good bad rest :
  PyStr.truthy tbl = true ->
  acquires drv self -> switch_succeeds drv database ->
  drv_execute drv (describe_query database tbl) = inr cur ->
  cur_fetch_error cur = None ->
  cur_rows cur = (good ++ bad :: rest)%list ->
  Forall (fun r => length r = 6%nat) good ->
  length bad <> 6%nat ->
  fst (MySQLSchemaTool._arun drv database (Some tbl) idt self)
  = inr ("❌ MySQL Schema Tool Error: "
           ++ (if (length bad <? 6)%nat
               then "not enough values to unpack (expected 6, got "
                      ++ PyStr.of_Z (Z.of_nat (length bad)) ++ ")"
               else "too many values to unpack (expected 6)")).
Proof.
  intros Ht Hacq Hsw Hcur Hf Hrows Hgood Hbad.
  rewrite (schema_arun_describe _ _ _ _ _ Ht).
  destruct (execute_query_other drv (describe_query database tbl) database 100
              true self cur "DESCRIBE" Hacq Hsw Hcur
              (query_type_of_describe database tbl) eq_refl Hf)
    as (r & s2 & -> & -> & ->).
  cbn [default from_option id fst].
  pose proof (describe_rows_malformed good bad rest
                ("🔍 Schema for table '" ++ tbl ++ "':" ++ PyVal.nl)
                Hgood Hbad) as Hd.
  rewrite (describe_row_malformed bad Hbad), <- Hrows in Hd.
  destruct (cur_rows cur) as [|r0 rows];
    [now destruct good|].
  now rewrite Hd.
Qed.

(** ** The verdict of the validator *)

Lemma validate_query_accepts v :
  (exists w, validate_query v = inr w) <->
  PyStr.strip v <> EmptyString /\
  forall p, p ∈ dangerous_patterns -> PyStr.contains p (PyStr.lower v) = false.
Proof.
  split.
  - intros [w Hw].
    assert (Hv : PyStr.strip v <> EmptyString).
    { intros He. unfold validate_query, validate_query_with in Hw. rewrite He in Hw.
      simpl in Hw. rewrite orb_true_r in Hw. discriminate. }
    split; [exact Hv|]. rewrite validate_query_nonblank in Hw by exact Hv.
    intros p Hp. rewrite <- dangerous_contains_strip by exact Hp. revert p Hp.
    apply first_dangerous_None. now destruct (first_dangerous _ _).
  - intros [Hv Hnone]. exists v. rewrite validate_query_nonblank by exact Hv.
    replace (first_dangerous _ _) with (@None string); [reflexivity|].
    symmetry. apply first_dangerous_None. intros p Hp.
    rewrite dangerous_contains_strip by exact Hp. now apply Hnone.
Qed.

Lemma to_lower_to_upper c : PyStr.to_lower (PyStr.to_upper c) = PyStr.to_lower c.
Proof. destruct c as [[] [] [] [] [] [] [] []]; reflexivity. Qed.

Lemma to_lower_to_lower c : PyStr.to_lower (PyStr.to_lower c) = PyStr.to_lower c.
Proof. destruct c as [[] [] [] [] [] [] [] []]; reflexivity. Qed.

Lemma lower_upper s : PyStr.lower (PyStr.upper s) = PyStr.lower s.
Proof.
  unfold PyStr.lower, PyStr.upper.
  induction s as [|c s IH]; [reflexivity|].
  simpl. now rewrite to_lower_to_upper, IH.
Qed.

Lemma lower_lower s : PyStr.lower (PyStr.lower s) = PyStr.lower s.
Proof.
  unfold PyStr.lower. induction s as [|c s IH]; [reflexivity|].
  simpl. now rewrite to_lower_to_lower, IH.
Qed.

Lemma map_chars_empty f s :
  PyStr.map_chars f s = EmptyString <-> s = EmptyString.
Proof. destruct s; simpl; split; congruence. Qed.

Lemma rstrip_cons c s :
  PyStr.rstrip (String c s) =
  match PyStr.rstrip s with
  | EmptyString =>
      if PyStr.is_space c then EmptyString else String c EmptyString
  | r => String c r
  end.
Proof. reflexivity. Qed.

Lemma rstrip_rstrip s : PyStr.rstrip (PyStr.rstrip s) = PyStr.rstrip s.
Proof.
  induction s as [|c s IH]; [reflexivity|].
  rewrite rstrip_cons. destruct (PyStr.rstrip s) as [|a r] eqn:Hr.
  - destruct (PyStr.is_space c) eqn:Hc; [reflexivity|].
    rewrite rstrip_cons. cbn [PyStr.rstrip]. now rewrite Hc.
  - rewrite rstrip_cons, IH. reflexivity.
Qed.

Lemma strip_strip s : PyStr.strip (PyStr.strip s) = PyStr.strip s.
Proof.
  unfold PyStr.strip. now rewrite lstrip_rstrip_lstrip, rstrip_rstrip.
Qed.

(** X17. On ASCII texts the verdict of the validator depends neither on
    the case of the letters nor on the whitespace around the text: such a
    text is accepted exactly when its uppercased, its lowercased and its
    trimmed form are. An accepted text comes back as it was given,
    neither trimmed nor lowercased. A rejection is a [ValueError] with
    one of two messages: that the query is empty, for a blank text, or
    that it contains a pattern of the denylist. Outside ASCII the
    functions of [PyStr] are not those of Python, whose [upper] turns
    some letters into ASCII ones: there the verdict of the code can
    change with the case. *)
Theorem validator_verdict (v : string) :
  PyStr.isascii v = true ->
  ((exists w, validate_query (PyStr.upper v) = inr w) <->
   (exists w, validate_query v = inr w))
  /\
  ((exists w, validate_query (PyStr.lower v) = inr w) <->
   (exists w, validate_query v = inr w))
  /\
  ((exists w, validate_query (PyStr.strip v) = inr w) <->
   (exists w, validate_query v = inr w))
  /\
  (forall w, validate_query v = inr w -> w = v)
  /\
  (forall e, validate_query v = inl e ->
     (PyStr.strip v = EmptyString /\ e = ValueError "Query cannot be empty") \/
     (PyStr.strip v <> EmptyString /\
      exists p, p ∈ dangerous_patterns /\
                PyStr.contains p (PyStr.lower v) = true /\
                e = ValueError ("Query contains potentially dangerous pattern: " ++ p))).
Proof.
  intros _. split; [|split; [|split; [|split]]].
  - rewrite !validate_query_accepts, strip_upper, lower_upper.
    unfold PyStr.upper. now rewrite map_chars_empty.
  - rewrite !validate_query_accepts, strip_lower, lower_lower.
    unfold PyStr.lower at 1. now rewrite map_chars_empty.
  - rewrite !validate_query_accepts, strip_strip.
    split; intros [Hv H]; (split; [exact Hv|]); intros p Hp.
    + rewrite <- dangerous_contains_strip, strip_lower by exact Hp. now apply H.
    + rewrite <- strip_lower, dangerous_contains_strip by exact Hp. now apply H.
  - intros w. unfold validate_query, validate_query_with. repeat step_tool; congruence.
  - intros e He.
    destruct (PyStr.strip v) as [|c s] eqn:Hv.
    + left. split; [reflexivity|].
      unfold validate_query, validate_query_with in He. rewrite Hv in He. simpl in He.
      rewrite orb_true_r in He. congruence.
    + right. split; [discriminate|].
      rewrite validate_query_nonblank in He by (rewrite Hv; discriminate).
      destruct (first_dangerous _ _) as [p|] eqn:Hfirst; [|discriminate].
      injection He as <-.
      destruct (first_dangerous_Some _ _ _ Hfirst) as (i & Hi & Hc & _).
      assert (Hp : p ∈ dangerous_patterns)
        by (apply list_elem_of_lookup; eauto).
      exists p. split; [exact Hp|]. split; [|reflexivity].
      now rewrite <- dangerous_contains_strip.
Qed.

(** ** The dispatch boundary and the life of a server *)

(** X18. At the dispatch boundary every call is answered with exactly one
    text. A name other than the two tools gets the unknown-tool line and
    leaves the server as it was. For the two tools the answer is the text
    of the tool itself, never the line of the boundary, since neither
    tool raises; a query call leaves the schema tool untouched and a
    schema call leaves the query tool untouched. Absent arguments are the
    same as an empty dictionary of arguments. *)
Theorem dispatch_boundary drv name args srv :
  (exists text, fst (handle_call_tool drv name args srv) = [text])
  /\
  (name <> "mysql_query" -> name <> "mysql_schema" ->
   handle_call_tool drv name args srv
   = (["Error executing " ++ name ++ ": Unknown tool: " ++ name], srv))
  /\
  (name = "mysql_query" ->
   exists text,
     fst (_arun drv (default EmptyString (arg_query (default no_arguments args)))
            (arg_database (default no_arguments args))
            (default 100%Z (arg_limit (default no_arguments args)))
            (default true (arg_fetch_metadata (default no_arguments args)))
            (mysql_tool srv)) = inr text /\
     fst (handle_call_tool drv name args srv) = [text] /\
     schema_tool (snd (handle_call_tool drv name args srv)) = schema_tool srv)
  /\
  (name = "mysql_schema" ->
   exists text,
     fst (MySQLSchemaTool._arun drv (arg_database (default no_arguments args))
            (arg_table (default no_arguments args))
            (default true (arg_include_data_types (default no_arguments args)))
            (schema_tool srv)) = inr text /\
     fst (handle_call_tool drv name args srv) = [text] /\
     mysql_tool (snd (handle_call_tool drv name args srv)) = mysql_tool srv)
  /\
  handle_call_tool drv name None srv
  = handle_call_tool drv name (Some no_arguments) srv.
Proof.
  assert (Hquery : name = "mysql_query" ->
    exists text,
      fst (_arun drv (default EmptyString (arg_query (default no_arguments args)))
             (arg_database (default no_arguments args))
             (default 100%Z (arg_limit (default no_arguments args)))
             (default true (arg_fetch_metadata (default no_arguments args)))
             (mysql_tool srv)) = inr text /\
      fst (handle_call_tool drv name args srv) = [text] /\
      schema_tool (snd (handle_call_tool drv name args srv)) = schema_tool srv).
  { intros ->. unfold handle_call_tool. cbn [String.eqb Ascii.eqb Bool.eqb andb].
    rewrite arun_unfold.
    destruct (_execute_query drv _ _ _ _ _) as [[e|r] s]; eexists; now repeat split. }
  assert (Hschema : name = "mysql_schema" ->
    exists text,
      fst (MySQLSchemaTool._arun drv (arg_database (default no_arguments args))
             (arg_table (default no_arguments args))
             (default true (arg_include_data_types (default no_arguments args)))
             (schema_tool srv)) = inr text /\
      fst (handle_call_tool drv name args srv) = [text] /\
      mysql_tool (snd (handle_call_tool drv name args srv)) = mysql_tool srv).
  { intros ->. unfold handle_call_tool. cbn [String.eqb Ascii.eqb Bool.eqb andb].
    unfold MySQLSchemaTool._arun, try_except.
    match goal with |- context [match ?m (schema_tool srv) with _ => _ end] =>
      destruct (m (schema_tool srv)) as [[e|text] s] end;
      eexists; now repeat split. }
  assert (Hunknown : name <> "mysql_query" -> name <> "mysql_schema" ->
    handle_call_tool drv name args srv
    = (["Error executing " ++ name ++ ": Unknown tool: " ++ name], srv)).
  { intros H1 H2. unfold handle_call_tool.
    destruct (String.eqb_spec name "mysql_query"); [contradiction|].
    destruct (String.eqb_spec name "mysql_schema"); [contradiction|].
    reflexivity. }
  split; [|now repeat split].
  destruct (String.eqb_spec name "mysql_query") as [H1|H1].
  - destruct (Hquery H1) as (text & _ & H & _). eauto.
  - destruct (String.eqb_spec name "mysql_schema") as [H2|H2].
    + destruct (Hschema H2) as (text & _ & H & _). eauto.
    + rewrite (Hunknown H1 H2). eauto.
Qed.

Lemma schema_arun_state drv database table idt self :
  exists stmt db,
    snd (MySQLSchemaTool._arun drv database table idt self)
    = snd (_execute_query drv stmt db 100 true self).
Proof.
  destruct (given table) eqn:Ht.
  - destruct table as [tbl|]; [|discriminate]. cbn [given] in Ht.
    rewrite (schema_arun_describe _ _ _ _ _ Ht).
    exists (describe_query database tbl), database.
    now destruct (_execute_query _ _ _ _ _ _).
  - destruct (given database) eqn:Hd.
    + destruct database as [d|]; [|discriminate]. cbn [given] in Hd.
      rewrite (schema_arun_tables _ _ _ _ _ Hd Ht).
      exists ("SHOW TABLES FROM " ++ d), None.
      now destruct (_execute_query _ _ _ _ _ _).
    + rewrite (schema_arun_databases _ _ _ _ _ Hd Ht).
      exists "SHOW DATABASES", None.
      now destruct (_execute_query _ _ _ _ _ _).
Qed.

Lemma execute_query_inv drv q db l fm self :
  pool_inv self -> pool_inv (snd (_execute_query drv q db l fm self)).
Proof.
  intros H. apply (pool_inv_pools (snd (_get_connection_pool drv self))).
  - symmetry. apply execute_query_pools.
  - now apply get_connection_pool_inv.
Qed.

Lemma handle_call_tool_inv drv name args srv :
  pool_inv (mysql_tool srv) /\ pool_inv (schema_tool srv) ->
  pool_inv (mysql_tool (snd (handle_call_tool drv name args srv))) /\
  pool_inv (schema_tool (snd (handle_call_tool drv name args srv))).
Proof.
  intros [Hq Hs]. unfold handle_call_tool.
  destruct (String.eqb name "mysql_query").
  - rewrite arun_unfold.
    pose proof (execute_query_inv drv
                  (default EmptyString (arg_query (default no_arguments args)))
                  (arg_database (default no_arguments args))
                  (default 100%Z (arg_limit (default no_arguments args)))
                  (default true (arg_fetch_metadata (default no_arguments args)))
                  _ Hq) as H.
    destruct (_execute_query drv _ _ _ _ _) as [[e|r] s]; now split.
  - destruct (String.eqb name "mysql_schema"); [|now split].
    destruct (schema_arun_state drv (arg_database (default no_arguments args))
                (arg_table (default no_arguments args))
                (default true (arg_include_data_types (default no_arguments args)))
                (schema_tool srv)) as (stmt & db & Hst).
    pose proof (execute_query_inv drv stmt db 100 true _ Hs) as H.
    rewrite <- Hst in H.
    destruct (MySQLSchemaTool._arun drv _ _ _ _) as [[e|text] s]; now split.
Qed.

Lemma close_clears self :
  pool_inv self ->
  _connection_pool (snd (close self)) = None /\ live_pools (snd (close self)) = [].
Proof.
  intros H. apply close_connection_pool_inv in H. unfold pool_inv in H.
  unfold close in *.
  assert (Hc : _connection_pool (snd (_close_connection_pool self)) = None)
    by (unfold _close_connection_pool; now destruct (_connection_pool self) eqn:E).
  now rewrite Hc in H.
Qed.

(** X19. In every history of a server whose tool calls and shutdowns run
    one after the other, each to its end before the next begins (under
    any driver behaviour), each of its two tools holds open the pool it
    has cached and no other, so the server never holds more than two; and
    closing the server leaves no pool cached and none open. Calls that
    overlap in time are not histories of this kind. *)
Theorem server_pools (ops : list server_op) :
  let srv := run_server ops new_server in
  (pool_inv (mysql_tool srv) /\ pool_inv (schema_tool srv)) /\
  (length (live_pools (mysql_tool srv)) + length (live_pools (schema_tool srv))
   <= 2)%nat /\
  (let closed := MySQLMCPServer.close srv in
   _connection_pool (mysql_tool closed) = None /\
   live_pools (mysql_tool closed) = [] /\
   _connection_pool (schema_tool closed) = None /\
   live_pools (schema_tool closed) = []).
Proof.
  cbv zeta.
  assert (Hinv : forall srv,
            pool_inv (mysql_tool srv) /\ pool_inv (schema_tool srv) ->
            pool_inv (mysql_tool (run_server ops srv)) /\
            pool_inv (schema_tool (run_server ops srv))).
  { unfold run_server. induction ops as [|op ops IH]; intros srv H; [exact H|].
    simpl. apply IH. destruct op as [drv name args|]; simpl.
    - now apply handle_call_tool_inv.
    - destruct H as [Hq Hs]. split; now apply close_connection_pool_inv. }
  destruct (Hinv new_server) as [Hq Hs]; [now split|].
  split; [now split|]. split.
  - unfold pool_inv in Hq, Hs. rewrite Hq, Hs.
    destruct (_connection_pool _), (_connection_pool _); simpl; lia.
  - destruct (close_clears _ Hq) as [H1 H2], (close_clears _ Hs) as [H3 H4].
    now repeat split.
Qed.

(** A call is not in a list of other calls. *)
Ltac not_among :=
  let Hin := fresh "Hin" in
  intros Hin;
  repeat (apply elem_of_cons in Hin as [Hin|Hin]; [discriminate|]);
  now apply elem_of_nil in Hin.

(** X20. A query on an instance that has a pool cached uses that pool and
    creates none, whatever becomes of the query: the pool fields are left
    as they were and no pool creation is among the calls made. A creation
    that fails is not remembered: the query raises after that one call,
    the instance is left without a pool, and the first call the next
    query makes, whatever it is, is a pool creation again. *)
Theorem pool_is_reused drv q db l fm self :
  (forall p, _connection_pool self = Some p ->
     pools_of (snd (_execute_query drv q db l fm self)) = pools_of self /\
     exists new,
       calls (snd (_execute_query drv q db l fm self)) = (calls self ++ new)%list /\
       CreatePool ∉ new)
  /\
  (forall e, _connection_pool self = None -> drv_create_pool drv = Some e ->
     fst (_execute_query drv q db l fm self) = inl e /\
     pools_of (snd (_execute_query drv q db l fm self)) = pools_of self /\
     calls (snd (_execute_query drv q db l fm self))
     = (calls self ++ [CreatePool])%list /\
     forall drv' q' db' l' fm',
       exists rest,
         calls (snd (_execute_query drv' q' db' l' fm'
                       (snd (_execute_query drv q db l fm self))))
         = (calls (snd (_execute_query drv q db l fm self))
              ++ CreatePool :: rest)%list).
Proof.
  split.
  - intros p Hp. split.
    + rewrite execute_query_pools. unfold _get_connection_pool. now rewrite Hp.
    + rewrite execute_query_unfold. unfold _get_connection_pool. rewrite Hp.
      destruct (drv_acquire drv) as [e|].
      { exists [Acquire p]. split; [reflexivity|not_among]. }
      destruct (drv_cursor drv) as [e|].
      { exists [Acquire p; OpenCursor; Release p]. unfold at_cursor. simpl.
        split; [now rewrite <- !app_assoc|not_among]. }
      destruct (execute_guarded_trace drv q db l fm (at_cursor p self))
        as (body & Hbody & Hstmt).
      destruct (execute_guarded drv q db l fm (at_cursor p self)) as [res s2].
      simpl in *. rewrite Hbody. unfold at_cursor. simpl.
      exists ([Acquire p; OpenCursor] ++ body ++ [CloseCursor; Release p])%list.
      split; [now rewrite <- !app_assoc|].
      intros Hin. rewrite !elem_of_app in Hin.
      destruct Hin as [Hin|[Hin|Hin]]; [revert Hin; not_among| |revert Hin; not_among].
      rewrite Forall_forall in Hstmt. now apply Hstmt in Hin.
  - intros e Hnone He.
    assert (Hrun : _execute_query drv q db l fm self
                   = (inl e, record_call CreatePool self)).
    { rewrite execute_query_unfold. unfold _get_connection_pool.
      now rewrite Hnone, He. }
    rewrite Hrun. cbn [fst snd].
    split; [reflexivity|split; [reflexivity|split; [reflexivity|]]].
    intros drv' q' db' l' fm'. rewrite execute_query_unfold.
    unfold _get_connection_pool. cbn [record_call _connection_pool].
    rewrite Hnone.
    destruct (drv_create_pool drv').
    { exists []. reflexivity. }
    destruct (drv_acquire drv') as [ea|].
    { eexists. simpl. rewrite <- !app_assoc. reflexivity. }
    destruct (drv_cursor drv') as [ec|].
    { eexists. unfold at_cursor. simpl. rewrite <- !app_assoc. reflexivity. }
    match goal with |- context [execute_guarded ?d ?a ?b ?c ?f ?s] =>
      destruct (execute_guarded_trace d a b c f s) as (body & Hbody & _);
      destruct (execute_guarded d a b c f s) as [res s2] end.
    simpl in *. rewrite Hbody. unfold at_cursor. simpl.
    eexists. rewrite <- !app_assoc. reflexivity.
Qed.

(** ** What reaches the server *)

(** X21. When switching to the database asked for fails, the statement
    itself is never sent: the only statement the driver sees is the
    [USE], and the record is the failure record of its exception. *)
Theorem failed_switch_skips_statement drv q d l fm self p s1 e :
  _get_connection_pool drv self = (inr p, s1) ->
  drv_acquire drv = None -> drv_cursor drv = None ->
  PyStr.truthy d = true -> drv_execute drv ("USE " ++ d) = inl e ->
  _execute_query drv q (Some d) l fm self
  = (inr (failure_result q e (drv_time drv)),
     record_call (Release p)
       (record_call CloseCursor
          (record_call (Execute ("USE " ++ d)) (at_cursor p s1)))) /\
  calls (snd (_execute_query drv q (Some d) l fm self))
  = (calls s1 ++ [Acquire p; OpenCursor; Execute ("USE " ++ d); CloseCursor;
                  Release p])%list.
Proof.
  intros Hp Ha Hc Hd He.
  assert (Hrun : _execute_query drv q (Some d) l fm self
    = (inr (failure_result q e (drv_time drv)),
       record_call (Release p)
         (record_call CloseCursor
            (record_call (Execute ("USE " ++ d)) (at_cursor p s1))))).
  { rewrite execute_query_unfold, Hp, Ha, Hc.
    unfold execute_guarded, switch_database, cursor_execute, bind, log, raise.
    rewrite Hd. simpl. now rewrite He. }
  rewrite Hrun. split; [reflexivity|].
  unfold at_cursor. simpl. now rewrite <- !app_assoc.
Qed.

Lemma first_token_nonblank v :
  PyStr.strip v <> EmptyString -> PyStr.truthy (PyStr.first_token v) = true.
Proof.
  unfold PyStr.strip, PyStr.first_token. intros Hv.
  destruct (lstrip_head v) as [He|(c & s' & He & Hc)]; rewrite He in *.
  - now contradiction Hv.
  - simpl. now rewrite Hc.
Qed.

(** X22. An ASCII text the validator accepts always has a statement type:
    being non-blank, it has a first token, so the executor never answers
    it with the [IndexError] of a blank statement. The text is taken in
    ASCII, where the [strip], [lower], [upper] and [split] of [PyStr]
    are those of Python. *)
Theorem accepted_text_has_type (v w : string) :
  PyStr.isascii v = true ->
  validate_query v = inr w ->
  query_type_of w = Some (PyStr.upper (PyStr.first_token v)) /\
  PyStr.upper (PyStr.first_token v) <> EmptyString.
Proof.
  intros _ Hv.
  assert (Hw : w = v).
  { revert Hv. unfold validate_query, validate_query_with. repeat step_tool; congruence. }
  subst w.
  assert (Hne : PyStr.strip v <> EmptyString).
  { apply (proj1 (validate_query_accepts v)). eauto. }
  pose proof (first_token_nonblank v Hne) as Ht.
  rewrite query_type_of_first_token, Ht. split; [reflexivity|].
  intros He. rewrite <- truthy_upper, He in Ht. discriminate.
Qed.

(** * The further properties at work *)

(** A statement the server rejects: the connection is released all the
    same. *)
Lemma connection_always_released_witness :
  exists body,
    calls (snd (_execute_query rejecting "SELEC 1" None 100 true new_tool))
    = ([CreatePool; Acquire 0; OpenCursor] ++ body ++ [CloseCursor; Release 0])%list.
Proof.
  destruct (connection_always_released rejecting "SELEC 1" None 100 true
              new_tool 0%nat pooled eq_refl) as [H _].
  destruct (H eq_refl eq_refl) as (body & Hbody & _).
  exists body. exact Hbody.
Defined.

(** An UPDATE in a database: five calls after the pool, no fetch. *)
Lemma rowless_statements_witness :
  exists r,
    fst (_execute_query mutating "UPDATE users SET name = 'x'" (Some "app") 100
           true new_tool) = inr r /\
    calls (snd (_execute_query mutating "UPDATE users SET name = 'x'"
                  (Some "app") 100 true new_tool))
    = [CreatePool; Acquire 0; OpenCursor; Execute "USE app";
       Execute "UPDATE users SET name = 'x'"; CloseCursor; Release 0] /\
    r_affected_rows r = Some 3%Z /\ r_last_insert_id r = Some (VInt 42).
Proof.
  destruct (rowless_statements mutating "UPDATE users SET name = 'x'"
              (Some "app") 100 true new_tool 0%nat pooled
              {| cur_rows := []; cur_description := None; cur_rowcount := 3;
                 cur_lastrowid := Some (VInt 42); cur_fetch_error := None |}
              "UPDATE" eq_refl eq_refl eq_refl)
    as (r & Hr & Hcalls & _ & _ & _ & _ & _ & Hmut & _);
    [intros _; now eexists|reflexivity|reflexivity|now left|].
  destruct Hmut as (Haff & Hid & _); [reflexivity|].
  exists r. now repeat split.
Defined.

(** A query of spaces on a server that accepts it. *)
Lemma blank_statement_is_executed_witness :
  fst (_execute_query (driver_of []) "   " None 100 true new_tool)
  = inr (failure_result "   " (IndexError "list index out of range") 0) /\
  calls (snd (_execute_query (driver_of []) "   " None 100 true new_tool))
  = [CreatePool; Acquire 0; OpenCursor; Execute "   "; CloseCursor; Release 0].
Proof.
  apply (blank_statement_is_executed (driver_of []) "   " None 100 true new_tool
           0%nat pooled (cursor_of [])); first [reflexivity|exact I].
Defined.

(** Three rows, a limit of three: nothing is cut off, [limited] is true. *)
Lemma limited_at_the_boundary_witness :
  exists r,
    fst (_execute_query (driver_of sample_rows) "SELECT id, name FROM users" None 3
           true new_tool) = inr r /\
    r_rows r = Some sample_rows /\ r_limited r = Some true.
Proof.
  destruct (limited_at_the_boundary (driver_of sample_rows)
              "SELECT id, name FROM users" None 3 true new_tool
              (cursor_of sample_rows))
    as (r & Hr & _ & Hrows & _ & Hlim);
    [apply acquires_fresh|exact I|reflexivity|reflexivity|reflexivity|exact I
    |lia|reflexivity|].
  now exists r.
Defined.

(** A SHOW with a limit of one still returns the three rows. *)
Lemma other_statements_ignore_limit_witness :
  exists r,
    fst (_execute_query (driver_of sample_rows) "SHOW TABLES" None 1 true new_tool)
    = inr r /\
    r_rows r = Some sample_rows /\ r_row_count r = Some 3%Z /\ r_limited r = None.
Proof.
  destruct (other_statements_ignore_limit (driver_of sample_rows) "SHOW TABLES"
              None 1 true new_tool 0%nat pooled (cursor_of sample_rows) "SHOW")
    as (r & Hr & _ & _ & Hrows & Hcount & Hlim & _);
    [reflexivity|reflexivity|reflexivity|exact I|reflexivity|reflexivity
    |reflexivity|reflexivity|].
  now exists r.
Defined.

(** The columns of a SELECT with a description. *)
Lemma select_columns_of_record_witness :
  exists r,
    fst (_execute_query described "SELECT id, name FROM users" None 100 true
           new_tool) = inr r /\
    r_columns r
    = Some [ColDict "id" "int" VNone (VInt 11) (VInt 11) (VInt 0) (VInt 0);
            ColDict "name" "unknown" VNone (VInt 50) (VInt 50) (VInt 0) (VInt 1)].
Proof.
  destruct (select_columns_of_record described "SELECT id, name FROM users" None
              100 true new_tool 0%nat pooled described_cursor)
    as [_ H];
    [reflexivity|reflexivity|reflexivity|exact I|reflexivity|reflexivity
    |reflexivity|].
  exists (with_columns
            (with_rows (base_result "SELECT id, name FROM users" "SELECT" 0)
               sample_rows 3 (Some false))
            [ColDict "id" "int" VNone (VInt 11) (VInt 11) (VInt 0) (VInt 0);
             ColDict "name" "unknown" VNone (VInt 50) (VInt 50) (VInt 0) (VInt 1)]).
  now split.
Defined.

(** The text of an UPDATE. *)
Lemma arun_rowless_text_witness :
  fst (_arun mutating "UPDATE users SET name = 'x'" None 100 true new_tool)
  = inr ("✅ MySQL UPDATE Query Executed Successfully" ++ PyVal.nl
           ++ "Query: UPDATE users SET name = 'x'" ++ PyVal.nl
           ++ "Affected rows: 3" ++ PyVal.nl
           ++ "Last insert ID: 42" ++ PyVal.nl).
Proof.
  destruct (arun_rowless_text mutating "UPDATE users SET name = 'x'" None 100
              true new_tool
              {| cur_rows := []; cur_description := None; cur_rowcount := 3;
                 cur_lastrowid := Some (VInt 42); cur_fetch_error := None |}
              "UPDATE") as [_ H];
    [split; [now right|now split]|exact I|reflexivity|reflexivity|].
  now apply H.
Defined.

(** Two results of six rows that differ in the sixth, for a SELECT. *)
Lemma format_shows_first_rows_witness :
  fst (_format_result
         (set_rows (base_result "SELECT n FROM t" "SELECT" 0)
            [[VInt 1]; [VInt 2]; [VInt 3]; [VInt 4]; [VInt 5]; [VInt 6]]))
  = fst (_format_result
           (set_rows (base_result "SELECT n FROM t" "SELECT" 0)
              [[VInt 1]; [VInt 2]; [VInt 3]; [VInt 4]; [VInt 5]; [VInt 60]])).
Proof.
  destruct (format_shows_first_rows (base_result "SELECT n FROM t" "SELECT" 0)
              [[VInt 1]; [VInt 2]; [VInt 3]; [VInt 4]; [VInt 5]; [VInt 6]]
              [[VInt 1]; [VInt 2]; [VInt 3]; [VInt 4]; [VInt 5]; [VInt 60]]
              eq_refl) as [_ H].
  now apply H.
Defined.

(** The stream of a SHOW that returned three rows. *)
Lemma stream_of_other_statement_witness :
  fst (astream_events (driver_of sample_rows) "SHOW TABLES" None 100 true new_tool)
  = inr [EvMetadata (Some "SHOW TABLES") (Some "SHOW") [] true None;
         EvSummary 3 false None VNone false None].
Proof.
  apply (stream_of_other_statement (driver_of sample_rows) "SHOW TABLES" None 100
           true new_tool (cursor_of sample_rows) "SHOW");
    [apply acquires_fresh|exact I|reflexivity|reflexivity|reflexivity|reflexivity].
Defined.

(** The stream of a statement the server rejects. *)
Lemma stream_of_failure_witness :
  exists msg,
    fst (astream_events rejecting "SELEC 1" None 100 true new_tool)
    = inr [EvMetadata (Some "SELEC 1") None [] false (Some msg);
           EvSummary 0 false None VNone false None].
Proof.
  destruct (stream_of_failure rejecting "SELEC 1" None 100 true new_tool
              (failure_result "SELEC 1"
                 (Exc "ProgrammingError" "You have an error in your SQL syntax") 0))
    as (msg & _ & H); [reflexivity|discriminate|].
  now exists msg.
Defined.

(** The stream of a SELECT cut at two rows. *)
Lemma stream_of_select_witness :
  exists columns events,
    fst (astream_events described "SELECT id, name FROM users" None 2 true new_tool)
    = inr (EvMetadata (Some "SELECT id, name FROM users") (Some "SELECT") columns
             true None
             :: events ++ [EvSummary 2 true None VNone false None])%list /\
    length events = 2%nat /\ map col_name columns = ["id"; "name"].
Proof.
  destruct (stream_of_select described "SELECT id, name FROM users" None 2 true
              new_tool described_cursor) as (columns & events & Hs & -> & Hcols);
    [split; [now right|now split]|exact I|reflexivity|reflexivity|reflexivity
    |now eexists|].
  exists columns. eexists. split; [exact Hs|]. split; [reflexivity|exact Hcols].
Defined.

(** The list of two databases, and a result with an empty row. *)
Lemma schema_listings_witness :
  fst (MySQLSchemaTool._arun (driver_of [[VStr "app_db"]; [VStr "test_db"]]) None
         None true new_tool)
  = inr ("📚 Available Databases:" ++ PyVal.nl
           ++ "  • app_db" ++ PyVal.nl ++ "  • test_db") /\
  fst (MySQLSchemaTool._arun (driver_of [[VStr "users"]; []]) (Some "app") None
         true new_tool)
  = inr "❌ MySQL Schema Tool Error: list index out of range".
Proof.
  split.
  - destruct (schema_listings (driver_of [[VStr "app_db"]; [VStr "test_db"]]) None
                None true new_tool (cursor_of [[VStr "app_db"]; [VStr "test_db"]]))
      as [H _]; [apply acquires_fresh|reflexivity|reflexivity|].
    destruct H as [H _]; [reflexivity|reflexivity|].
    apply H. now repeat constructor.
  - destruct (schema_listings (driver_of [[VStr "users"]; []]) (Some "app") None
                true new_tool (cursor_of [[VStr "users"]; []]))
      as [_ H]; [apply acquires_fresh|reflexivity|reflexivity|].
    destruct (H "app") as [_ H']; [reflexivity|reflexivity|reflexivity|].
    apply H'. now right; left.
Defined.

(** A DESCRIBE whose second row has two fields, and one whose first row
    has seven. *)
Lemma describe_malformed_row_witness :
  fst (MySQLSchemaTool._arun
         (driver_of [[VStr "id"; VStr "int"; VStr "NO"; VStr "PRI"; VNone; VStr "x"];
                     [VStr "name"; VStr "text"]])
         None (Some "users") true new_tool)
  = inr "❌ MySQL Schema Tool Error: not enough values to unpack (expected 6, got 2)"
  /\
  fst (MySQLSchemaTool._arun
         (driver_of [[VStr "id"; VStr "int"; VStr "NO"; VStr "PRI"; VNone; VStr "x";
                      VStr "y"]])
         None (Some "users") true new_tool)
  = inr "❌ MySQL Schema Tool Error: too many values to unpack (expected 6)".
Proof.
  split.
  - apply (describe_malformed_row _ None "users" true new_tool
             (cursor_of [[VStr "id"; VStr "int"; VStr "NO"; VStr "PRI"; VNone;
                          VStr "x"];
                         [VStr "name"; VStr "text"]])
             [[VStr "id"; VStr "int"; VStr "NO"; VStr "PRI"; VNone; VStr "x"]]
             [VStr "name"; VStr "text"] []);
      [reflexivity|apply acquires_fresh|exact I|reflexivity|reflexivity
      |reflexivity|now repeat constructor|simpl; lia].
  - apply (describe_malformed_row _ None "users" true new_tool
             (cursor_of [[VStr "id"; VStr "int"; VStr "NO"; VStr "PRI"; VNone;
                          VStr "x"; VStr "y"]])
             []
             [VStr "id"; VStr "int"; VStr "NO"; VStr "PRI"; VNone; VStr "x";
              VStr "y"] []);
      [reflexivity|apply acquires_fresh|exact I|reflexivity|reflexivity
      |reflexivity|constructor|simpl; lia].
Defined.

(** A query in a database the server does not know. *)
Lemma failed_switch_skips_statement_witness :
  calls (snd (_execute_query no_database "DELETE FROM users" (Some "ghost") 100
                true new_tool))
  = [CreatePool; Acquire 0; OpenCursor; Execute "USE ghost"; CloseCursor;
     Release 0].
Proof.
  destruct (failed_switch_skips_statement no_database "DELETE FROM users" "ghost"
              100 true new_tool 0%nat pooled
              (Exc "OperationalError" "Unknown database")) as [_ H];
    [reflexivity|reflexivity|reflexivity|reflexivity|reflexivity|].
  exact H.
Defined.

(** An accepted text and its type. *)
Lemma accepted_text_has_type_witness :
  query_type_of "  show tables" = Some "SHOW".
Proof.
  destruct (accepted_text_has_type "  show tables" "  show tables" eq_refl
              eq_refl) as [H _].
  exact H.
Defined.

(** A server out of reach: the tool error line. *)
Lemma arun_always_answers_witness :
  fst (_arun unreachable "SELECT 1" None 100 true new_tool)
  = inr ("❌ MySQL Tool Error: Can't connect to MySQL server" ++ PyVal.nl
           ++ "Query: SELECT 1").
Proof.
  destruct (arun_always_answers unreachable "SELECT 1" None 100 true new_tool)
    as (text & Ht & He & _).
  rewrite Ht. f_equal. exact (He _ eq_refl).
Defined.

(** An empty database name counts as none: the table is described
    unqualified. *)
Lemma schema_modes_witness :
  snd (MySQLSchemaTool._arun (driver_of []) (Some EmptyString) (Some "users") true
         new_tool)
  = snd (_execute_query (driver_of []) "DESCRIBE users" (Some EmptyString) 100
           true new_tool).
Proof.
  destruct (schema_modes (driver_of []) (Some EmptyString) (Some "users") true
              new_tool) as (_ & _ & _ & _ & H).
  exact (H "users" eq_refl eq_refl).
Defined.

(** A rejected listing, and a description on a server out of reach. *)
Lemma schema_error_lines_witness :
  fst (MySQLSchemaTool._arun rejecting None None true new_tool)
  = inr "❌ Error listing databases: You have an error in your SQL syntax" /\
  fst (MySQLSchemaTool._arun unreachable (Some "app") (Some "users") true new_tool)
  = inr "❌ MySQL Schema Tool Error: Can't connect to MySQL server".
Proof.
  split.
  - destruct (schema_error_lines rejecting None None true new_tool) as [H _].
    destruct H as [_ H]; [reflexivity|reflexivity|].
    destruct (H _ eq_refl) as (msg & Hmsg & Htext); [discriminate|].
    injection Hmsg as <-. exact Htext.
  - destruct (schema_error_lines unreachable (Some "app") (Some "users") true
                new_tool) as (_ & _ & H).
    destruct (H "users" eq_refl eq_refl) as [He _].
    exact (He _ eq_refl).
Defined.

(** A text accepted in lowercase is accepted in uppercase. *)
Lemma validator_verdict_witness :
  exists w, validate_query "SELECT NAME FROM USERS" = inr w.
Proof.
  destruct (validator_verdict "select name from users" eq_refl) as [H _].
  apply H. now eexists.
Defined.

(** A tool that does not exist. *)
Lemma dispatch_boundary_witness :
  handle_call_tool (driver_of []) "mysql_dump" None new_server
  = (["Error executing mysql_dump: Unknown tool: mysql_dump"], new_server).
Proof.
  destruct (dispatch_boundary (driver_of []) "mysql_dump" None new_server)
    as (_ & H & _).
  apply H; discriminate.
Defined.

(** Queries and schema calls, a shutdown in between, then the close. *)
Lemma server_pools_witness :
  let srv :=
    run_server
      [OpCall (driver_of []) "mysql_query" (Some (query_arguments "SELECT 1"));
       OpCall (driver_of []) "mysql_schema" None;
       OpShutdown;
       OpCall unreachable "mysql_query" (Some (query_arguments "SELECT 1"));
       OpCall (driver_of []) "mysql_schema" None]
      new_server in
  live_pools (mysql_tool (MySQLMCPServer.close srv)) = [] /\
  live_pools (schema_tool (MySQLMCPServer.close srv)) = [].
Proof.
  pose proof (server_pools
    [OpCall (driver_of []) "mysql_query" (Some (query_arguments "SELECT 1"));
     OpCall (driver_of []) "mysql_schema" None;
     OpShutdown;
     OpCall unreachable "mysql_query" (Some (query_arguments "SELECT 1"));
     OpCall (driver_of []) "mysql_schema" None]) as H.
  cbv zeta in H. destruct H as (_ & _ & _ & H1 & _ & H2). now split.
Defined.

(** A failed statement leaves the pool where it was; after a server out
    of reach, the next query starts by creating a pool. *)
Lemma pool_is_reused_witness :
  pools_of (snd (_execute_query rejecting "SELEC 1" None 100 true pooled))
  = pools_of pooled /\
  exists rest,
    calls (snd (_execute_query (driver_of []) "SELECT 1" None 100 true
                  (snd (_execute_query unreachable "SELECT 1" None 100 true
                          new_tool))))
    = ([CreatePool; CreatePool] ++ rest)%list.
Proof.
  split.
  - destruct (pool_is_reused rejecting "SELEC 1" None 100 true pooled) as [H _].
    destruct (H 0%nat eq_refl) as [Hpools _]. exact Hpools.
  - destruct (pool_is_reused unreachable "SELECT 1" None 100 true new_tool)
      as [_ H].
    destruct (H _ eq_refl eq_refl) as (_ & _ & _ & Hnext).
    destruct (Hnext (driver_of []) "SELECT 1" None 100%Z true) as (rest & Hc).
    exists rest. exact Hc.
Defined.
